(** * EveryPage: a shallow embedding of the document processing pipeline

    The development follows the Python sources module by module:
    [models.py], [external_commands.py], [document_converter.py],
    [pdf_processor.py], [image_processor.py], [resetdata_ai_adapter.py],
    [result_aggregator.py], [workflow_orchestrator.py], [api_security.py],
    [main_api.py] and [job_store.py].

    Conventions.
    - A Python [str] is a [string]; every [ascii] stands for one code point
      below U+0100, so [String.length] is Python's [len].
    - A Python [int] is a [Z]; a [len(...)] or a loop counter is a [nat].
    - [bytes] are [list byte].
    - [None] is [None]; [Optional[T]] is [option T].
    - A call that can raise returns a [result]; the operating system, the
      remote model, the clock and the texts written by libraries are read
      through explicit oracle records.
    - A Python [float] is used for the progress of a job only, where it is
      compared and never computed with: it is a rational, an infinity or a
      NaN.
    - A [dict] whose order is observed is an association list; an object
      that is mutated in place is replaced where it is stored.
    - Definitions come first, module by module; all lemmas follow. *)

From Stdlib Require Import ZArith NArith Ascii String DecimalString DecimalPos.
From Stdlib.Strings Require Import Byte.
From Stdlib Require QArith.
From stdpp Require Import base list strings gmap sorting.

Open Scope string_scope.
Open Scope nat_scope.
Open Scope list_scope.
Set Warnings "-register-all,-clear-no-such-hyp".

(* ===================================================================== *)
(** * Python built-ins used by the sources                                *)
(* ===================================================================== *)

Module Py.

(** [str.isspace] on one code point below U+0100: the ASCII white space
    characters, the four information separators, NEL and NBSP. *)
Definition isspace (c : ascii) : bool :=
  let n := nat_of_ascii c in
  ((9 <=? n) && (n <=? 13)) || ((28 <=? n) && (n <=? 32))
  || (n =? 133) || (n =? 160).

(** [s.lstrip()] *)
Fixpoint lstrip (s : string) : string :=
  match s with
  | EmptyString => EmptyString
  | String c s' => if isspace c then lstrip s' else s
  end.

(** [s.rstrip()] *)
Fixpoint rstrip (s : string) : string :=
  match s with
  | EmptyString => EmptyString
  | String c s' =>
      match rstrip s' with
      | EmptyString => if isspace c then EmptyString else String c EmptyString
      | r => String c r
      end
  end.

(** [s.strip()] *)
Definition strip (s : string) : string := rstrip (lstrip s).

(** Every character of [s] is white space. *)
Fixpoint all_space (s : string) : bool :=
  match s with
  | EmptyString => true
  | String c s' => isspace c && all_space s'
  end.

(** [s.startswith(p)] *)
Definition startswith (s p : string) : bool := String.prefix p s.

(** [s[n:]] for [0 <= n] *)
Fixpoint slice_from (n : nat) (s : string) : string :=
  match n, s with
  | O, _ => s
  | S _, EmptyString => EmptyString
  | S n', String _ s' => slice_from n' s'
  end.

(** [s[:n]] for [0 <= n] *)
Fixpoint slice_to (n : nat) (s : string) : string :=
  match n, s with
  | O, _ => EmptyString
  | S _, EmptyString => EmptyString
  | S n', String c s' => String c (slice_to n' s')
  end.

(** [s[:-k]] for [0 < k]: everything but the last [k] characters, the empty
    string when [s] is shorter than [k]. *)
Definition slice_drop_last (k : nat) (s : string) : string :=
  slice_to (String.length s - k) s.

(** [s.endswith(p)] *)
Definition endswith (s p : string) : bool :=
  (String.length p <=? String.length s)
  && String.eqb (slice_from (String.length s - String.length p) s) p.

(** [bool(s)] for a string: non-empty. *)
Definition truthy (s : string) : bool :=
  match s with EmptyString => false | _ => true end.

(** [bool(o)] for an [Optional[str]]: present and non-empty. *)
Definition truthy_opt (o : option string) : bool :=
  match o with Some s => truthy s | None => false end.

(** [needle in s] *)
Fixpoint contains (needle s : string) : bool :=
  String.prefix needle s
  || match s with
     | EmptyString => false
     | String _ s' => contains needle s'
     end.

(** [str(n)] for an [int]. *)
Definition str_of_Z (n : Z) : string := NilZero.string_of_int (Z.to_int n).

(** [str(n)] for a length. *)
Definition str_of_nat (n : nat) : string := str_of_Z (Z.of_nat n).

(** [c.lower()] and [s.lower()] on code points below U+0100: the ASCII
    capitals and the accented capitals U+00C0 to U+00DE, the multiplication
    sign excepted, move up by 32. *)
Definition lower_ascii (c : ascii) : ascii :=
  let n := nat_of_ascii c in
  if ((65 <=? n) && (n <=? 90))
     || ((192 <=? n) && (n <=? 222) && negb (n =? 215))
  then ascii_of_nat (n + 32) else c.

Fixpoint lower (s : string) : string :=
  match s with
  | EmptyString => EmptyString
  | String c s' => String (lower_ascii c) (lower s')
  end.

(** [repr(s)] for a string: single quotes unless the text holds a single
    quote and no double quote; backslash, the quote, tab, newline and
    carriage return are escaped, other unprintable characters are written
    in hexadecimal. *)
Definition double_quote : ascii := ascii_of_nat 34.

Definition hex_digit (n : nat) : ascii :=
  default "0"%char (String.get n "0123456789abcdef").

Definition isprintable (c : ascii) : bool :=
  let n := nat_of_ascii c in
  ((32 <=? n) && (n <=? 126)) || ((161 <=? n) && negb (n =? 173)).

Definition repr_char (quote c : ascii) : string :=
  let n := nat_of_ascii c in
  if Ascii.eqb c "\" then "\\"
  else if Ascii.eqb c quote then String "\" (String quote "")
  else if n =? 9 then "\t"
  else if n =? 10 then "\n"
  else if n =? 13 then "\r"
  else if isprintable c then String c ""
  else String "\" (String "x" (String (hex_digit (n / 16))
                                 (String (hex_digit (n mod 16)) ""))).

Fixpoint repr_body (quote : ascii) (s : string) : string :=
  match s with
  | EmptyString => EmptyString
  | String c s' => repr_char quote c +:+ repr_body quote s'
  end.

Definition repr_str (s : string) : string :=
  let quote :=
    if contains "'" s && negb (contains (String double_quote "") s)
    then double_quote else "'"%char in
  String quote (repr_body quote s +:+ String quote "").

(** [f"{o}"] for an [Optional[str]]. *)
Definition format_opt (o : option string) : string := default "None" o.

(** [sorted(l, key=key)]: Python's sort is stable, so its result is the
    stable arrangement of [l] by non-decreasing key; insertion from the
    right computes exactly that list. *)
Fixpoint insort {A} (key : A -> Z) (x : A) (l : list A) : list A :=
  match l with
  | [] => [x]
  | y :: l' =>
      if (key x <=? key y)%Z then x :: y :: l' else y :: insort key x l'
  end.

Definition sorted {A} (key : A -> Z) (l : list A) : list A :=
  foldr (insort key) [] l.

(** What a call that may raise produces. *)
Inductive result (A : Type) : Type :=
| Returned (a : A)
| Raised (exc : string) (msg : string).
Arguments Returned {A} a.
Arguments Raised {A} exc msg.

End Py.

(* ===================================================================== *)
(** * models.py                                                           *)
(* ===================================================================== *)

Module Models.

(** The value [json.loads] builds; a float keeps its lexeme. *)
Inductive json : Type :=
| JNull
| JBool (b : bool)
| JInt (n : Z)
| JFloat (lexeme : string)
| JStr (s : string)
| JArr (items : list json)
| JObj (members : list (string * json)).

(** A value of the metadata dictionary ([Dict[str, Any]] as
    [parse_pdfinfo_output] and the orchestrator fill it). *)
Inductive meta_value : Type :=
| MInt (n : Z)
| MStr (s : string)
| MBool (b : bool)
| MFloat (lexeme : string).

(** [AppSettings] *)
Record AppSettings := mkAppSettings {
  resetdata_base_url : string;
  resetdata_model : string;
  max_workers : Z;
  process_timeout : Z;
  temp_dir_base : string;
  libreoffice_command : string;
  pdftoppm_command : string;
  pdfinfo_command : string;
  log_level : string
}.

Definition default_settings : AppSettings :=
  {| resetdata_base_url := "https://models.au-syd.resetdata.ai/v1";
     resetdata_model := "meta-llama/Llama-4-Maverick-17B-128E-Instruct:shared";
     max_workers := 5;
     process_timeout := 90;
     temp_dir_base := "/tmp/everypage_pure";
     libreoffice_command := "libreoffice";
     pdftoppm_command := "pdftoppm";
     pdfinfo_command := "pdfinfo";
     log_level := "INFO" |}.

(** The settings with another worker limit. *)
Definition with_max_workers (k : Z) (config : AppSettings) : AppSettings :=
  {| resetdata_base_url := resetdata_base_url config;
     resetdata_model := resetdata_model config;
     max_workers := k;
     process_timeout := process_timeout config;
     temp_dir_base := temp_dir_base config;
     libreoffice_command := libreoffice_command config;
     pdftoppm_command := pdftoppm_command config;
     pdfinfo_command := pdfinfo_command config;
     log_level := log_level config |}.

(** [PageProcessingStatus] *)
Inductive PageProcessingStatus : Type :=
| SUCCESS
| MOCK_SUCCESS
| ERROR_API
| ERROR_PARSING
| ERROR_VALIDATION
| ERROR_TIMEOUT
| ERROR_IMAGE_ENCODING
| ERROR_UNKNOWN.

#[global] Instance status_eq_dec : EqDecision PageProcessingStatus.
Proof. solve_decision. Defined.

Definition status_eqb (a b : PageProcessingStatus) : bool :=
  match a, b with
  | SUCCESS, SUCCESS | MOCK_SUCCESS, MOCK_SUCCESS | ERROR_API, ERROR_API
  | ERROR_PARSING, ERROR_PARSING | ERROR_VALIDATION, ERROR_VALIDATION
  | ERROR_TIMEOUT, ERROR_TIMEOUT
  | ERROR_IMAGE_ENCODING, ERROR_IMAGE_ENCODING
  | ERROR_UNKNOWN, ERROR_UNKNOWN => true
  | _, _ => false
  end.

(** The two statuses the aggregator counts as successful. *)
Definition is_success (s : PageProcessingStatus) : bool :=
  match s with SUCCESS | MOCK_SUCCESS => true | _ => false end.

Definition is_error (s : PageProcessingStatus) : bool := negb (is_success s).

(** The [data] field, [Optional[Union[Dict[str, Any], str]]]: once the
    record is built the payload is a dictionary or a string. *)
Inductive page_data : Type :=
| DataDict (members : list (string * json))
| DataStr (s : string).

(** What building a [PageProcessingResult] does with the value given for
    [data]: [None] stays [None], a dictionary or a string is kept, and any
    other value fails the field's validation. The text of the
    [ValidationError] is pydantic's report on the refused value; it is
    written by the library and is read here through [error_str]. *)
Definition validate_data (error_str : json -> string) (v : json)
    : Py.result (option page_data) :=
  match v with
  | JNull => Py.Returned None
  | JObj members => Py.Returned (Some (DataDict members))
  | JStr s => Py.Returned (Some (DataStr s))
  | JBool _ | JInt _ | JFloat _ | JArr _ =>
      Py.Raised "ValidationError" (error_str v)
  end.

(** [PageProcessingResult]; [processed_at] is the clock reading taken by
    the field's default factory. *)
Record PageProcessingResult := mkPageResult {
  page_number : Z;
  status : PageProcessingStatus;
  data : option page_data;
  error_message : option string;
  raw_response : option string;
  processed_at : string
}.

(** [PageProcessingResult(page_number=..., status=..., data=...,
    error_message=..., raw_response=...)] *)
Definition new_PageProcessingResult
    (error_str : json -> string)
    (now : string) (page_number : Z) (status : PageProcessingStatus)
    (data : json) (error_message raw_response : option string)
    : Py.result PageProcessingResult :=
  match validate_data error_str data with
  | Py.Returned d =>
      Py.Returned
        (mkPageResult page_number status d error_message raw_response now)
  | Py.Raised exc e => Py.Raised exc e
  end.

(** The [processing_summary] dictionary of an [AggregatedResult], one
    field per key. *)
Record ProcessingSummary := mkSummary {
  document_name : string;
  source_total_pages : meta_value;
  processed_pages_count : nat;
  successful_pages_count : nat;
  mock_pages_count : nat;
  pages_with_errors_count : nat;
  processing_prompt_used_snippet : string;
  aggregation_timestamp : string;
  total_processing_time_seconds : string;
  aggregation_time_seconds : string;
  pdf_metadata : gmap string meta_value
}.

(** [AggregatedResult] *)
Record AggregatedResult := mkAggregated {
  job_id : string;
  processing_summary : ProcessingSummary;
  pages : list PageProcessingResult
}.

End Models.

(* ===================================================================== *)
(** * result_aggregator.py                                                *)
(* ===================================================================== *)

Module ResultAggregator.
Import Models.

(** The clock readings [aggregate_processing_results] takes, already
    rendered: [datetime.now().isoformat()] and the two rounded durations. *)
Record AggregationClock := mkAggregationClock {
  now_isoformat : string;
  total_seconds_rounded : string;
  aggregation_seconds_rounded : string
}.

(** The four counters of the counting loop. *)
Record Counters := mkCounters {
  processed_pages : nat;
  successful_pages : nat;
  mock_pages : nat;
  pages_with_errors : nat
}.

Definition zero_counters : Counters := mkCounters 0 0 0 0.

(** One iteration of [for result in page_results]. *)
Definition count_result (c : Counters) (r : PageProcessingResult) : Counters :=
  let processed := S (processed_pages c) in
  match status r with
  | SUCCESS =>
      mkCounters processed (S (successful_pages c)) (mock_pages c)
        (pages_with_errors c)
  | MOCK_SUCCESS =>
      mkCounters processed (S (successful_pages c)) (S (mock_pages c))
        (pages_with_errors c)
  | _ =>
      mkCounters processed (successful_pages c) (mock_pages c)
        (S (pages_with_errors c))
  end.

Definition count_results (page_results : list PageProcessingResult) : Counters :=
  fold_left count_result page_results zero_counters.

(** [user_prompt[:200] + "..." if len(user_prompt) > 200 else user_prompt] *)
Definition prompt_snippet (user_prompt : string) : string :=
  if 200 <? String.length user_prompt
  then Py.slice_to 200 user_prompt +:+ "..."
  else user_prompt.

(** [pdf_metadata.get('pages', total_pages)] *)
Definition reported_total_pages
    (pdf_metadata : gmap string meta_value) (total_pages : nat) : meta_value :=
  default (MInt (Z.of_nat total_pages)) (pdf_metadata !! "pages").

Definition aggregate_processing_results
    (clock : AggregationClock)
    (job_id document_name : string)
    (page_results : list PageProcessingResult)
    (pdf_metadata : gmap string meta_value)
    (user_prompt : string) : AggregatedResult :=
  let total_pages := length page_results in
  let reported := reported_total_pages pdf_metadata total_pages in
  let c := count_results page_results in
  let processing_summary :=
    {| document_name := document_name;
       source_total_pages := reported;
       processed_pages_count := processed_pages c;
       successful_pages_count := successful_pages c;
       mock_pages_count := mock_pages c;
       pages_with_errors_count := pages_with_errors c;
       processing_prompt_used_snippet := prompt_snippet user_prompt;
       aggregation_timestamp := now_isoformat clock;
       total_processing_time_seconds := total_seconds_rounded clock;
       aggregation_time_seconds := aggregation_seconds_rounded clock;
       pdf_metadata := pdf_metadata |} in
  let sorted_page_results := Py.sorted page_number page_results in
  {| job_id := job_id;
     processing_summary := processing_summary;
     pages := sorted_page_results |}.

End ResultAggregator.

(* ===================================================================== *)
(** * base64 (standard library), as [image_processor.py] uses it          *)
(* ===================================================================== *)

Module Base64.

(** The value of a byte, and the byte an [unsigned char] store keeps. *)
Definition byte_val (b : byte) : Z := Z.of_N (Byte.to_N b).

Definition byte_of_Z (z : Z) : byte :=
  default x00 (Byte.of_N (Z.to_N (z mod 256)%Z)).

Definition table_b2a_base64 : string :=
  "ABCDEFGHIJKLMNOPQRSTUVWXYZabcdefghijklmnopqrstuvwxyz0123456789+/".

(** The character of a six-bit value. *)
Definition b2a (v : Z) : ascii :=
  default "="%char (String.get (Z.to_nat v) table_b2a_base64).

(** The six-bit value of a character of the alphabet. *)
Definition a2b (ch : ascii) : option Z :=
  let n := Z.of_nat (nat_of_ascii ch) in
  if ((65 <=? n) && (n <=? 90))%Z then Some (n - 65)%Z
  else if ((97 <=? n) && (n <=? 122))%Z then Some (n - 97 + 26)%Z
  else if ((48 <=? n) && (n <=? 57))%Z then Some (n - 48 + 52)%Z
  else if (n =? 43)%Z then Some 62%Z
  else if (n =? 47)%Z then Some 63%Z
  else None.

(** [base64.b64encode(bs)]: three bytes become four characters; one or two
    trailing bytes are padded with [=]. *)
Fixpoint b64encode (bs : list byte) : string :=
  match bs with
  | [] => ""
  | [a] =>
      let x := byte_val a in
      String (b2a (Z.shiftr x 2))
        (String (b2a (Z.shiftl (Z.land x 3) 4)) "==")
  | [a; b] =>
      let x := byte_val a in
      let y := byte_val b in
      String (b2a (Z.shiftr x 2))
        (String (b2a (Z.lor (Z.shiftl (Z.land x 3) 4) (Z.shiftr y 4)))
           (String (b2a (Z.shiftl (Z.land y 15) 2)) "="))
  | a :: b :: c :: rest =>
      let x := byte_val a in
      let y := byte_val b in
      let z := byte_val c in
      String (b2a (Z.shiftr x 2))
        (String (b2a (Z.lor (Z.shiftl (Z.land x 3) 4) (Z.shiftr y 4)))
           (String (b2a (Z.lor (Z.shiftl (Z.land y 15) 2) (Z.shiftr z 6)))
              (String (b2a (Z.land z 63)) (b64encode rest))))
  end.

(** [binascii.a2b_base64] without strict mode, the loop behind
    [base64.b64decode(s)]: characters outside the alphabet are skipped, a
    pad sequence that completes a quad ends the decoding, and input that
    stops inside a quad is an error. *)
Fixpoint a2b_base64_loop (s : string) (quad_pos : nat) (leftchar : Z)
    (pads : nat) (bin_data : list byte) : Py.result (list byte) :=
  match s with
  | EmptyString =>
      match quad_pos with
      | 0 => Py.Returned bin_data
      | 1 => Py.Raised "binascii.Error"
               "Invalid base64-encoded string: number of data characters cannot be 1 more than a multiple of 4"
      | _ => Py.Raised "binascii.Error" "Incorrect padding"
      end
  | String ch s' =>
      if Ascii.eqb ch "="
      then
        if 2 <=? quad_pos
        then
          if 4 <=? quad_pos + S pads
          then Py.Returned bin_data
          else a2b_base64_loop s' quad_pos leftchar (S pads) bin_data
        else a2b_base64_loop s' quad_pos leftchar pads bin_data
      else
        match a2b ch with
        | None => a2b_base64_loop s' quad_pos leftchar pads bin_data
        | Some v =>
            match quad_pos with
            | 0 => a2b_base64_loop s' 1 v 0 bin_data
            | 1 =>
                a2b_base64_loop s' 2 (Z.land v 15) 0
                  (bin_data ++ [byte_of_Z (Z.lor (Z.shiftl leftchar 2) (Z.shiftr v 4))])
            | 2 =>
                a2b_base64_loop s' 3 (Z.land v 3) 0
                  (bin_data ++ [byte_of_Z (Z.lor (Z.shiftl leftchar 4) (Z.shiftr v 2))])
            | _ =>
                a2b_base64_loop s' 0 0 0
                  (bin_data ++ [byte_of_Z (Z.lor (Z.shiftl leftchar 6) v)])
            end
        end
  end.

(** [base64.b64decode(s)] *)
Definition b64decode (s : string) : Py.result (list byte) :=
  a2b_base64_loop s 0 0 0 [].

End Base64.

(* ===================================================================== *)
(** * pathlib and the file system                                         *)
(* ===================================================================== *)

Module Pathlib.

(** An absolute path, as the list of its components from the root. *)
Definition Path : Type := list string.

(** [str(p)] *)
Definition str (p : Path) : string :=
  match p with
  | [] => "/"
  | _ => String.concat "" (map (fun c => "/" +:+ c) p)
  end.

(** [p.name] *)
Definition name (p : Path) : string := List.last p "".

(** [p / child] for a relative [child] of at most one component: joining
    the empty string leaves the path unchanged. *)
Definition joinpath (p : Path) (child : string) : Path :=
  match child with
  | EmptyString => p
  | _ => p ++ [child]
  end.

(** [s.rfind('.')]: the index of the last dot. *)
Fixpoint rfind_dot (s : string) : option nat :=
  match s with
  | EmptyString => None
  | String c s' =>
      match rfind_dot s' with
      | Some i => Some (S i)
      | None => if Ascii.eqb c "." then Some 0 else None
      end
  end.

(** The index at which [p.suffix] starts: the last dot of the name, unless
    it is the first or the last character. *)
Definition suffix_index (nm : string) : option nat :=
  match rfind_dot nm with
  | Some i => if (0 <? i) && (i <? String.length nm - 1) then Some i else None
  | None => None
  end.

(** [p.suffix] *)
Definition suffix (p : Path) : string :=
  match suffix_index (name p) with
  | Some i => Py.slice_from i (name p)
  | None => ""
  end.

(** [p.stem] *)
Definition stem (p : Path) : string :=
  match suffix_index (name p) with
  | Some i => Py.slice_to i (name p)
  | None => name p
  end.

(** The paths that exist, files and directories alike. *)
Abbreviation FileSystem := (gset (list string)).

(** [p.exists()] *)
Definition exists_ (fs : FileSystem) (p : Path) : bool := bool_decide (p ∈ fs).

End Pathlib.

(* ===================================================================== *)
(** * image_processor.py                                                  *)
(* ===================================================================== *)

Module ImageProcessor.
Import Pathlib.

(** What [image_path.read_bytes()] does. *)
Inductive read_outcome : Type :=
| ReadBytes (image_bytes : list byte)
| ReadFileNotFound
| ReadOSError (e : string)
| ReadOtherError (e : string).

Definition encode_image_to_base64
    (read_bytes : Path -> read_outcome) (image_path : Path)
    : option string * option string :=
  match read_bytes image_path with
  | ReadBytes image_bytes =>
      let base64_string := Base64.b64encode image_bytes in
      (Some base64_string, None)
  | ReadFileNotFound =>
      let error_msg := "Image file not found for encoding: " +:+ str image_path in
      (None, Some error_msg)
  | ReadOSError e =>
      let error_msg :=
        "OS error reading image file '" +:+ str image_path +:+ "': " +:+ e in
      (None, Some error_msg)
  | ReadOtherError e =>
      let error_msg :=
        "Unexpected error during image encoding for '" +:+ str image_path
        +:+ "': " +:+ e in
      (None, Some error_msg)
  end.

End ImageProcessor.

(* ===================================================================== *)
(** * The environment of a run                                            *)
(* ===================================================================== *)

Module Env.
Import Pathlib Models.

(** What [asyncio.create_subprocess_exec] followed by [communicate] does:
    the process exits with a code and its two decoded output streams, the
    executable is missing, or the launch fails otherwise. *)
Inductive spawn_outcome : Type :=
| Exited (returncode : Z) (stdout stderr : string)
| CommandNotFound
| SpawnError (e : string).

(** The request [client.chat.completions.create] receives. *)
Record ChatRequest := mkChatRequest {
  req_api_key : string;
  req_base_url : string;
  req_model : string;
  req_image_url : string;
  req_text : string
}.

(** The completion it answers with: no choices, or the first choice's
    message content. *)
Inductive completion : Type :=
| NoChoices
| FirstChoice (content : option string).

(** Everything outside the program that a run reads: the operating
    system, the standard library's text functions, the remote model, the
    clock, the order in which concurrent tasks complete, the prompt file
    read at import time, and the metadata text parser of
    [pdf_processor.py], whose result no statement below looks into. *)
Record World := mkWorld {
  os_spawn : list string -> FileSystem -> spawn_outcome * FileSystem;
  os_mkdir_error : Path -> FileSystem -> option string;
  os_unlink_error : Path -> FileSystem -> option string;
  os_rmtree_error : Path -> FileSystem -> option string;
  os_glob : Path -> string -> FileSystem -> list Path;
  os_read_bytes : Path -> ImageProcessor.read_outcome;
  html_unescape : string -> Py.result string;
  json_loads : string -> Py.result json;
  json_dumps : list (string * json) -> string;
  chat_completions_create : ChatRequest -> Py.result completion;
  time_time_int : Z;
  datetime_now : Z -> string;
  aggregation_clock : ResultAggregator.AggregationClock;
  completion_choices : list nat;
  META_PROMPT_TEMPLATE : string;
  parse_pdfinfo_output : string -> gmap string meta_value;
  validation_error_str : json -> string
}.

(** [p.mkdir(parents=True, exist_ok=True)]: on success the directory and
    its ancestors exist. *)
Definition mkdir (w : World) (p : Path) (fs : FileSystem) : Py.result FileSystem :=
  match os_mkdir_error w p fs with
  | Some e => Py.Raised "OSError" e
  | None => Py.Returned (fs ∪ list_to_set (map (fun n => take n p) (seq 1 (length p))))
  end.

(** [p.unlink()] *)
Definition unlink (w : World) (p : Path) (fs : FileSystem) : Py.result FileSystem :=
  match os_unlink_error w p fs with
  | Some e => Py.Raised "OSError" e
  | None => Py.Returned (fs ∖ {[ p ]})
  end.

(** [shutil.rmtree(p)]: on success nothing at or below [p] is left. *)
Definition rmtree (w : World) (p : Path) (fs : FileSystem) : Py.result FileSystem :=
  match os_rmtree_error w p fs with
  | Some e => Py.Raised "OSError" e
  | None => Py.Returned (filter (fun q => take (length p) q ≠ p) fs)
  end.

End Env.

(* ===================================================================== *)
(** * external_commands.py                                                *)
(* ===================================================================== *)

Module ExternalCommands.
Import Pathlib Env.

Definition run_subprocess_async
    (w : World) (command : list string) (fs : FileSystem)
    : (Z * string * string) * FileSystem :=
  match os_spawn w command fs with
  | (Exited return_code stdout stderr, fs') =>
      ((return_code, Py.strip stdout, Py.strip stderr), fs')
  | (CommandNotFound, fs') =>
      ((-1, "", "Command not found: " +:+ hd "" command)%Z, fs')
  | (SpawnError e, fs') =>
      ((-2, "", "Unexpected error running command: " +:+ e)%Z, fs')
  end.

End ExternalCommands.

(* ===================================================================== *)
(** * document_converter.py                                               *)
(* ===================================================================== *)

Module DocumentConverter.
Import Pathlib Models Env ExternalCommands.

(** The output file the conversion is expected to leave. *)
Definition expected_output_pdf (input_path output_dir : Path) : Path :=
  joinpath output_dir (stem input_path +:+ ".pdf").

Definition conversion_command
    (config : AppSettings) (input_path output_dir : Path) : list string :=
  [ libreoffice_command config; "--invisible"; "--norestore"; "--nolockcheck";
    "--convert-to"; "pdf:writer_pdf_Export"; "--outdir"; str output_dir;
    str input_path ].

(** The message of the failure branch, before the final [strip]. *)
Definition conversion_error_message
    (input_path output_pdf_path : Path) (output_exists : bool)
    (returncode : Z) (stdout stderr : string) : string :=
  let error_msg :=
    if negb output_exists
    then "Conversion failed: Output PDF file '" +:+ name output_pdf_path
         +:+ "' was not created."
    else "Conversion command finished with error code "
         +:+ Py.str_of_Z returncode +:+ ", although output file might exist." in
  if Py.truthy stderr
  then
    let error_msg := error_msg +:+ " Stderr: " +:+ stderr in
    if Py.contains "Error: source file could not be loaded" stderr
    then "Conversion failed: LibreOffice could not load the source file '"
         +:+ name input_path
         +:+ "'. It might be corrupted or an unsupported format. Stderr: "
         +:+ stderr
    else if Py.contains "javaldx failed" stderr
    then "Conversion failed: LibreOffice Java setup issue (javaldx failed). Check Java installation and LibreOffice configuration. Stderr: "
         +:+ stderr
    else error_msg
  else if Py.truthy stdout
  then error_msg +:+ " Stdout: " +:+ stdout
  else error_msg.

Definition convert_to_pdf_libreoffice
    (w : World) (input_path output_dir : Path) (config : AppSettings)
    (fs : FileSystem) : (bool * option Path * string) * FileSystem :=
  if negb (exists_ fs input_path)
  then
    let error_msg := "Input file not found for conversion: " +:+ str input_path in
    ((false, None, error_msg), fs)
  else
    let output_pdf_path := expected_output_pdf input_path output_dir in
    match mkdir w output_dir fs with
    | Py.Raised _ e =>
        let error_msg :=
          "Failed to create output directory '" +:+ str output_dir
          +:+ "': " +:+ e in
        ((false, None, error_msg), fs)
    | Py.Returned fs1 =>
        let cmd := conversion_command config input_path output_dir in
        let '((returncode, stdout, stderr), fs2) :=
          run_subprocess_async w cmd fs1 in
        if (returncode =? 0)%Z && exists_ fs2 output_pdf_path
        then ((true, Some output_pdf_path, ""), fs2)
        else
          let error_msg :=
            conversion_error_message input_path output_pdf_path
              (exists_ fs2 output_pdf_path) returncode stdout stderr in
          let fs3 :=
            if exists_ fs2 output_pdf_path && negb (returncode =? 0)%Z
            then
              match unlink w output_pdf_path fs2 with
              | Py.Returned fs' => fs'
              | Py.Raised _ _ => fs2
              end
            else fs2 in
          ((false, None, Py.strip error_msg), fs3)
    end.

End DocumentConverter.

(* ===================================================================== *)
(** * pdf_processor.py                                                    *)
(* ===================================================================== *)

Module PdfProcessor.
Import Pathlib Models Env ExternalCommands.

Definition is_digit (c : ascii) : bool :=
  let n := nat_of_ascii c in (48 <=? n) && (n <=? 57).

(** The leading digits of a list of characters, and what follows them. *)
Fixpoint span_digits (l : list ascii) : list ascii * list ascii :=
  match l with
  | c :: l' =>
      if is_digit c
      then let (d, r) := span_digits l' in (c :: d, r)
      else ([], l)
  | [] => ([], [])
  end.

(** [int(d)] for a run of decimal digits. *)
Definition int_of_digits (d : list ascii) : Z :=
  fold_left (fun acc c => acc * 10 + (Z.of_nat (nat_of_ascii c) - 48))%Z d 0%Z.

(** [re.search(r'-(\d+)\.png$', s)], as the number of group 1: the text
    must end in [.png], possibly followed by one final newline, and the
    run of digits before it must be non-empty and preceded by a dash. *)
Definition page_suffix_number (s : string) : option Z :=
  let before_extension :=
    if Py.endswith s ".png" then Some (Py.slice_drop_last 4 s)
    else if Py.endswith s (".png" +:+ String "010"%char "")
    then Some (Py.slice_drop_last 5 s)
    else None in
  match before_extension with
  | None => None
  | Some t =>
      match span_digits (rev (list_ascii_of_string t)) with
      | ((_ :: _) as digits_rev, dash :: _) =>
          if Ascii.eqb dash "-" then Some (int_of_digits (rev digits_rev))
          else None
      | _ => None
      end
  end.

(** The sort key of the generated files. *)
Definition screenshot_sort_key (p : Path) : Z :=
  default 0%Z (page_suffix_number (str p)).

Definition output_prefix (pdf_path output_dir : Path) : Path :=
  joinpath output_dir (stem pdf_path).

Definition screenshot_command
    (config : AppSettings) (pdf_path output_dir : Path) : list string :=
  [ pdftoppm_command config; "-png"; "-r"; "300"; "-cropbox"; str pdf_path;
    str (output_prefix pdf_path output_dir) ].

(** The pattern handed to [output_dir.glob]. *)
Definition screenshot_pattern (pdf_path output_dir : Path) : string :=
  name (output_prefix pdf_path output_dir) +:+ "-*.png".

(** [s or '(empty)'] *)
Definition or_empty (s : string) : string :=
  if Py.truthy s then s else "(empty)".

Definition screenshot_warning
    (returncode : Z) (n_files : nat) (stdout stderr : string) : string :=
  "pdftoppm finished with code " +:+ Py.str_of_Z returncode +:+ " but "
  +:+ Py.str_of_nat n_files +:+ " screenshots were generated. Stderr: "
  +:+ or_empty stderr +:+ ". Stdout: " +:+ or_empty stdout.

Definition screenshot_error
    (pdf_path output_dir : Path) (returncode : Z) (stdout stderr : string)
    : string :=
  let error_msg :=
    "Screenshot generation failed: No PNG files were found for prefix '"
    +:+ str (output_prefix pdf_path output_dir) +:+ "'." in
  let error_msg :=
    if negb (returncode =? 0)%Z
    then error_msg +:+ " pdftoppm exited with code "
         +:+ Py.str_of_Z returncode +:+ "."
    else error_msg in
  let error_msg :=
    if Py.truthy stderr then error_msg +:+ " Stderr: " +:+ stderr
    else error_msg in
  if Py.truthy stdout then error_msg +:+ " Stdout: " +:+ stdout
  else error_msg.

Definition extract_pdf_pages_as_png
    (w : World) (pdf_path output_dir : Path) (config : AppSettings)
    (fs : FileSystem) : (bool * list Path * string) * FileSystem :=
  if negb (exists_ fs pdf_path)
  then
    let error_msg :=
      "Input PDF file not found for screenshot generation: " +:+ str pdf_path in
    ((false, [], error_msg), fs)
  else
    match mkdir w output_dir fs with
    | Py.Raised _ e =>
        let error_msg :=
          "Failed to create screenshot output directory '" +:+ str output_dir
          +:+ "': " +:+ e in
        ((false, [], error_msg), fs)
    | Py.Returned fs1 =>
        let cmd := screenshot_command config pdf_path output_dir in
        let '((returncode, stdout, stderr), fs2) :=
          run_subprocess_async w cmd fs1 in
        let generated_files :=
          Py.sorted screenshot_sort_key
            (os_glob w output_dir (screenshot_pattern pdf_path output_dir) fs2) in
        match generated_files with
        | _ :: _ =>
            if negb (returncode =? 0)%Z
            then
              let warning_msg :=
                screenshot_warning returncode (length generated_files)
                  stdout stderr in
              ((true, generated_files, Py.strip warning_msg), fs2)
            else ((true, generated_files, ""), fs2)
        | [] =>
            let error_msg :=
              screenshot_error pdf_path output_dir returncode stdout stderr in
            ((false, [], Py.strip error_msg), fs2)
        end
    end.

Definition extract_pdf_metadata
    (w : World) (pdf_path : Path) (config : AppSettings) (fs : FileSystem)
    : (bool * string * string) * FileSystem :=
  if negb (exists_ fs pdf_path)
  then
    let error_msg :=
      "Input PDF file not found for metadata extraction: " +:+ str pdf_path in
    ((false, "", error_msg), fs)
  else
    let cmd := [pdfinfo_command config; str pdf_path] in
    let '((returncode, stdout, stderr), fs1) :=
      run_subprocess_async w cmd fs in
    if (returncode =? 0)%Z
    then ((true, stdout, stderr), fs1)
    else
      let error_msg :=
        "Metadata extraction failed: pdfinfo exited with code "
        +:+ Py.str_of_Z returncode +:+ "." in
      let error_msg :=
        if Py.truthy stderr then error_msg +:+ " Stderr: " +:+ stderr
        else error_msg in
      let error_msg :=
        if Py.truthy stdout then error_msg +:+ " Stdout: " +:+ stdout
        else error_msg in
      ((false, stdout, Py.strip error_msg), fs1).

End PdfProcessor.

(* ===================================================================== *)
(** * resetdata_ai_adapter.py                                             *)
(* ===================================================================== *)

Module ResetdataAiAdapter.
Import Models Env.

(** The normalized envelope
    [{"candidates": [{"content": {"parts": [{"text": t}]}}]}], kept as its
    only varying part, the text [t]. *)
Record ResponseJson := mkResponseJson { parts_text : string }.

(** The image URL and the text of the single user message. *)
Definition build_resetdata_messages (image_base64 prompt_text : string)
    : string * string :=
  ("data:image/png;base64," +:+ image_base64, prompt_text).

Definition call_resetdata_openai_api
    (w : World) (image_base64 prompt_text : string) (config : AppSettings)
    (page_number : Z) (llm_api_key output_format : string)
    : option ResponseJson * option PageProcessingStatus * option string :=
  if negb (Py.truthy llm_api_key)
  then
    let error_msg := "Missing required ResetData LLM API key." in
    (None, Some ERROR_API, Some error_msg)
  else
    let messages := build_resetdata_messages image_base64 prompt_text in
    let run_sync : option ResponseJson * option string :=
      match chat_completions_create w
              {| req_api_key := llm_api_key;
                 req_base_url := resetdata_base_url config;
                 req_model := resetdata_model config;
                 req_image_url := messages.1;
                 req_text := messages.2 |} with
      | Py.Returned completion =>
          let content_text :=
            match completion with
            | FirstChoice content => content
            | NoChoices => Some ""
            end in
          (Some {| parts_text := default "" content_text |}, None)
      | Py.Raised cls e =>
          (None, Some ("ResetData API error: " +:+ cls +:+ ": " +:+ e))
      end in
    let '(response_json, err) := run_sync in
    if Py.truthy_opt err
    then (None, Some ERROR_API, err)
    else (response_json, None, None).

(** Lines 90 to 95: the text between the code fences. *)
Definition clean_text_of (extracted_text : string) : string :=
  let clean_text := Py.strip extracted_text in
  let clean_text :=
    if Py.startswith clean_text "```json" then Py.slice_from 7 clean_text
    else clean_text in
  let clean_text :=
    if Py.endswith clean_text "```" then Py.slice_drop_last 3 clean_text
    else clean_text in
  Py.strip clean_text.

(** The first component of the result is the parsed value, or the text
    itself as a Python string. *)
Definition parse_and_validate_ai_output
    (w : World) (extracted_text : string) (page_number : Z)
    (requested_format : string)
    : json * option PageProcessingStatus * option string :=
  if String.eqb requested_format "application/json"
  then
    let clean_text := clean_text_of extracted_text in
    let decoded_text :=
      match html_unescape w clean_text with
      | Py.Returned d => d
      | Py.Raised _ _ => clean_text
      end in
    let attempt : Py.result json :=
      if negb (Py.truthy clean_text)
      then Py.Raised "JSONDecodeError"
             "Extracted text is empty.: line 1 column 1 (char 0)"
      else json_loads w decoded_text in
    match attempt with
    | Py.Returned parsed_json => (parsed_json, None, None)
    | Py.Raised exc e =>
        let error_msg :=
          if String.eqb exc "JSONDecodeError"
          then "Failed to parse AI response as JSON for page "
               +:+ Py.str_of_Z page_number +:+ ": " +:+ e +:+ "."
          else "Unexpected error processing AI JSON response for page "
               +:+ Py.str_of_Z page_number +:+ ": " +:+ e +:+ "." in
        (JStr extracted_text, Some ERROR_PARSING, Some error_msg)
    end
  else (JStr extracted_text, None, None).

End ResetdataAiAdapter.

(* ===================================================================== *)
(** * workflow_orchestrator.py                                            *)
(* ===================================================================== *)

Module WorkflowOrchestrator.
Import Pathlib Models Env ExternalCommands DocumentConverter PdfProcessor
  ImageProcessor ResetdataAiAdapter ResultAggregator.

Definition MAX_META_PAGES : nat := 3.

(** [str(response_json)] for the normalized envelope. *)
Definition str_response_json (r : ResponseJson) : string :=
  "{'candidates': [{'content': {'parts': [{'text': "
  +:+ Py.repr_str (parts_text r) +:+ "}]}}]}".

Definition _process_single_page
    (w : World) (page_num : Z) (screenshot_path : Path)
    (prompt_to_use output_format : string) (job_dir : Path)
    (config : AppSettings) (llm_api_key : string)
    : Py.result PageProcessingResult :=
  let now := datetime_now w page_num in
  (* 1. Encode image *)
  let '(img_base64, img_err) :=
    encode_image_to_base64 (os_read_bytes w) screenshot_path in
  if Py.truthy_opt img_err
  then
    new_PageProcessingResult (validation_error_str w) now page_num ERROR_IMAGE_ENCODING JNull
      (Some ("Failed to encode image: " +:+ Py.format_opt img_err)) None
  else
    (* 2. Call ResetData API *)
    let '(response_json, error_status, error_msg) :=
      call_resetdata_openai_api w (Py.format_opt img_base64) prompt_to_use
        config page_num llm_api_key output_format in
    if Py.truthy_opt error_msg
    then
      new_PageProcessingResult (validation_error_str w) now page_num (default ERROR_API error_status)
        JNull error_msg None
    else
      (* 3. The text content of the envelope *)
      let extracted_text := parts_text <$> response_json in
      if negb (Py.truthy_opt extracted_text)
      then
        new_PageProcessingResult (validation_error_str w) now page_num ERROR_PARSING JNull
          (Some "Empty content returned from LLM")
          ((fun r => Py.slice_to 1000 (str_response_json r)) <$> response_json)
      else
        let extracted_text := default "" extracted_text in
        (* 4. Parse/Validate AI output *)
        let requested_format :=
          if String.eqb output_format "json" then "application/json"
          else "text/plain" in
        let '(result_data, validation_status, validation_err) :=
          parse_and_validate_ai_output w extracted_text page_num
            requested_format in
        if Py.truthy_opt validation_err
        then
          new_PageProcessingResult (validation_error_str w) now page_num
            (default ERROR_PARSING validation_status) result_data
            validation_err (Some (Py.slice_to 1000 extracted_text))
        else
          (* 5. Success case *)
          new_PageProcessingResult (validation_error_str w) now page_num SUCCESS result_data None None.

(** The arguments one page task is created with. *)
Record PageCall := mkPageCall {
  call_page_num : Z;
  call_screenshot_path : Path;
  call_prompt : string;
  call_output_format : string;
  call_job_dir : Path
}.

Definition run_page_call
    (w : World) (config : AppSettings) (llm_api_key : string) (c : PageCall)
    : Py.result PageProcessingResult :=
  _process_single_page w (call_page_num c) (call_screenshot_path c)
    (call_prompt c) (call_output_format c) (call_job_dir c) config llm_api_key.

(** The life of the tasks of the main pass, as the event loop sees it. *)
Inductive task_event : Type :=
| TaskCreated (page_num : Z)
| TaskCollected (page_num : Z).

Definition image_extensions : list string :=
  [".png"; ".jpg"; ".jpeg"; ".gif"; ".bmp"; ".webp"].

Definition is_image_input (input_file_path : Path) : bool :=
  bool_decide (Py.lower (suffix input_file_path) ∈ image_extensions).

(** From "Convert to PDF" to the check of the screenshots: the metadata
    and the page images of a document, or the failure that ends the job.
    The metadata task and the screenshot task are created in this order
    and touch disjoint files; they are run here one after the other. *)
Definition prepare_document
    (w : World) (input_file_path job_dir : Path) (config : AppSettings)
    (fs : FileSystem)
    : Py.result (gmap string meta_value * list Path) * FileSystem :=
  let '((convert_success, pdf_path, convert_error), fs1) :=
    convert_to_pdf_libreoffice w input_file_path
      (joinpath job_dir "converted") config fs in
  match convert_success, pdf_path with
  | true, Some pdf_path =>
      let '((meta_success, meta_stdout, meta_stderr), fs2) :=
        extract_pdf_metadata w pdf_path config fs1 in
      let '((ss_success, screenshot_paths, ss_error), fs3) :=
        extract_pdf_pages_as_png w pdf_path (joinpath job_dir "screenshots")
          config fs2 in
      let pdf_metadata : gmap string meta_value :=
        if meta_success then parse_pdfinfo_output w meta_stdout else ∅ in
      let pdf_metadata := <["source_type" := MStr "document"]> pdf_metadata in
      if negb ss_success || bool_decide (screenshot_paths = [])
      then
        (Py.Raised "RuntimeError" ("Screenshot generation failed: " +:+ ss_error),
         fs3)
      else (Py.Returned (pdf_metadata, screenshot_paths), fs3)
  | _, _ =>
      (Py.Raised "RuntimeError" ("Document conversion failed: " +:+ convert_error),
       fs1)
  end.

(** The tasks of the optional meta pass: one for each [i] in
    [range(min(len(screenshot_paths), MAX_META_PAGES))], on
    [screenshot_paths[i]]; [None] stands for an [IndexError]. *)
Definition meta_pass_calls
    (w : World) (screenshot_paths : list Path) (job_dir : Path)
    : option (list PageCall) :=
  let meta_pages_to_scan := Nat.min (length screenshot_paths) MAX_META_PAGES in
  mapM (fun i =>
          (fun p =>
             mkPageCall (Z.of_nat i + 1) p (META_PROMPT_TEMPLATE w) "json"
               (joinpath job_dir "meta_results"))
          <$> screenshot_paths !! i)
       (seq 0 meta_pages_to_scan).

(** The results of the meta pass that are kept: a [PageProcessingResult]
    with status [SUCCESS] whose data is a dictionary. *)
Definition successful_meta_result
    (res : Py.result PageProcessingResult) : option (list (string * json)) :=
  match res with
  | Py.Returned r =>
      if status_eqb (status r) SUCCESS
      then match data r with
           | Some (DataDict d) => Some d
           | _ => None
           end
      else None
  | Py.Raised _ _ => None
  end.

Definition newline : string := String "010"%char "".

Definition build_meta_context
    (w : World) (successful_meta_results : list (list (string * json)))
    : string :=
  match successful_meta_results with
  | [] => ""
  | _ =>
      let header :=
        "Document Context Summary (from first "
        +:+ Py.str_of_nat (length successful_meta_results)
        +:+ " page(s)):" +:+ newline in
      Py.strip
        (fold_left
           (fun meta_context '(i, d) =>
              meta_context +:+ "- Page " +:+ Py.str_of_nat (i + 1) +:+ ": "
              +:+ json_dumps w d +:+ newline)
           (imap pair successful_meta_results) header)
  end.

Definition final_user_prompt (meta_context user_prompt : string) : string :=
  if Py.truthy meta_context
  then "DOCUMENT CONTEXT:" +:+ newline +:+ meta_context +:+ newline
       +:+ newline +:+ "---" +:+ newline +:+ newline +:+ "USER TASK:"
       +:+ newline +:+ user_prompt
  else user_prompt.

(** The tasks of the main pass, one per screenshot, numbered from 1. *)
Definition main_pass_calls
    (screenshot_paths : list Path) (prompt output_format : string)
    (job_dir : Path) : list PageCall :=
  imap (fun i p =>
          mkPageCall (Z.of_nat i + 1) p prompt output_format
            (joinpath job_dir "page_results"))
       screenshot_paths.

(** [asyncio.as_completed]: the tasks in the order in which they
    complete. Each choice of the environment selects, among the tasks
    still running, the next one to complete. *)
Fixpoint as_completed {A} (n : nat) (choices : list nat) (tasks : list A)
    : list A :=
  match n with
  | 0 => []
  | S n' =>
      let i := hd 0 choices mod length tasks in
      match tasks !! i with
      | Some t => t :: as_completed n' (tl choices) (delete i tasks)
      | None => []
      end
  end.

(** [for future in as_completed(tasks): page_results.append(await future)]:
    the first task found to have raised ends the loop with its exception. *)
Fixpoint collect_results {A} (completed : list (Py.result A)) (acc : list A)
    : Py.result (list A) :=
  match completed with
  | [] => Py.Returned acc
  | Py.Returned r :: rest => collect_results rest (acc ++ [r])
  | Py.Raised exc e :: _ => Py.Raised exc e
  end.

(** The [finally] block. *)
Definition cleanup
    (w : World) (input_file_path job_dir : Path) (fs : FileSystem)
    : FileSystem :=
  let fs1 :=
    if exists_ fs input_file_path
    then match unlink w input_file_path fs with
         | Py.Returned fs' => fs'
         | Py.Raised _ _ => fs
         end
    else fs in
  if exists_ fs1 job_dir
  then match rmtree w job_dir fs1 with
       | Py.Returned fs' => fs'
       | Py.Raised _ _ => fs1
       end
  else fs1.

(** What a run leaves behind: the value returned or the exception raised,
    the file system, the page tasks created by the meta pass and by the
    main pass, and the task events of the main pass. *)
Record Run := mkRun {
  run_outcome : Py.result AggregatedResult;
  run_fs : FileSystem;
  run_meta_calls : list PageCall;
  run_main_calls : list PageCall;
  run_events : list task_event
}.

Definition process_document_stateless
    (w : World) (input_file_path : Path) (user_prompt output_format : string)
    (use_meta_intelligence : bool) (config : AppSettings)
    (llm_api_key : string) (job_dir : Path) (fs : FileSystem) : Run :=
  let finish outcome fs' meta_calls main_calls events :=
    mkRun outcome (cleanup w input_file_path job_dir fs') meta_calls
      main_calls events in
  (* Validation *)
  if negb (exists_ fs input_file_path)
  then
    finish
      (Py.Raised "ValueError" ("Input file not found: " +:+ str input_file_path))
      fs [] [] []
  else
    let prepared :=
      if is_image_input input_file_path
      then
        (Py.Returned
           (<["source_type" := MStr "image"]>
              (<["pages" := MInt 1]> (∅ : gmap string meta_value)),
            [input_file_path]),
         fs)
      else prepare_document w input_file_path job_dir config fs in
    match prepared with
    | (Py.Raised exc e, fs1) => finish (Py.Raised exc e) fs1 [] [] []
    | (Py.Returned (pdf_metadata, screenshot_paths), fs1) =>
        (* Optional meta pass *)
        let meta_calls : option (list PageCall) :=
          if use_meta_intelligence && negb (is_image_input input_file_path)
          then meta_pass_calls w screenshot_paths job_dir
          else Some [] in
        match meta_calls with
        | None =>
            finish (Py.Raised "IndexError" "list index out of range") fs1
              [] [] []
        | Some meta_calls =>
            let meta_results_raw :=
              map (run_page_call w config llm_api_key) meta_calls in
            let successful_meta_results :=
              omap successful_meta_result meta_results_raw in
            let meta_context := build_meta_context w successful_meta_results in
            (* Main pass *)
            let total_pages_to_process := length screenshot_paths in
            let prompt := final_user_prompt meta_context user_prompt in
            let main_calls :=
              main_pass_calls screenshot_paths prompt output_format job_dir in
            let tasks :=
              map (fun c => (call_page_num c,
                             run_page_call w config llm_api_key c))
                  main_calls in
            let completed :=
              as_completed (length tasks) (completion_choices w) tasks in
            let events :=
              map (fun c => TaskCreated (call_page_num c)) main_calls
              ++ map (fun t => TaskCollected t.1) completed in
            match collect_results (map snd completed) [] with
            | Py.Raised exc e =>
                finish (Py.Raised exc e) fs1 meta_calls main_calls events
            | Py.Returned page_results =>
                (* Aggregate *)
                if bool_decide (page_results = [])
                   && (0 <? total_pages_to_process)
                then
                  finish
                    (Py.Raised "RuntimeError"
                       "Aggregation failed: No page processing results were collected.")
                    fs1 meta_calls main_calls events
                else
                  let final_results :=
                    aggregate_processing_results (aggregation_clock w)
                      (Py.str_of_Z (time_time_int w)) (name input_file_path)
                      page_results pdf_metadata user_prompt in
                  finish (Py.Returned final_results) fs1 meta_calls
                    main_calls events
            end
        end
    end.

End WorkflowOrchestrator.

(* ===================================================================== *)
(** * Scenarios: concrete environments for the examples                   *)
(* ===================================================================== *)

Module Scenario.
Import Pathlib Models Env ImageProcessor WorkflowOrchestrator.

Definition input_file_path : Path := ["uploads"; "report.docx"].
Definition job_dir : Path := ["jobs"; "j1"].
Definition pdf_path : Path := ["jobs"; "j1"; "converted"; "report.pdf"].
Definition screenshot_dir : Path := ["jobs"; "j1"; "screenshots"].

Definition screenshot (i : nat) : Path :=
  screenshot_dir ++ ["report-" +:+ Py.str_of_nat i +:+ ".png"].

(** The uploaded file and the job directory exist when the run starts. *)
Definition initial_fs : FileSystem :=
  {[ ["uploads"] ]} ∪ {[ input_file_path ]} ∪ {[ ["jobs"] ]} ∪ {[ job_dir ]}.

Definition meta_prompt : string := "Describe the document as a JSON object.".

(** A model that answers every request with the same text. *)
Definition always (content : string) (req : ChatRequest) : Py.result completion :=
  Py.Returned (FirstChoice (Some content)).


(** An environment in which the converter writes [report.pdf], the
    metadata tool exits with [pdfinfo_code], the rasterizer writes
    [n_pages] images and exits with [pdftoppm_code], every image can be
    read, and the model answers as [reply] says. The texts that reach
    [html.unescape] hold no ampersand and are left unchanged; the texts
    that reach [json.loads] are [null], [{}] (parsed) and texts that are
    not JSON (rejected). Of the report on a value refused for the [data]
    field only the heading is kept. *)
Definition world
    (pdfinfo_code pdftoppm_code : Z) (n_pages : nat)
    (reply : ChatRequest -> Py.result completion) : World :=
  {| os_spawn := fun cmd fs =>
       let exe := hd "" cmd in
       if String.eqb exe "libreoffice"
       then (Exited 0 "convert report.docx -> report.pdf using filter : writer_pdf_Export" "",
             fs ∪ {[ pdf_path ]})
       else if String.eqb exe "pdfinfo"
       then
         if (pdfinfo_code =? 0)%Z
         then (Exited 0 ("Pages: " +:+ Py.str_of_nat n_pages) "", fs)
         else (Exited pdfinfo_code "" "Syntax Error: Couldn't read xref table", fs)
       else if String.eqb exe "pdftoppm"
       then (Exited pdftoppm_code ""
               (if (pdftoppm_code =? 0)%Z then ""
                else "Syntax Warning: Could not find a font file"),
             fs ∪ list_to_set (map screenshot (seq 1 n_pages)))
       else (CommandNotFound, fs);
     os_mkdir_error := fun _ _ => None;
     os_unlink_error := fun _ _ => None;
     os_rmtree_error := fun _ _ => None;
     os_glob := fun dir pattern fs =>
       if String.eqb pattern "report-*.png"
       then filter (fun p => p ∈ fs) (rev (map screenshot (seq 1 n_pages)))
       else [];
     os_read_bytes := fun p =>
       if bool_decide (p ∈ map screenshot (seq 1 n_pages))
       then ReadBytes [x89; x50; x4e; x47]
       else ReadFileNotFound;
     html_unescape := fun s => Py.Returned s;
     json_loads := fun s =>
       if String.eqb s "null" then Py.Returned JNull
       else if String.eqb s "{}" then Py.Returned (JObj [])
       else Py.Raised "JSONDecodeError"
              "Expecting value: line 1 column 1 (char 0)";
     json_dumps := fun _ => "{}";
     chat_completions_create := reply;
     time_time_int := 1700000000;
     datetime_now := fun _ => "2023-11-14T22:13:20";
     aggregation_clock :=
       ResultAggregator.mkAggregationClock "2023-11-14T22:13:25" "5.0" "0.001";
     completion_choices := [2; 0; 1; 0; 3; 1];
     META_PROMPT_TEMPLATE := meta_prompt;
     parse_pdfinfo_output := fun _ =>
       {[ "pages" := MInt (Z.of_nat n_pages) ]};
     validation_error_str := fun _ =>
       "2 validation errors for PageProcessingResult" |}.

(** One page task in such an environment. *)
Definition page (w : World) (i : nat) (output_format : string)
    : Py.result PageProcessingResult :=
  _process_single_page w (Z.of_nat i) (screenshot i) "Describe the page"
    output_format (job_dir ++ ["page_results"]) default_settings "key".

(** One whole run in such an environment. *)
Definition run (w : World) (output_format : string)
    (use_meta_intelligence : bool) (config : AppSettings) : Run :=
  process_document_stateless w input_file_path "Describe the page"
    output_format use_meta_intelligence config "key" job_dir initial_fs.

End Scenario.

(* ===================================================================== *)
(** * Observations on the task events of a run                            *)
(* ===================================================================== *)

Module Observations.
Import WorkflowOrchestrator.

(** The largest number of tasks that are created and not yet completed at
    one time, along a list of events; [current] tasks are in flight when
    the list starts and [peak] is the largest number seen before. *)
Fixpoint peak_in_flight (events : list task_event) (current peak : nat) : nat :=
  match events with
  | [] => peak
  | TaskCreated _ :: rest =>
      peak_in_flight rest (S current) (Nat.max peak (S current))
  | TaskCollected _ :: rest => peak_in_flight rest (Nat.pred current) peak
  end.

End Observations.

(* ===================================================================== *)
(** * Environments that differ in one component                           *)
(* ===================================================================== *)

Module EnvUpdate.
Import Pathlib Models Env.

(** The environment [w] with another remote model. *)
Definition with_chat
    (f : ChatRequest -> Py.result completion) (w : World) : World :=
  {| os_spawn := os_spawn w;
     os_mkdir_error := os_mkdir_error w;
     os_unlink_error := os_unlink_error w;
     os_rmtree_error := os_rmtree_error w;
     os_glob := os_glob w;
     os_read_bytes := os_read_bytes w;
     html_unescape := html_unescape w;
     json_loads := json_loads w;
     json_dumps := json_dumps w;
     chat_completions_create := f;
     time_time_int := time_time_int w;
     datetime_now := datetime_now w;
     aggregation_clock := aggregation_clock w;
     completion_choices := completion_choices w;
     META_PROMPT_TEMPLATE := META_PROMPT_TEMPLATE w;
     parse_pdfinfo_output := parse_pdfinfo_output w;
     validation_error_str := validation_error_str w |}.

(** The environment [w] with other external tools. *)
Definition with_spawn
    (f : list string -> FileSystem -> spawn_outcome * FileSystem)
    (w : World) : World :=
  {| os_spawn := f;
     os_mkdir_error := os_mkdir_error w;
     os_unlink_error := os_unlink_error w;
     os_rmtree_error := os_rmtree_error w;
     os_glob := os_glob w;
     os_read_bytes := os_read_bytes w;
     html_unescape := html_unescape w;
     json_loads := json_loads w;
     json_dumps := json_dumps w;
     chat_completions_create := chat_completions_create w;
     time_time_int := time_time_int w;
     datetime_now := datetime_now w;
     aggregation_clock := aggregation_clock w;
     completion_choices := completion_choices w;
     META_PROMPT_TEMPLATE := META_PROMPT_TEMPLATE w;
     parse_pdfinfo_output := parse_pdfinfo_output w;
     validation_error_str := validation_error_str w |}.

(** The environment [w] with another JSON parser table. *)
Definition with_json_loads
    (f : string -> Py.result json) (w : World) : World :=
  {| os_spawn := os_spawn w;
     os_mkdir_error := os_mkdir_error w;
     os_unlink_error := os_unlink_error w;
     os_rmtree_error := os_rmtree_error w;
     os_glob := os_glob w;
     os_read_bytes := os_read_bytes w;
     html_unescape := html_unescape w;
     json_loads := f;
     json_dumps := json_dumps w;
     chat_completions_create := chat_completions_create w;
     time_time_int := time_time_int w;
     datetime_now := datetime_now w;
     aggregation_clock := aggregation_clock w;
     completion_choices := completion_choices w;
     META_PROMPT_TEMPLATE := META_PROMPT_TEMPLATE w;
     parse_pdfinfo_output := parse_pdfinfo_output w;
     validation_error_str := validation_error_str w |}.

(** The environment [w] with other file contents. *)
Definition with_read_bytes
    (f : Path -> ImageProcessor.read_outcome) (w : World) : World :=
  {| os_spawn := os_spawn w;
     os_mkdir_error := os_mkdir_error w;
     os_unlink_error := os_unlink_error w;
     os_rmtree_error := os_rmtree_error w;
     os_glob := os_glob w;
     os_read_bytes := f;
     html_unescape := html_unescape w;
     json_loads := json_loads w;
     json_dumps := json_dumps w;
     chat_completions_create := chat_completions_create w;
     time_time_int := time_time_int w;
     datetime_now := datetime_now w;
     aggregation_clock := aggregation_clock w;
     completion_choices := completion_choices w;
     META_PROMPT_TEMPLATE := META_PROMPT_TEMPLATE w;
     parse_pdfinfo_output := parse_pdfinfo_output w;
     validation_error_str := validation_error_str w |}.

(** The environment [w] with another completion order. *)
Definition with_completion_choices (choices : list nat) (w : World) : World :=
  {| os_spawn := os_spawn w;
     os_mkdir_error := os_mkdir_error w;
     os_unlink_error := os_unlink_error w;
     os_rmtree_error := os_rmtree_error w;
     os_glob := os_glob w;
     os_read_bytes := os_read_bytes w;
     html_unescape := html_unescape w;
     json_loads := json_loads w;
     json_dumps := json_dumps w;
     chat_completions_create := chat_completions_create w;
     time_time_int := time_time_int w;
     datetime_now := datetime_now w;
     aggregation_clock := aggregation_clock w;
     completion_choices := choices;
     META_PROMPT_TEMPLATE := META_PROMPT_TEMPLATE w;
     parse_pdfinfo_output := parse_pdfinfo_output w;
     validation_error_str := validation_error_str w |}.

End EnvUpdate.

(* ===================================================================== *)
(** * Further scenarios                                                   *)
(* ===================================================================== *)

Module MoreScenarios.
Import Pathlib Models Env ImageProcessor WorkflowOrchestrator EnvUpdate.

(** An environment in which the converter exits with 77 and writes
    nothing; everything else is as in [Scenario.world]. *)
Definition failing_converter_world : World :=
  let w := Scenario.world 0 0 2 (Scenario.always "hello") in
  with_spawn
    (fun cmd fs =>
       if String.eqb (hd "" cmd) "libreoffice"
       then (Exited 77 "" "Error: source file could not be loaded", fs)
       else os_spawn w cmd fs)
    w.

(** A file system in which the upload is gone and no job directory has
    been made. *)
Definition uploads_only_fs : FileSystem := {[ ["uploads"] ]}.

(** An uploaded picture; its extension is written in capitals. *)
Definition image_path : Path := ["uploads"; "scan.PNG"].

Definition image_fs : FileSystem :=
  {[ ["uploads"] ]} ∪ {[ image_path ]} ∪ {[ ["jobs"] ]} ∪ {[ Scenario.job_dir ]}.

(** An environment in which the uploaded picture can be read. *)
Definition image_world (reply : ChatRequest -> Py.result completion) : World :=
  with_read_bytes
    (fun p =>
       if bool_decide (p = image_path) then ReadBytes [x89; x50; x4e; x47]
       else ReadFileNotFound)
    (Scenario.world 0 0 0 reply).

(** An environment whose JSON parser also knows one array. *)
Definition array_world : World :=
  let w := Scenario.world 0 0 2 (Scenario.always "[1, 2]") in
  with_json_loads
    (fun s =>
       if String.eqb s "[1, 2]" then Py.Returned (JArr [JInt 1; JInt 2])
       else json_loads w s)
    w.


End MoreScenarios.

(* ===================================================================== *)
(** * The files the rasterizer writes                                     *)
(* ===================================================================== *)

Module PageFiles.
Import Pathlib.

(** [k] zeros. *)
Fixpoint zeros (k : nat) : string :=
  match k with
  | 0 => ""
  | S k' => String "0" (zeros k')
  end.

(** The name [pdftoppm] gives to the image of page [n] for the output
    prefix [pre]: the page number in decimal, padded with zeros to [width]
    digits (the number of digits of the page count). *)
Definition page_file_name (pre : string) (width n : nat) : string :=
  pre +:+ "-" +:+ zeros (width - String.length (Py.str_of_nat n))
  +:+ Py.str_of_nat n +:+ ".png".

Definition page_file (output_dir : Path) (pre : string) (width n : nat) : Path :=
  output_dir ++ [page_file_name pre width n].

End PageFiles.

(* ===================================================================== *)
(** * api_security.py                                                     *)
(* ===================================================================== *)

Module ApiSecurity.

Definition validate_api_key
    (provided_key : option string) (valid_keys : list string) : bool :=
  match provided_key with
  | None => false
  | Some key =>
      if negb (Py.truthy key) then false
      else
        match valid_keys with
        | [] => true
        | _ => bool_decide (key ∈ valid_keys)
        end
  end.

End ApiSecurity.

(* ===================================================================== *)
(** * resetdata_ai_adapter.py: the key check                              *)
(* ===================================================================== *)

Module ResetdataKey.
Import Models.

(** [validate_resetdata_api_key]; [models_list key base_url] is what
    [OpenAI(api_key=key, base_url=base_url).models.list()] does. *)
Definition validate_resetdata_api_key
    (models_list : string -> string -> Py.result unit)
    (llm_api_key : string) (config : AppSettings) : bool * option string :=
  if negb (Py.truthy llm_api_key)
  then (false, Some "Missing ResetData API key.")
  else
    match models_list llm_api_key (resetdata_base_url config) with
    | Py.Returned _ => (true, None)
    | Py.Raised cls e =>
        (false,
         Some ("ResetData key validation failed: " +:+ cls +:+ ": " +:+ e))
    end.

End ResetdataKey.

(* ===================================================================== *)
(** * main_api.py                                                         *)
(* ===================================================================== *)

Module MainApi.
Import Pathlib Models Env WorkflowOrchestrator ResetdataKey.

(** What an endpoint or a dependency produces: a value, or an
    [HTTPException] with its status code and detail. *)
Inductive http_result (A : Type) : Type :=
| HttpOk (a : A)
| HttpError (status_code : Z) (detail : string).
Arguments HttpOk {A} a.
Arguments HttpError {A} status_code detail.

(** [a or b] for two optional strings. *)
Definition or_opt (a b : option string) : option string :=
  if Py.truthy_opt a then a else b.

(** [require_resetdata_key]: [header] is
    [request.headers.get("x-resetdata-key")] and [query] is
    [request.query_params.get("resetdata_key")]. *)
Definition require_resetdata_key
    (models_list : string -> string -> Py.result unit) (config : AppSettings)
    (header query : option string) : http_result string :=
  let key := or_opt header query in
  if negb (Py.truthy_opt key)
  then
    HttpError 401
      "Missing ResetData API key. Provide in header 'x-resetdata-key' or query 'resetdata_key'."
  else
    let key := default "" key in
    let '(ok, err) := validate_resetdata_api_key models_list key config in
    if negb ok
    then HttpError 401 (default "Invalid ResetData API key."
                          (or_opt err (Some "Invalid ResetData API key.")))
    else HttpOk key.

(** [check_command_availability]; [which] is [shutil.which]. *)
Definition check_command_availability
    (which : string -> option string) (command_name : string) : bool :=
  Py.truthy_opt (which command_name).

(** [HealthCheckResponse] *)
Record HealthCheckResponse := mkHealth {
  health_status : string;
  health_timestamp : string;
  health_version : string;
  active_jobs_count : Z;
  dependencies : list (string * string);
  llm_status : string
}.

(** [health_check], once its dependency has accepted the key; the
    dictionary of dependencies is kept in insertion order. *)
Definition health_check
    (which : string -> option string) (now : string) (config : AppSettings)
    : HealthCheckResponse :=
  let state cmd :=
    if check_command_availability which cmd then "available" else "missing" in
  let dependencies_status :=
    [ ("libreoffice", state (libreoffice_command config));
      ("pdftoppm", state (pdftoppm_command config));
      ("pdfinfo", state (pdfinfo_command config)) ] in
  let overall_status :=
    if bool_decide ("missing" ∈ map snd dependencies_status)
    then "degraded" else "healthy" in
  {| health_status := overall_status;
     health_timestamp := now;
     health_version := "1.0.0";
     active_jobs_count := 0;
     dependencies := dependencies_status;
     llm_status := "per_request" |}.

(** [str.isalnum] on one code point below U+0100: the ASCII digits and
    letters, the two ordinal indicators, the micro sign, the superscript
    digits, the three vulgar fractions and the accented letters. *)
Definition isalnum (c : ascii) : bool :=
  let n := nat_of_ascii c in
  ((48 <=? n) && (n <=? 57)) || ((65 <=? n) && (n <=? 90))
  || ((97 <=? n) && (n <=? 122)) || (n =? 170) || (n =? 178) || (n =? 179)
  || (n =? 181) || (n =? 185) || (n =? 186) || ((188 <=? n) && (n <=? 190))
  || ((192 <=? n) && (n <=? 214)) || ((216 <=? n) && (n <=? 246))
  || (248 <=? n).

(** [c.isalnum() or c in ['.', '-', '_']] *)
Definition is_safe_char (c : ascii) : bool :=
  isalnum c || Ascii.eqb c "." || Ascii.eqb c "-" || Ascii.eqb c "_".

(** ["".join(c if ... else '_' for c in filename)] *)
Fixpoint replace_unsafe (filename : string) : string :=
  match filename with
  | EmptyString => EmptyString
  | String c rest =>
      String (if is_safe_char c then c else "_"%char) (replace_unsafe rest)
  end.

Definition safe_filename (filename : string) : string :=
  let safe_filename := replace_unsafe filename in
  if negb (Py.truthy safe_filename) then "uploaded_file" else safe_filename.

(** [upload_dir / name] for a name without separator: joining [.] leaves
    the directory unchanged. *)
Definition upload_path (upload_dir : Path) (name : string) : Path :=
  if String.eqb name "." then upload_dir else joinpath upload_dir name.

(** [shutil.rmtree(p, ignore_errors=True)] *)
Definition rmtree_ignore_errors (w : World) (p : Path) (fs : FileSystem)
    : FileSystem :=
  match rmtree w p fs with
  | Py.Returned fs' => fs'
  | Py.Raised _ _ => fs
  end.

(** What [scan_document] reads besides the run's environment: the
    directory [Path(config.temp_dir_base)], the clock in milliseconds, the
    eight hexadecimal digits of [os.urandom(4).hex()], and the exception,
    if any, raised while the upload is written to disk, with whether the
    file had been created by then. *)
Record RequestEnv := mkRequestEnv {
  temp_dir : Path;
  time_ms : Z;
  urandom_hex : string;
  save_error : Path -> FileSystem -> option (string * bool)
}.

Definition req_id (env : RequestEnv) : string :=
  "req_" +:+ Py.str_of_Z (time_ms env) +:+ "_" +:+ urandom_hex env.

(** [scan_document], once its dependency has accepted [resetdata_key]. *)
Definition scan_document
    (w : World) (env : RequestEnv) (config : AppSettings)
    (filename user_prompt output_format use_meta_intelligence
       resetdata_key : string)
    (fs : FileSystem) : http_result AggregatedResult * FileSystem :=
  let job_dir := joinpath (temp_dir env) (req_id env) in
  let upload_dir := joinpath job_dir "upload" in
  match mkdir w upload_dir fs with
  | Py.Raised _ _ =>
      (HttpError 500 "Failed to create temporary directory for processing.", fs)
  | Py.Returned fs1 =>
      let input_file_path := upload_path upload_dir (safe_filename filename) in
      match save_error env input_file_path fs1 with
      | Some (e, created) =>
          let fs2 := if created then fs1 ∪ {[ input_file_path ]} else fs1 in
          (HttpError 500 ("Could not save uploaded file: " +:+ e),
           rmtree_ignore_errors w job_dir fs2)
      | None =>
          let fs2 := fs1 ∪ {[ input_file_path ]} in
          let run :=
            process_document_stateless w input_file_path user_prompt
              output_format
              (String.eqb (Py.lower use_meta_intelligence) "true")
              config resetdata_key job_dir fs2 in
          match run_outcome run with
          | Py.Returned result => (HttpOk result, run_fs run)
          | Py.Raised _ e =>
              (HttpError 500 e, rmtree_ignore_errors w job_dir (run_fs run))
          end
      end
  end.

End MainApi.

(* ===================================================================== *)
(** * models.py: jobs                                                     *)
(* ===================================================================== *)

Module Jobs.
Import Models.

(** [JobStatus] *)
Inductive JobStatus : Type :=
| CREATED
| QUEUED
| VALIDATING
| CONVERTING
| PROCESSING
| AGGREGATING
| COMPLETED
| ERROR
| CANCELLED.

#[global] Instance job_status_eq_dec : EqDecision JobStatus.
Proof. solve_decision. Defined.

(** [status.value] *)
Definition status_value (s : JobStatus) : string :=
  match s with
  | CREATED => "created"
  | QUEUED => "queued"
  | VALIDATING => "validating"
  | CONVERTING => "converting"
  | PROCESSING => "processing"
  | AGGREGATING => "aggregating"
  | COMPLETED => "completed"
  | ERROR => "error"
  | CANCELLED => "cancelled"
  end.

(** A Python [float], as far as comparisons see it: a finite value, an
    infinity or a NaN. *)
Inductive pyfloat : Type :=
| Finite (q : QArith_base.Q)
| Inf (negative : bool)
| NaN.

(** [a < b] on floats: every comparison with a NaN is false. *)
Definition float_lt (a b : pyfloat) : bool :=
  match a, b with
  | NaN, _ | _, NaN => false
  | Finite x, Finite y => negb (QArith_base.Qle_bool y x)
  | Inf true, Inf true => false
  | Inf true, _ => true
  | _, Inf true => false
  | Inf false, _ => false
  | _, Inf false => true
  end.

(** [min(a, b)] and [max(a, b)]: the first argument is kept unless the
    second is smaller, respectively greater. *)
Definition py_min (a b : pyfloat) : pyfloat := if float_lt b a then b else a.
Definition py_max (a b : pyfloat) : pyfloat := if float_lt a b then b else a.

Definition float_0 : pyfloat := Finite (QArith_base.Qmake 0 1).
Definition float_100 : pyfloat := Finite (QArith_base.Qmake 100 1).

(** [max(0.0, min(100.0, float(progress)))] *)
Definition clamp_progress (progress : pyfloat) : pyfloat :=
  py_max float_0 (py_min float_100 progress).

(** A progress value within the bounds: a finite number from 0 to 100. *)
Definition progress_in_range (p : pyfloat) : bool :=
  match p with
  | Finite q =>
      QArith_base.Qle_bool (QArith_base.Qmake 0 1) q
      && QArith_base.Qle_bool q (QArith_base.Qmake 100 1)
  | _ => false
  end.

(** [JobError]; [error_timestamp] is the clock reading taken by the
    field's default factory. *)
Record JobError := mkJobError {
  error_code : string;
  error_text : string;
  error_context : option (list (string * json));
  error_timestamp : string;
  error_recoverable : bool
}.

(** [Job] *)
Record Job := mkJob {
  job_job_id : string;
  job_status : JobStatus;
  job_document_name : string;
  job_user_prompt : option string;
  job_output_format : string;
  job_use_meta_intelligence : bool;
  job_input_file_path : option string;
  job_job_dir : option string;
  job_llm_api_key : option string;
  created_at : string;
  updated_at : option string;
  completed_at : option string;
  progress : pyfloat;
  results : option AggregatedResult;
  errors : list JobError
}.

Definition set_status_fields
    (job : Job) (status : JobStatus) (progress : pyfloat)
    (updated_at completed_at : option string) : Job :=
  {| job_job_id := job_job_id job;
     job_status := status;
     job_document_name := job_document_name job;
     job_user_prompt := job_user_prompt job;
     job_output_format := job_output_format job;
     job_use_meta_intelligence := job_use_meta_intelligence job;
     job_input_file_path := job_input_file_path job;
     job_job_dir := job_job_dir job;
     job_llm_api_key := job_llm_api_key job;
     created_at := created_at job;
     updated_at := updated_at;
     completed_at := completed_at;
     progress := progress;
     results := results job;
     errors := errors job |}.

(** [Job.update_status]; [now] is [datetime.now().isoformat()]. *)
Definition update_status
    (now : string) (job : Job) (status : JobStatus)
    (new_progress : option pyfloat) : Job :=
  let progress1 :=
    match new_progress with
    | Some p => clamp_progress p
    | None => progress job
    end in
  let updated := Some now in
  match status with
  | COMPLETED => set_status_fields job status float_100 updated updated
  | ERROR => set_status_fields job status progress1 updated updated
  | _ => set_status_fields job status progress1 updated (completed_at job)
  end.

Definition with_errors (job : Job) (errors : list JobError) : Job :=
  {| job_job_id := job_job_id job;
     job_status := job_status job;
     job_document_name := job_document_name job;
     job_user_prompt := job_user_prompt job;
     job_output_format := job_output_format job;
     job_use_meta_intelligence := job_use_meta_intelligence job;
     job_input_file_path := job_input_file_path job;
     job_job_dir := job_job_dir job;
     job_llm_api_key := job_llm_api_key job;
     created_at := created_at job;
     updated_at := updated_at job;
     completed_at := completed_at job;
     progress := progress job;
     results := results job;
     errors := errors |}.

Definition with_results (job : Job) (results : AggregatedResult) : Job :=
  {| job_job_id := job_job_id job;
     job_status := job_status job;
     job_document_name := job_document_name job;
     job_user_prompt := job_user_prompt job;
     job_output_format := job_output_format job;
     job_use_meta_intelligence := job_use_meta_intelligence job;
     job_input_file_path := job_input_file_path job;
     job_job_dir := job_job_dir job;
     job_llm_api_key := job_llm_api_key job;
     created_at := created_at job;
     updated_at := updated_at job;
     completed_at := completed_at job;
     progress := progress job;
     results := Some results;
     errors := errors job |}.

(** [Job.add_error]; the clock is read once for the error's timestamp and,
    for an error that is not recoverable, once more by [update_status]. *)
Definition add_error
    (now_error now_update : string) (job : Job) (code message : string)
    (context : option (list (string * json))) (recoverable : bool) : Job :=
  let error := mkJobError code message context now_error recoverable in
  let job := with_errors job (errors job ++ [error]) in
  if negb recoverable then update_status now_update job ERROR None else job.

(** [Job.set_results] *)
Definition set_results (now : string) (job : Job) (results : AggregatedResult)
    : Job :=
  update_status now (with_results job results) COMPLETED None.

(** [ActiveJobSummary] *)
Record ActiveJobSummary := mkSummaryOf {
  summary_job_id : string;
  summary_status : string;
  summary_document_name : string;
  summary_progress : pyfloat;
  summary_created_at : string;
  summary_updated_at : option string
}.

End Jobs.

(* ===================================================================== *)
(** * job_store.py                                                        *)
(* ===================================================================== *)

Module JobStore.
Import Pathlib Models Jobs.

(** [BaseJobStore]: the interface of a job store. The clock readings and
    the fresh identifier a method takes are arguments; a method that
    changes the store returns the new store. *)
Class BaseJobStore (S : Type) := {
  create_job :
    S -> string -> string -> string -> Path -> Path -> string -> string ->
    bool -> string -> Job * S;
  get_job : S -> string -> option Job;
  update_job_status :
    string -> S -> string -> JobStatus -> option pyfloat -> bool * S;
  add_job_error :
    string -> string -> S -> string -> string -> string ->
    option (list (string * json)) -> bool -> bool * S;
  set_job_results : string -> S -> string -> AggregatedResult -> bool * S;
  get_active_jobs : S -> Z -> list ActiveJobSummary;
  count_active_jobs : S -> Z;
  cleanup_job_data : S -> string -> S
}.

(** The dictionary [_jobs], in insertion order, without repeated key. *)
Definition InMemoryJobStore : Type := list (string * Job).

(** [d.get(k)] *)
Fixpoint dict_get (d : InMemoryJobStore) (k : string) : option Job :=
  match d with
  | [] => None
  | (k', v) :: rest => if String.eqb k' k then Some v else dict_get rest k
  end.

(** [d[k] = v]: the value of a key that is present is replaced where it
    is, a new key is added at the end. *)
Fixpoint dict_set (d : InMemoryJobStore) (k : string) (v : Job)
    : InMemoryJobStore :=
  match d with
  | [] => [(k, v)]
  | (k', v') :: rest =>
      if String.eqb k' k then (k, v) :: rest else (k', v') :: dict_set rest k v
  end.

(** [del d[k]] *)
Fixpoint dict_del (d : InMemoryJobStore) (k : string) : InMemoryJobStore :=
  match d with
  | [] => []
  | (k', v') :: rest =>
      if String.eqb k' k then rest else (k', v') :: dict_del rest k
  end.

(** [InMemoryJobStore.create_job]; [job_id] is [str(uuid.uuid4())] and [now]
    the clock reading of the [created_at] default. *)
Definition in_memory_create_job
    (store : InMemoryJobStore) (job_id now : string) (document_name : string)
    (input_file_path job_dir : Path) (user_prompt output_format : string)
    (use_meta_intelligence : bool) (llm_api_key : string)
    : Job * InMemoryJobStore :=
  let job :=
    {| job_job_id := job_id;
       job_status := CREATED;
       job_document_name := document_name;
       job_user_prompt := Some user_prompt;
       job_output_format := output_format;
       job_use_meta_intelligence := use_meta_intelligence;
       job_input_file_path := Some (str input_file_path);
       job_job_dir := Some (str job_dir);
       job_llm_api_key := Some llm_api_key;
       created_at := now;
       updated_at := None;
       completed_at := None;
       progress := float_0;
       results := None;
       errors := [] |} in
  (job, dict_set store job_id job).

Definition in_memory_get_job (store : InMemoryJobStore) (job_id : string)
    : option Job :=
  dict_get store job_id.

(** The methods that change one job: the job is changed in place, so the
    dictionary keeps its keys and their order. *)
Definition in_memory_update_job_status
    (now : string) (store : InMemoryJobStore) (job_id : string)
    (status : JobStatus) (new_progress : option pyfloat)
    : bool * InMemoryJobStore :=
  match dict_get store job_id with
  | Some job =>
      (true, dict_set store job_id (update_status now job status new_progress))
  | None => (false, store)
  end.

Definition in_memory_add_job_error
    (now_error now_update : string) (store : InMemoryJobStore)
    (job_id code message : string)
    (context : option (list (string * json))) (recoverable : bool)
    : bool * InMemoryJobStore :=
  match dict_get store job_id with
  | Some job =>
      (true,
       dict_set store job_id
         (add_error now_error now_update job code message context recoverable))
  | None => (false, store)
  end.

Definition in_memory_set_job_results
    (now : string) (store : InMemoryJobStore) (job_id : string)
    (results : AggregatedResult) : bool * InMemoryJobStore :=
  match dict_get store job_id with
  | Some job => (true, dict_set store job_id (set_results now job results))
  | None => (false, store)
  end.

(** [sorted(jobs, key=lambda j: j.created_at, reverse=True)]: descending
    by the text of [created_at], jobs with the same text in their input
    order. *)
Fixpoint insort_desc (key : Job -> string) (x : Job) (l : list Job) : list Job :=
  match l with
  | [] => [x]
  | y :: l' =>
      if String.ltb (key x) (key y) then y :: insort_desc key x l'
      else x :: y :: l'
  end.

Definition sorted_desc (key : Job -> string) (l : list Job) : list Job :=
  foldr (insort_desc key) [] l.

Definition summary_of (job : Job) : ActiveJobSummary :=
  {| summary_job_id := job_job_id job;
     summary_status := status_value (job_status job);
     summary_document_name := job_document_name job;
     summary_progress := progress job;
     summary_created_at := created_at job;
     summary_updated_at := updated_at job |}.

(** The loop stops once [count >= limit]. *)
Definition in_memory_get_active_jobs (store : InMemoryJobStore) (limit : Z)
    : list ActiveJobSummary :=
  let sorted_jobs := sorted_desc created_at (map snd store) in
  map summary_of (take (Z.to_nat limit) sorted_jobs).

Definition final_states : list JobStatus := [COMPLETED; ERROR; CANCELLED].

Definition in_memory_count_active_jobs (store : InMemoryJobStore) : Z :=
  fold_left
    (fun count job =>
       if bool_decide (job_status job ∈ final_states) then count
       else (count + 1)%Z)
    (map snd store) 0%Z.

Definition in_memory_cleanup_job_data
    (store : InMemoryJobStore) (job_id : string) : InMemoryJobStore :=
  if bool_decide (is_Some (dict_get store job_id))
  then dict_del store job_id
  else store.

#[global] Instance in_memory_job_store : BaseJobStore InMemoryJobStore := {
  create_job := in_memory_create_job;
  get_job := in_memory_get_job;
  update_job_status := in_memory_update_job_status;
  add_job_error := in_memory_add_job_error;
  set_job_results := in_memory_set_job_results;
  get_active_jobs := in_memory_get_active_jobs;
  count_active_jobs := in_memory_count_active_jobs;
  cleanup_job_data := in_memory_cleanup_job_data
}.

End JobStore.

(* ===================================================================== *)
(** * A request scenario                                                  *)
(* ===================================================================== *)

Module RequestScenario.
Import Pathlib Models Env ImageProcessor WorkflowOrchestrator EnvUpdate MainApi.

Definition request_env : RequestEnv :=
  {| temp_dir := ["tmp"; "everypage_pure"];
     time_ms := 1700000000000;
     urandom_hex := "9f3a1c07";
     save_error := fun _ _ => None |}.

(** An environment in which every file can be read. *)
Definition readable_world : World :=
  with_read_bytes (fun _ => ReadBytes [x89; x50; x4e; x47])
    (Scenario.world 0 0 0 (Scenario.always "hello")).

(** The upload of a picture named [scan 1.PNG]. *)
Definition scan (use_meta_intelligence : string)
    : http_result AggregatedResult * FileSystem :=
  scan_document readable_world request_env default_settings "scan 1.PNG"
    "Describe the page" "text" use_meta_intelligence "key" ∅.

End RequestScenario.

(* ===================================================================== *)
(** * pdf_processor.py: the metadata text                                 *)
(* ===================================================================== *)

Module PdfInfo.
Import Models.

(** The line boundaries of [str.splitlines] below U+0100: LF, VT, FF, CR,
    FS, GS, RS and NEL. *)
Definition is_linebreak (c : ascii) : bool :=
  let n := nat_of_ascii c in
  ((10 <=? n) && (n <=? 13)) || ((28 <=? n) && (n <=? 30)) || (n =? 133).

(** [s.splitlines()], with [cur] the line read so far: CR LF is one
    boundary, and a final boundary does not open an empty last line. *)
Fixpoint splitlines_from (cur s : string) : list string :=
  match s with
  | EmptyString => match cur with EmptyString => [] | _ => [cur] end
  | String c s' =>
      if is_linebreak c
      then
        match s' with
        | String c' s'' =>
            if Ascii.eqb c "013" && Ascii.eqb c' "010"
            then cur :: splitlines_from "" s''
            else cur :: splitlines_from "" s'
        | EmptyString => [cur]
        end
      else splitlines_from (cur +:+ String c "") s'
  end.

Definition splitlines (s : string) : list string := splitlines_from "" s.

(** The text before the first colon and the text after it. *)
Fixpoint split_colon (line : string) : option (string * string) :=
  match line with
  | EmptyString => None
  | String c rest =>
      if Ascii.eqb c ":" then Some ("", rest)
      else
        match split_colon rest with
        | Some (before, after) => Some (String c before, after)
        | None => None
        end
  end.

(** The pattern matched against each line: one or more characters other
    than a colon, a colon, white space, and the rest of the line. Groups 1
    and 2 are returned: the first colon must not be the first character,
    and group 2 is what follows the colon and the white space after it. *)
Definition match_key_value (line : string) : option (string * string) :=
  match split_colon line with
  | Some (String c before, after) => Some (String c before, Py.lstrip after)
  | _ => None
  end.

(** [s.replace(old, new)] for two characters. *)
Fixpoint replace_char (old new : ascii) (s : string) : string :=
  match s with
  | EmptyString => EmptyString
  | String c s' =>
      String (if Ascii.eqb c old then new else c) (replace_char old new s')
  end.

(** [key_raw.lower().replace(' ', '_').replace('-', '_')] for the stripped
    group 1. *)
Definition normalize_key (key_raw : string) : string :=
  replace_char "-" "_" (replace_char " " "_" (Py.lower (Py.strip key_raw))).

(** ["\n".join(lines)] *)
Definition join_lines (lines : list string) : string :=
  String.concat (String "010" "") lines.

(** The variables of the loop over the lines. *)
Record ParseState := mkParseState {
  metadata : gmap string string;
  current_key : option string;
  current_value : list string
}.

(** [if current_key and current_value: metadata[current_key] = ...] *)
Definition store_current (st : ParseState) : gmap string string :=
  match current_key st, current_value st with
  | Some key, _ :: _ =>
      if Py.truthy key
      then <[key := Py.strip (join_lines (current_value st))]> (metadata st)
      else metadata st
  | _, _ => metadata st
  end.

(** [line.startswith((' ', '\t'))] *)
Definition starts_indented (line : string) : bool :=
  match line with
  | String c _ => Ascii.eqb c " " || Ascii.eqb c "009"
  | EmptyString => false
  end.

(** One iteration of [for line in lines]. *)
Definition parse_line (st : ParseState) (line : string) : ParseState :=
  match match_key_value line with
  | Some (group1, group2) =>
      {| metadata := store_current st;
         current_key := Some (normalize_key group1);
         current_value := [Py.strip group2] |}
  | None =>
      if Py.truthy_opt (current_key st)
      then
        if Py.truthy (Py.strip line) && starts_indented line
        then
          {| metadata := metadata st;
             current_key := current_key st;
             current_value := current_value st ++ [Py.strip line] |}
        else
          {| metadata := store_current st;
             current_key := None;
             current_value := [] |}
      else st
  end.

(** The dictionary after the loop and the final store. *)
Definition parse_lines (pdfinfo_stdout : string) : gmap string string :=
  store_current
    (fold_left parse_line (splitlines pdfinfo_stdout)
       {| metadata := ∅; current_key := None; current_value := [] |}).



(** [metadata[key] = int(metadata[key])], kept as it is when [int] raises;
    [int_of_str] is [int] on a string. *)
Definition convert_int
    (int_of_str : string -> option Z) (key : string)
    (m : gmap string meta_value) : gmap string meta_value :=
  match m !! key with
  | Some (MStr v) =>
      match int_of_str v with
      | Some n => <[key := MInt n]> m
      | None => m
      end
  | _ => m
  end.

(** [metadata[key] = metadata[key].lower() == 'yes'] *)
Definition convert_bool (key : string) (m : gmap string meta_value)
    : gmap string meta_value :=
  match m !! key with
  | Some (MStr v) => <[key := MBool (String.eqb (Py.lower v) "yes")]> m
  | _ => m
  end.

Definition is_digit_or_dot (c : ascii) : bool :=
  PdfProcessor.is_digit c || Ascii.eqb c ".".

(** The longest prefix of digits and dots, and what follows it. *)
Fixpoint span_number (s : string) : string * string :=
  match s with
  | String c s' =>
      if is_digit_or_dot c
      then let (d, r) := span_number s' in (String c d, r)
      else ("", s)
  | EmptyString => ("", "")
  end.

(** The pattern matched against the page size: a run of digits and dots,
    [ x ], a second run, and [ pts]. Groups 1 and 2 are returned. *)
Definition match_page_size (value : string) : option (string * string) :=
  let (g1, rest) := span_number value in
  if Py.truthy g1 && Py.startswith rest " x "
  then
    let (g2, rest') := span_number (Py.slice_from 3 rest) in
    if Py.truthy g2 && Py.startswith rest' " pts" then Some (g1, g2)
    else None
  else None.

Fixpoint count_char (c : ascii) (s : string) : nat :=
  match s with
  | EmptyString => 0
  | String d s' => (if Ascii.eqb d c then 1 else 0) + count_char c s'
  end.

(** Whether [float] accepts a text of digits and dots: at most one dot
    and at least one digit. *)
Definition float_accepts (lexeme : string) : bool :=
  (count_char "." lexeme <=? 1)
  && (count_char "." lexeme <? String.length lexeme).

(** The [page_size] block: the width is stored before the height is
    converted. *)
Definition convert_page_size (m : gmap string meta_value)
    : gmap string meta_value :=
  match m !! "page_size" with
  | Some (MStr v) =>
      match match_page_size v with
      | Some (g1, g2) =>
          if float_accepts g1
          then
            let m1 := <["page_width_pts" := MFloat g1]> m in
            if float_accepts g2
            then <["page_height_pts" := MFloat g2]> m1
            else m1
          else m
      | None => m
      end
  | _ => m
  end.

Definition parse_pdfinfo_output
    (int_of_str : string -> option Z) (pdfinfo_stdout : string)
    : gmap string meta_value :=
  let metadata : gmap string meta_value := MStr <$> parse_lines pdfinfo_stdout in
  let metadata :=
    foldl (fun m key => convert_int int_of_str key m) metadata
      ["pages"; "page_rot"] in
  let metadata :=
    foldl (fun m key => convert_bool key m) metadata
      ["encrypted"; "optimized"; "tagged"] in
  convert_page_size metadata.

End PdfInfo.

(* ===================================================================== *)
(** * A metadata text                                                     *)
(* ===================================================================== *)

Module PdfInfoScenario.
Import Models PdfInfo.

(** What [int] does with the texts of the scenario: a text of one to
    eighteen digits is read as a decimal number, every other text is
    refused. *)
Definition int_of_str (s : string) : option Z :=
  let digits := list_ascii_of_string s in
  if (1 <=? length digits) && (length digits <=? 18)
     && forallb PdfProcessor.is_digit digits
  then Some (PdfProcessor.int_of_digits digits)
  else None.

Definition nl : string := String "010" "".

(** A text as [pdfinfo] prints it, with one continuation line. *)
Definition pdfinfo_stdout : string :=
  "Title:          Quarterly report" +:+ nl
  +:+ "Keywords:       alpha," +:+ nl
  +:+ "    beta" +:+ nl
  +:+ "Tagged:         no" +:+ nl
  +:+ "Pages:          12" +:+ nl
  +:+ "Encrypted:      yes (print:yes copy:no)" +:+ nl
  +:+ "Page size:      595.276 x 841.89 pts (A4)" +:+ nl
  +:+ "Page rot:       0" +:+ nl
  +:+ "PDF version:    1.7" +:+ nl.

End PdfInfoScenario.

(* ===================================================================== *)
(** * An environment that parses the metadata text                        *)
(* ===================================================================== *)

Module PdfInfoWorld.
Import Pathlib Models Env EnvUpdate.

(** The environment [w] with another parser of the metadata text. *)
Definition with_parse_pdfinfo_output
    (f : string -> gmap string meta_value) (w : World) : World :=
  {| os_spawn := os_spawn w;
     os_mkdir_error := os_mkdir_error w;
     os_unlink_error := os_unlink_error w;
     os_rmtree_error := os_rmtree_error w;
     os_glob := os_glob w;
     os_read_bytes := os_read_bytes w;
     html_unescape := html_unescape w;
     json_loads := json_loads w;
     json_dumps := json_dumps w;
     chat_completions_create := chat_completions_create w;
     time_time_int := time_time_int w;
     datetime_now := datetime_now w;
     aggregation_clock := aggregation_clock w;
     completion_choices := completion_choices w;
     META_PROMPT_TEMPLATE := META_PROMPT_TEMPLATE w;
     parse_pdfinfo_output := f;
     validation_error_str := validation_error_str w |}.

(** An environment in which the metadata tool prints the text of
    [PdfInfoScenario], which announces twelve pages, the rasterizer writes
    two page images, and the metadata text is parsed by
    [PdfInfo.parse_pdfinfo_output]. *)
Definition world : World :=
  let w := Scenario.world 0 0 2 (Scenario.always "hello") in
  with_parse_pdfinfo_output
    (PdfInfo.parse_pdfinfo_output PdfInfoScenario.int_of_str)
    (with_spawn
       (fun cmd fs =>
          if String.eqb (hd "" cmd) "pdfinfo"
          then (Exited 0 PdfInfoScenario.pdfinfo_stdout "", fs)
          else os_spawn w cmd fs)
       w).

End PdfInfoWorld.

(* ===================================================================== *)
(** * Lemmas                                                              *)
(* ===================================================================== *)

Import Models.

(** ** Strings *)

Lemma string_length_app (s t : string) :
  String.length (s +:+ t) = String.length s + String.length t.
Proof. induction s as [|c s IH]; simpl; [reflexivity | now rewrite IH]. Qed.

Lemma slice_to_length (n : nat) (s : string) :
  String.length (Py.slice_to n s) = Nat.min n (String.length s).
Proof.
  revert s; induction n as [|n IH]; intros [|c s]; simpl; try reflexivity.
  now rewrite IH.
Qed.

Lemma slice_to_all (n : nat) (s : string) :
  String.length s <= n -> Py.slice_to n s = s.
Proof.
  revert s; induction n as [|n IH]; intros [|c s]; simpl; intros H;
    try reflexivity; try lia.
  f_equal. apply IH. lia.
Qed.

Example str_of_Z_examples :
  Py.str_of_Z 0 = "0" /\ Py.str_of_Z 10 = "10" /\ Py.str_of_Z (-2) = "-2"
  /\ Py.str_of_nat 300 = "300".
Proof. repeat split; reflexivity. Qed.

Example repr_str_examples :
  Py.repr_str "" = "''" /\ Py.repr_str "it's" = String Py.double_quote
                                                  ("it's" +:+ String Py.double_quote "").
Proof. split; reflexivity. Qed.

(** ** [sorted] *)

Section Sorted.
Context {A : Type} (key : A -> Z).

Definition key_le (a b : A) : Prop := (key a <= key b)%Z.
Definition key_lt (a b : A) : Prop := (key a < key b)%Z.

Lemma insort_Permutation (x : A) (l : list A) :
  Py.insort key x l ≡ₚ x :: l.
Proof.
  induction l as [|y l IH]; simpl; [reflexivity|].
  destruct (key x <=? key y)%Z; [reflexivity|].
  rewrite IH. apply perm_swap.
Qed.

Lemma sorted_Permutation (l : list A) : Py.sorted key l ≡ₚ l.
Proof.
  induction l as [|x l IH]; simpl; [reflexivity|].
  unfold Py.sorted in *. simpl. rewrite insort_Permutation. now rewrite IH.
Qed.

Lemma sorted_length (l : list A) : length (Py.sorted key l) = length l.
Proof. apply Permutation_length, sorted_Permutation. Qed.

Lemma insort_StronglySorted (x : A) (l : list A) :
  StronglySorted key_le l -> StronglySorted key_le (Py.insort key x l).
Proof.
  induction 1 as [|y l Hl IH Hy]; simpl.
  - repeat constructor.
  - destruct (Z.leb_spec (key x) (key y)) as [Hxy|Hxy].
    + constructor; [now constructor|].
      constructor; [exact Hxy|].
      eapply Forall_impl; [exact Hy|].
      intros z Hz. unfold key_le in *. lia.
    + constructor; [exact IH|].
      rewrite insort_Permutation. constructor; [|exact Hy].
      unfold key_le. lia.
Qed.

Lemma sorted_StronglySorted (l : list A) :
  StronglySorted key_le (Py.sorted key l).
Proof.
  induction l as [|x l IH]; [constructor|].
  apply insort_StronglySorted, IH.
Qed.

(** Stability: elements with the same key keep their input order. *)
Lemma insort_filter_key (k : Z) (x : A) (l : list A) :
  StronglySorted key_le l ->
  filter (fun a => key a = k) (Py.insort key x l)
  = filter (fun a => key a = k) (x :: l).
Proof.
  induction 1 as [|y l Hl IH Hy]; simpl; [reflexivity|].
  destruct (Z.leb_spec (key x) (key y)) as [Hxy|Hxy]; [reflexivity|].
  rewrite !filter_cons in *.
  destruct (decide (key y = k)) as [Hyk|Hyk];
    destruct (decide (key x = k)) as [Hxk|Hxk]; simpl;
    rewrite IH; try reflexivity; lia.
Qed.

Lemma sorted_stable (k : Z) (l : list A) :
  filter (fun a => key a = k) (Py.sorted key l)
  = filter (fun a => key a = k) l.
Proof.
  induction l as [|x l IH]; [reflexivity|].
  change (Py.sorted key (x :: l)) with (Py.insort key x (Py.sorted key l)).
  rewrite insort_filter_key by apply sorted_StronglySorted.
  rewrite !filter_cons, IH. reflexivity.
Qed.

(** With pairwise distinct keys a non-decreasing list is increasing. *)
Lemma StronglySorted_le_lt (l : list A) :
  NoDup (key <$> l) -> StronglySorted key_le l -> StronglySorted key_lt l.
Proof.
  intros Hnd Hs. induction Hs as [|x l Hl IH Hx]; [constructor|].
  simpl in Hnd. apply NoDup_cons in Hnd as [Hin Hnd].
  constructor; [now apply IH|].
  rewrite Forall_forall in *. intros y Hy.
  specialize (Hx y Hy). unfold key_le, key_lt in *.
  assert (key x <> key y); [|lia].
  intros E. apply Hin. rewrite E. now apply list_elem_of_fmap_2.
Qed.

Lemma sorted_strict (l : list A) :
  NoDup (key <$> l) -> StronglySorted key_lt (Py.sorted key l).
Proof.
  intros Hnd. apply StronglySorted_le_lt; [|apply sorted_StronglySorted].
  now rewrite sorted_Permutation.
Qed.

End Sorted.

(** ** The aggregator's counters *)

Import ResultAggregator.

Lemma count_results_from (l : list PageProcessingResult) (c : Counters) :
  let c' := fold_left count_result l c in
  processed_pages c' = processed_pages c + length l
  /\ successful_pages c' + pages_with_errors c'
     = successful_pages c + pages_with_errors c + length l
  /\ mock_pages c' + successful_pages c
     <= successful_pages c' + mock_pages c.
Proof.
  revert c. induction l as [|r l IH]; intros c; simpl.
  - lia.
  - specialize (IH (count_result c r)). simpl in IH.
    destruct IH as (H1 & H2 & H3).
    rewrite H1, H2. clear H1 H2.
    unfold count_result in *. destruct (status r); simpl in *; lia.
Qed.

Lemma count_results_spec (l : list PageProcessingResult) :
  let c := count_results l in
  processed_pages c = length l
  /\ successful_pages c + pages_with_errors c = processed_pages c
  /\ mock_pages c <= successful_pages c.
Proof.
  pose proof (count_results_from l zero_counters) as (H1 & H2 & H3).
  unfold count_results. simpl in *. lia.
Qed.

(** The successful counter is the number of results whose status is
    [SUCCESS] or [MOCK_SUCCESS]. *)
Lemma count_results_successful_from (l : list PageProcessingResult) (c : Counters) :
  successful_pages (fold_left count_result l c)
  = successful_pages c + length (filter (fun r => is_success (status r) = true) l)
  /\ mock_pages (fold_left count_result l c)
  = mock_pages c + length (filter (fun r => status r = MOCK_SUCCESS) l).
Proof.
  revert c. induction l as [|r l IH]; intros c; simpl; [lia|].
  destruct (IH (count_result c r)) as [H1 H2]. rewrite H1, H2.
  rewrite !filter_cons. unfold count_result.
  destruct (status r) eqn:E; simpl;
    repeat (case_decide; try discriminate; try congruence); simpl; lia.
Qed.

(** ** Claims on [aggregate_processing_results] *)

(** C1, as amended. For every list of page results and every other input,
    the pages of the aggregated result are the input results rearranged in
    non-decreasing page-number order, results with equal page numbers
    keeping their input order; the order is strictly ascending whenever the
    input page numbers are pairwise distinct. The summary counts satisfy
    [len(pages) == processed_pages_count],
    [successful_pages_count + pages_with_errors_count == processed_pages_count]
    (the successful count being the number of [SUCCESS] and [MOCK_SUCCESS]
    results) and [mock_pages_count <= successful_pages_count]. *)
Theorem aggregate_pages_ordered_and_counted
    (clock : AggregationClock) (job_id document_name : string)
    (page_results : list PageProcessingResult)
    (pdf_metadata : gmap string meta_value) (user_prompt : string) :
  let r := aggregate_processing_results clock job_id document_name
             page_results pdf_metadata user_prompt in
  let s := processing_summary r in
  pages r ≡ₚ page_results
  /\ StronglySorted (key_le page_number) (pages r)
  /\ (forall k : Z,
        filter (fun p => page_number p = k) (pages r)
        = filter (fun p => page_number p = k) page_results)
  /\ (NoDup (page_number <$> page_results) ->
      StronglySorted (key_lt page_number) (pages r))
  /\ length (pages r) = processed_pages_count s
  /\ successful_pages_count s + pages_with_errors_count s
     = processed_pages_count s
  /\ successful_pages_count s
     = length (filter (fun p => is_success (status p) = true) page_results)
  /\ mock_pages_count s <= successful_pages_count s.
Proof.
  simpl.
  pose proof (count_results_spec page_results) as (Hp & Hs & Hm).
  pose proof (count_results_successful_from page_results zero_counters)
    as [Hsucc _].
  repeat split.
  - apply sorted_Permutation.
  - apply sorted_StronglySorted.
  - intros k. apply sorted_stable.
  - apply sorted_strict.
  - rewrite sorted_length. symmetry. exact Hp.
  - exact Hs.
  - exact Hsucc.
  - exact Hm.
Qed.

(** C1, counterexample to the claim as stated: two results that both carry
    page number 1 leave the aggregated pages not strictly ascending. *)
Lemma aggregate_duplicate_page_numbers_not_strict :
  ~ StronglySorted (key_lt page_number)
      (pages (aggregate_processing_results
                (mkAggregationClock "2025-01-01T00:00:00" "1.0" "0.001")
                "job" "doc.pdf"
                [ mkPageResult 1 SUCCESS (Some (DataStr "a")) None None "t1";
                  mkPageResult 1 ERROR_API None (Some "API call failed") None "t2" ]
                ∅ "Describe the page")).
Proof.
  intros H. unfold aggregate_processing_results in H. simpl in H.
  inversion H as [|? ? _ Hall]; subst.
  inversion Hall as [|? ? Hlt _]; subst.
  unfold key_lt in Hlt. simpl in Hlt. lia.
Qed.

(** C9, as amended. The prompt snippet of the summary is the prompt itself
    when the prompt has at most 200 characters, and otherwise its first 200
    characters followed by three dots; it is therefore at most 203
    characters long, and exactly 203 for every prompt longer than 200. *)
Theorem aggregate_prompt_snippet_length
    (clock : AggregationClock) (job_id document_name : string)
    (page_results : list PageProcessingResult)
    (pdf_metadata : gmap string meta_value) (user_prompt : string) :
  let snippet :=
    processing_prompt_used_snippet
      (processing_summary
         (aggregate_processing_results clock job_id document_name
            page_results pdf_metadata user_prompt)) in
  String.length snippet <= 203
  /\ (String.length user_prompt <= 200 -> snippet = user_prompt)
  /\ (200 < String.length user_prompt ->
      snippet = Py.slice_to 200 user_prompt +:+ "..."
      /\ String.length (Py.slice_to 200 user_prompt) = 200
      /\ String.length snippet = 203).
Proof.
  cbv zeta. unfold aggregate_processing_results.
  cbn [processing_summary processing_prompt_used_snippet].
  unfold prompt_snippet.
  destruct (Nat.ltb_spec 200 (String.length user_prompt)) as [Hlong|Hshort].
  - rewrite string_length_app, slice_to_length.
    change (String.length "...") with 3.
    split; [lia|]. split; [intros; lia|]. intros _.
    split; [reflexivity|]. lia.
  - split; [lia|]. split; [reflexivity|]. intros; lia.
Qed.

(** C9, counterexample to the claim as stated: a prompt of 201 characters
    yields a snippet of 203 characters. *)
Lemma aggregate_prompt_snippet_exceeds_200 :
  let user_prompt := String.concat "" (repeat "x" 201) in
  String.length user_prompt = 201
  /\ String.length
       (processing_prompt_used_snippet
          (processing_summary
             (aggregate_processing_results
                (mkAggregationClock "2025-01-01T00:00:00" "1.0" "0.001")
                "job" "doc.pdf" [] ∅ user_prompt))) = 203.
Proof. vm_compute. split; reflexivity. Qed.

(** ** base64 *)

Import Base64.

Section Base64Facts.
Local Open Scope Z_scope.

Lemma lor_shiftl_add (x k y : Z) :
  0 <= k -> 0 <= y < 2 ^ k -> Z.lor (Z.shiftl x k) y = x * 2 ^ k + y.
Proof.
  intros Hk H. rewrite Z.shiftl_mul_pow2 by exact Hk.
  assert (E : Z.land (x * 2 ^ k) y = 0%Z).
  { apply Z.bits_inj'. intros n Hn0. rewrite Z.land_spec, Z.bits_0.
    destruct (Z.lt_ge_cases n k) as [Hn|Hn].
    - rewrite Z.mul_pow2_bits_low by lia. reflexivity.
    - replace (Z.testbit y n) with false; [apply andb_false_r|].
      symmetry. destruct (Z.eq_dec y 0) as [->|Hy]; [apply Z.bits_0|].
      apply Z.bits_above_log2; [lia|]. apply Z.log2_lt_pow2; [lia|].
      eapply Z.lt_le_trans; [apply H|]. apply Z.pow_le_mono_r; lia. }
  rewrite (Z.add_nocarry_lxor _ _ E). symmetry. apply Z.lxor_lor. exact E.
Qed.

Lemma byte_val_range (b : byte) : (0 <= byte_val b < 256)%Z.
Proof.
  unfold byte_val. pose proof (Byte.to_N_bounded b). lia.
Qed.

Lemma byte_of_Z_val (b : byte) : byte_of_Z (byte_val b) = b.
Proof.
  unfold byte_of_Z. pose proof (byte_val_range b) as H.
  rewrite Z.mod_small by exact H. unfold byte_val.
  rewrite N2Z.id, Byte.of_to_N. reflexivity.
Qed.

Lemma lor_mul_add (x k y : Z) :
  0 <= k -> 0 <= y < 2 ^ k -> Z.lor (x * 2 ^ k) y = x * 2 ^ k + y.
Proof.
  intros Hk H. rewrite <- (lor_shiftl_add x k y Hk H).
  now rewrite Z.shiftl_mul_pow2.
Qed.

(** Shifts and masks by constants, as quotients and remainders. *)
Ltac bits_to_arith :=
  change 3 with (Z.ones 2); change 15 with (Z.ones 4);
  change 63 with (Z.ones 6);
  rewrite ?Z.land_ones by lia;
  rewrite ?Z.shiftr_div_pow2 by lia;
  rewrite ?Z.shiftl_mul_pow2 by lia;
  repeat match goal with
         | |- context [Z.lor (?a * 2 ^ ?k) ?b] =>
             rewrite (lor_mul_add a k b)
               by (try lia; Z.div_mod_to_equations; lia)
         end;
  change (2 ^ 2) with 4; change (2 ^ 4) with 16; change (2 ^ 6) with 64.

Lemma sextet_ranges (x y z : Z) :
  (0 <= x < 256 -> 0 <= y < 256 -> 0 <= z < 256 ->
   0 <= Z.shiftr x 2 < 64
   /\ 0 <= Z.lor (Z.shiftl (Z.land x 3) 4) (Z.shiftr y 4) < 64
   /\ 0 <= Z.lor (Z.shiftl (Z.land y 15) 2) (Z.shiftr z 6) < 64
   /\ 0 <= Z.land z 63 < 64
   /\ 0 <= Z.shiftl (Z.land x 3) 4 < 64
   /\ 0 <= Z.shiftl (Z.land y 15) 2 < 64)%Z.
Proof.
  intros Hx Hy Hz. bits_to_arith.
  repeat split; Z.div_mod_to_equations; lia.
Qed.

(** Every six-bit value has a character of the alphabet, which is not the
    pad character and whose value is the one encoded. *)
Lemma a2b_b2a (v : Z) :
  (0 <= v < 64)%Z -> Ascii.eqb (b2a v) "=" = false /\ a2b (b2a v) = Some v.
Proof.
  intros Hv.
  assert (Hall : forallb (fun k =>
            negb (Ascii.eqb (b2a (Z.of_nat k)) "=")
            && match a2b (b2a (Z.of_nat k)) with
               | Some w => (w =? Z.of_nat k)%Z
               | None => false
               end) (seq 0%nat 64%nat) = true) by (vm_compute; reflexivity).
  rewrite forallb_forall in Hall.
  specialize (Hall (Z.to_nat v)).
  rewrite Z2Nat.id in Hall by lia.
  assert (Hin : List.In (Z.to_nat v) (seq 0%nat 64%nat)) by (apply in_seq; lia).
  specialize (Hall Hin). apply andb_true_iff in Hall as [H1 H2].
  split; [now apply negb_true_iff in H1|].
  destruct (a2b (b2a v)) as [w|]; [|discriminate].
  apply Z.eqb_eq in H2. now subst.
Qed.

Lemma a2b_base64_loop_data (v : Z) (s : string) (quad_pos : nat)
    (leftchar : Z) (pads : nat) (bin_data : list byte) :
  0 <= v < 64 ->
  a2b_base64_loop (String (b2a v) s) quad_pos leftchar pads bin_data
  = match quad_pos with
    | 0%nat => a2b_base64_loop s 1 v 0 bin_data
    | 1%nat =>
        a2b_base64_loop s 2 (Z.land v 15) 0
          (bin_data ++ [byte_of_Z (Z.lor (Z.shiftl leftchar 2) (Z.shiftr v 4))])
    | 2%nat =>
        a2b_base64_loop s 3 (Z.land v 3) 0
          (bin_data ++ [byte_of_Z (Z.lor (Z.shiftl leftchar 4) (Z.shiftr v 2))])
    | _ =>
        a2b_base64_loop s 0 0 0
          (bin_data ++ [byte_of_Z (Z.lor (Z.shiftl leftchar 6) v)])
    end.
Proof.
  intros Hv. destruct (a2b_b2a v Hv) as [Hpad Hval].
  cbn [a2b_base64_loop]. rewrite Hpad, Hval. reflexivity.
Qed.

(** The three bytes a full quad decodes to. *)
Lemma quad_decodes (x y z : Z) :
  0 <= x < 256 -> 0 <= y < 256 -> 0 <= z < 256 ->
  let v0 := Z.shiftr x 2 in
  let v1 := Z.lor (Z.shiftl (Z.land x 3) 4) (Z.shiftr y 4) in
  let v2 := Z.lor (Z.shiftl (Z.land y 15) 2) (Z.shiftr z 6) in
  let v3 := Z.land z 63 in
  Z.lor (Z.shiftl v0 2) (Z.shiftr v1 4) = x
  /\ Z.lor (Z.shiftl (Z.land v1 15) 4) (Z.shiftr v2 2) = y
  /\ Z.lor (Z.shiftl (Z.land v2 3) 6) v3 = z.
Proof.
  intros Hx Hy Hz v0 v1 v2 v3.
  assert (E0 : v0 = x / 4) by (subst v0; now rewrite Z.shiftr_div_pow2).
  assert (E1 : v1 = (x mod 4) * 16 + y / 16).
  { subst v1. bits_to_arith. reflexivity. }
  assert (E2 : v2 = (y mod 16) * 4 + z / 64).
  { subst v2. bits_to_arith. reflexivity. }
  assert (E3 : v3 = z mod 64) by (subst v3; bits_to_arith; reflexivity).
  clearbody v0 v1 v2 v3. subst.
  bits_to_arith. repeat split; Z.div_mod_to_equations; lia.
Qed.

(** The bytes a padded final quad decodes to. *)
Lemma padded_quad_decodes (x y : Z) :
  0 <= x < 256 -> 0 <= y < 256 ->
  Z.lor (Z.shiftl (Z.shiftr x 2) 2) (Z.shiftr (Z.shiftl (Z.land x 3) 4) 4) = x
  /\ Z.lor (Z.shiftl
              (Z.land (Z.lor (Z.shiftl (Z.land x 3) 4) (Z.shiftr y 4)) 15) 4)
       (Z.shiftr (Z.shiftl (Z.land y 15) 2) 2) = y.
Proof.
  intros Hx Hy.
  assert (E1 : Z.lor (Z.shiftl (Z.land x 3) 4) (Z.shiftr y 4)
               = (x mod 4) * 16 + y / 16) by (bits_to_arith; reflexivity).
  rewrite E1. bits_to_arith. split; Z.div_mod_to_equations; lia.
Qed.

Lemma list_ind3 {A : Type} (P : list A -> Prop) :
  P [] -> (forall a, P [a]) -> (forall a b, P [a; b]) ->
  (forall a b c l, P l -> P (a :: b :: c :: l)) ->
  forall l, P l.
Proof.
  intros H0 H1 H2 H3 l.
  enough (P l /\ (forall a, P (a :: l)) /\ (forall a b, P (a :: b :: l)))
    by tauto.
  induction l as [|x l (IH0 & IH1 & IH2)]; [now auto|].
  split; [apply IH1|].
  split; [intros a; apply IH2 | intros a b; apply H3, IH0].
Qed.

(** Decoding continues behind an encoded prefix with the prefix's bytes. *)
Lemma a2b_base64_loop_b64encode (bs : list byte) (bin_data : list byte) :
  a2b_base64_loop (b64encode bs) 0 0 0 bin_data = Py.Returned (bin_data ++ bs).
Proof.
  revert bin_data. induction bs as [|a|a b|a b c rest IH] using list_ind3;
    intros bin_data.
  - cbn. now rewrite app_nil_r.
  - pose proof (byte_val_range a) as Ha.
    destruct (sextet_ranges (byte_val a) 0 0 Ha) as (R0 & _ & _ & _ & R1 & _);
      try lia.
    destruct (padded_quad_decodes (byte_val a) 0 Ha) as [D0 _]; [lia|].
    cbn [b64encode].
    rewrite (a2b_base64_loop_data _ _ _ _ _ _ R0).
    rewrite (a2b_base64_loop_data _ _ _ _ _ _ R1).
    rewrite D0, byte_of_Z_val. reflexivity.
  - pose proof (byte_val_range a) as Ha. pose proof (byte_val_range b) as Hb.
    destruct (sextet_ranges (byte_val a) (byte_val b) 0 Ha Hb)
      as (R0 & R1 & _ & _ & _ & R2); try lia.
    destruct (padded_quad_decodes (byte_val a) (byte_val b) Ha Hb) as [_ D1].
    destruct (quad_decodes (byte_val a) (byte_val b) 0 Ha Hb) as (D0 & _ & _);
      [lia|].
    cbn [b64encode].
    rewrite (a2b_base64_loop_data _ _ _ _ _ _ R0).
    rewrite (a2b_base64_loop_data _ _ _ _ _ _ R1).
    rewrite (a2b_base64_loop_data _ _ _ _ _ _ R2).
    rewrite D0, D1, !byte_of_Z_val, <- app_assoc. reflexivity.
  - pose proof (byte_val_range a) as Ha. pose proof (byte_val_range b) as Hb.
    pose proof (byte_val_range c) as Hc.
    destruct (sextet_ranges (byte_val a) (byte_val b) (byte_val c) Ha Hb Hc)
      as (R0 & R1 & R2 & R3 & _ & _).
    destruct (quad_decodes (byte_val a) (byte_val b) (byte_val c) Ha Hb Hc)
      as (D0 & D1 & D2).
    cbn [b64encode].
    rewrite (a2b_base64_loop_data _ _ _ _ _ _ R0).
    rewrite (a2b_base64_loop_data _ _ _ _ _ _ R1).
    rewrite (a2b_base64_loop_data _ _ _ _ _ _ R2).
    rewrite (a2b_base64_loop_data _ _ _ _ _ _ R3).
    rewrite D0, D1, D2, !byte_of_Z_val, IH, <- !app_assoc. reflexivity.
Qed.

Lemma b64decode_b64encode (bs : list byte) :
  b64decode (b64encode bs) = Py.Returned bs.
Proof. unfold b64decode. now rewrite a2b_base64_loop_b64encode. Qed.

End Base64Facts.

Example b64encode_png_signature :
  b64encode [x89; x50; x4e; x47; x0d; x0a; x1a; x0a] = "iVBORw0KGgo=".
Proof. reflexivity. Qed.

Example b64decode_skips_newlines :
  b64decode ("TWFu" +:+ String "010"%char "TQ==") = Py.Returned [x4d; x61; x6e; x4d].
Proof. reflexivity. Qed.

(** ** Claim on [encode_image_to_base64] *)

Import ImageProcessor.

(** C10. [encode_image_to_base64] returns exactly one of an encoded string
    and an error message: either the string is present and the error is
    [None], or the string is [None] and the error is present. When it
    returns a string, that string is the base64 text of the bytes read from
    the file, and decoding it with [b64decode] gives back exactly those
    bytes. *)
Theorem encode_image_to_base64_exclusive_roundtrip
    (read_bytes : Pathlib.Path -> read_outcome) (image_path : Pathlib.Path) :
  let r := encode_image_to_base64 read_bytes image_path in
  ((is_Some (fst r) /\ snd r = None) \/ (fst r = None /\ is_Some (snd r)))
  /\ (forall s : string,
        fst r = Some s ->
        exists image_bytes : list byte,
          read_bytes image_path = ReadBytes image_bytes
          /\ s = b64encode image_bytes
          /\ b64decode s = Py.Returned image_bytes)
  /\ (forall image_bytes : list byte,
        read_bytes image_path = ReadBytes image_bytes ->
        r = (Some (b64encode image_bytes), None)).
Proof.
  cbv zeta. unfold encode_image_to_base64.
  destruct (read_bytes image_path) as [bs| |e|e]; cbn [fst snd].
  - split; [left; split; [eexists; reflexivity | reflexivity]|].
    split.
    + intros s [= <-]. exists bs.
      split; [reflexivity|]. split; [reflexivity|].
      apply b64decode_b64encode.
    + intros bs' [= <-]. reflexivity.
  - split; [right; split; [reflexivity | eexists; reflexivity]|].
    split; [intros s [=] | intros bs [=]].
  - split; [right; split; [reflexivity | eexists; reflexivity]|].
    split; [intros s [=] | intros bs [=]].
  - split; [right; split; [reflexivity | eexists; reflexivity]|].
    split; [intros s [=] | intros bs [=]].
Qed.

(** ** Claim on [convert_to_pdf_libreoffice] *)

Import Pathlib Env ExternalCommands DocumentConverter.

(** Closes the branches of a decision procedure in which the result is a
    failure: every conjunct is either immediate or refuted by the facts
    recorded about the environment. *)
Ltac branch_done :=
  repeat split; try done; try discriminate;
  try (intros;
       repeat match goal with
              | H : ex _ |- _ => destruct H
              | H : _ /\ _ |- _ => destruct H
              end;
       congruence).

Lemma expected_output_pdf_eq (input_path output_dir : Path) :
  expected_output_pdf input_path output_dir
  = output_dir ++ [stem input_path +:+ ".pdf"].
Proof.
  unfold expected_output_pdf, joinpath.
  destruct (stem input_path); reflexivity.
Qed.

(** C3. [convert_to_pdf_libreoffice] reports success if and only if the
    conversion process was run, exited with code 0, and the expected output
    file (the input's stem with the extension [.pdf], in the output
    directory) exists afterwards. A successful result carries that path and
    an empty message; every other result carries no path; in particular an
    exit code of 0 with the output file missing is reported as
    [(False, None, message)]. *)
Theorem convert_success_iff_exit_zero_and_output_exists
    (w : World) (input_path output_dir : Path) (config : AppSettings)
    (fs : FileSystem) :
  let r := convert_to_pdf_libreoffice w input_path output_dir config fs in
  let success := r.1.1.1 in
  let output_pdf_path := r.1.1.2 in
  let error_message := r.1.2 in
  let expected := output_dir ++ [stem input_path +:+ ".pdf"] in
  (success = true <->
   exists fs1 stdout stderr fs2,
     exists_ fs input_path = true
     /\ mkdir w output_dir fs = Py.Returned fs1
     /\ os_spawn w (conversion_command config input_path output_dir) fs1
        = (Exited 0 stdout stderr, fs2)
     /\ exists_ fs2 expected = true)
  /\ (success = true -> output_pdf_path = Some expected /\ error_message = "")
  /\ (success = false -> output_pdf_path = None)
  /\ (forall fs1 stdout stderr fs2,
        exists_ fs input_path = true ->
        mkdir w output_dir fs = Py.Returned fs1 ->
        os_spawn w (conversion_command config input_path output_dir) fs1
        = (Exited 0 stdout stderr, fs2) ->
        exists_ fs2 expected = false ->
        success = false /\ output_pdf_path = None).
Proof.
  cbv zeta. unfold convert_to_pdf_libreoffice.
  rewrite expected_output_pdf_eq.
  destruct (exists_ fs input_path) eqn:Hin; cbn [negb];
    [|cbn [fst snd]; branch_done].
  destruct (mkdir w output_dir fs) as [fs1|exc e] eqn:Hmk;
    [|cbn [fst snd]; branch_done].
  unfold run_subprocess_async.
  destruct (os_spawn w (conversion_command config input_path output_dir) fs1)
    as [[rc out err| |e] fs2] eqn:Hsp;
    [|cbn [Z.eqb andb fst snd]; branch_done..].
  destruct (Z.eqb_spec rc 0) as [->|Hrc]; cbn [andb];
    [|cbn [fst snd]; branch_done].
  destruct (exists_ fs2 (output_dir ++ [stem input_path +:+ ".pdf"])) eqn:Hout;
    cbn [fst snd]; [|branch_done].
  repeat split; try done; try (intros; congruence).
  intros _. exists fs1, out, err, fs2. done.
Qed.

(** ** Claim on [extract_pdf_pages_as_png] *)

Import PdfProcessor.

Lemma rstrip_cons_nonspace (c : ascii) (s : string) :
  Py.isspace c = false -> Py.truthy (Py.rstrip (String c s)) = true.
Proof.
  intros Hc. cbn [Py.rstrip]. destruct (Py.rstrip s); [rewrite Hc|]; reflexivity.
Qed.

Lemma strip_cons_nonspace (c : ascii) (s : string) :
  Py.isspace c = false -> Py.truthy (Py.strip (String c s)) = true.
Proof.
  intros Hc. unfold Py.strip. cbn [Py.lstrip]. rewrite Hc.
  now apply rstrip_cons_nonspace.
Qed.

Example page_suffix_number_examples :
  page_suffix_number "/job/screenshots/report-10.png" = Some 10%Z
  /\ page_suffix_number "/job/screenshots/report-09.png" = Some 9%Z
  /\ page_suffix_number "/job/screenshots/report-x.png" = None
  /\ page_suffix_number "/job/screenshots/report10.png" = None.
Proof. repeat split; reflexivity. Qed.

Example generated_files_numeric_order :
  Py.sorted screenshot_sort_key
    [ ["job"; "screenshots"; "report-10.png"];
      ["job"; "screenshots"; "report-9.png"];
      ["job"; "screenshots"; "report-1.png"] ]
  = [ ["job"; "screenshots"; "report-1.png"];
      ["job"; "screenshots"; "report-9.png"];
      ["job"; "screenshots"; "report-10.png"] ].
Proof. reflexivity. Qed.

(** C4. Once the rasterization tool has run, the result depends on the
    files found for the expected prefix, not on the exit code: with no
    file found the result is [(False, [], message)] whatever the exit code;
    with at least one file found the result is a success carrying the
    files found (ordered by page suffix), with an empty message when the
    exit code is 0 and a non-empty warning text when it is not. *)
Theorem extract_pages_outcome_by_files_found
    (w : World) (pdf_path output_dir : Path) (config : AppSettings)
    (fs fs1 fs2 : FileSystem) (returncode : Z) (stdout stderr : string) :
  exists_ fs pdf_path = true ->
  mkdir w output_dir fs = Py.Returned fs1 ->
  run_subprocess_async w (screenshot_command config pdf_path output_dir) fs1
  = ((returncode, stdout, stderr), fs2) ->
  let found :=
    os_glob w output_dir (screenshot_pattern pdf_path output_dir) fs2 in
  let r := (extract_pdf_pages_as_png w pdf_path output_dir config fs).1 in
  (found = [] -> r.1.1 = false /\ r.1.2 = [])
  /\ (found <> [] ->
      r.1.1 = true
      /\ r.1.2 = Py.sorted screenshot_sort_key found
      /\ r.1.2 ≡ₚ found
      /\ (returncode = 0%Z -> r.2 = "")
      /\ (returncode <> 0%Z ->
          r.2 = Py.strip (screenshot_warning returncode (length found)
                            stdout stderr)
          /\ Py.truthy r.2 = true)).
Proof.
  intros Hin Hmk Hrun found r. subst r.
  unfold extract_pdf_pages_as_png. rewrite Hin, Hmk, Hrun. cbn [negb].
  fold found.
  pose proof (sorted_Permutation screenshot_sort_key found) as Hperm.
  pose proof (sorted_length screenshot_sort_key found) as Hlen.
  destruct (Py.sorted screenshot_sort_key found) as [|p ps] eqn:Hsorted.
  - apply Permutation_nil_l in Hperm. rewrite <- Hperm.
    cbn [fst snd]. split; [done|]. intros Hne. congruence.
  - split.
    { intros ->. apply Permutation_nil_r in Hperm. discriminate. }
    intros _. destruct (Z.eqb_spec returncode 0) as [->|Hrc];
      cbn [negb fst snd].
    + repeat split; try done.
    + repeat split; try done.
      * rewrite Hlen. reflexivity.
      * unfold screenshot_warning. apply strip_cons_nonspace. reflexivity.
Qed.

(** ** [strip], [startswith], [endswith] and slices *)

Lemma string_app_cons (c : ascii) (s t : string) :
  String c s +:+ t = String c (s +:+ t).
Proof. reflexivity. Qed.

Lemma string_app_nil (t : string) : "" +:+ t = t.
Proof. reflexivity. Qed.

(** Exposes the head of a concatenation whose first part is known. *)
Ltac app_head := rewrite ?string_app_cons, ?string_app_nil.

Lemma string_app_assoc (a b c : string) : (a +:+ b) +:+ c = a +:+ (b +:+ c).
Proof.
  induction a as [|x a IH]; app_head; [reflexivity | now rewrite IH].
Qed.

Lemma lstrip_length (s : string) :
  String.length (Py.lstrip s) <= String.length s.
Proof.
  induction s as [|c s IH]; simpl; [lia|].
  destruct (Py.isspace c); simpl; lia.
Qed.

Lemma lstrip_all_space (ws : string) :
  Py.all_space ws = true -> Py.lstrip ws = "".
Proof.
  induction ws as [|c ws IH]; simpl; [reflexivity|].
  intros [Hc Hws]%andb_true_iff. rewrite Hc. now apply IH.
Qed.

Lemma lstrip_app_space (ws s : string) :
  Py.all_space ws = true -> Py.lstrip (ws +:+ s) = Py.lstrip s.
Proof.
  induction ws as [|c ws IH]; app_head; simpl; [reflexivity|].
  intros [Hc Hws]%andb_true_iff. rewrite Hc. now apply IH.
Qed.

Lemma lstrip_fixed_head (c : ascii) (s : string) :
  Py.lstrip (String c s) = String c s -> Py.isspace c = false.
Proof.
  simpl. destruct (Py.isspace c); [|reflexivity].
  intros E. pose proof (lstrip_length s) as H. rewrite E in H. simpl in H. lia.
Qed.

Lemma lstrip_fixed_app (b s : string) :
  Py.lstrip b = b -> b <> "" -> Py.lstrip (b +:+ s) = b +:+ s.
Proof.
  destruct b as [|c b]; [congruence|]. intros E _.
  apply lstrip_fixed_head in E. app_head. simpl. now rewrite E.
Qed.

Lemma rstrip_all_space (ws : string) :
  Py.all_space ws = true -> Py.rstrip ws = "".
Proof.
  induction ws as [|c ws IH]; simpl; [reflexivity|].
  intros [Hc Hws]%andb_true_iff. rewrite (IH Hws), Hc. reflexivity.
Qed.

Lemma rstrip_app_space (s ws : string) :
  Py.all_space ws = true -> Py.rstrip (s +:+ ws) = Py.rstrip s.
Proof.
  intros Hws. induction s as [|c s IH]; app_head; simpl.
  - now apply rstrip_all_space.
  - now rewrite IH.
Qed.

Lemma rstrip_app_fixed (s t : string) :
  Py.truthy (Py.rstrip t) = true ->
  Py.rstrip (s +:+ t) = s +:+ Py.rstrip t.
Proof.
  intros Ht. induction s as [|c s IH]; app_head; simpl; [reflexivity|].
  rewrite IH. destruct s; app_head; [|reflexivity].
  destruct (Py.rstrip t); [discriminate | reflexivity].
Qed.

(** White space around a text that neither starts nor ends with white
    space is what [strip] removes. *)
Lemma strip_wrapped (ws1 x ws2 : string) :
  Py.all_space ws1 = true -> Py.all_space ws2 = true ->
  Py.lstrip x = x -> Py.rstrip x = x ->
  Py.strip (ws1 +:+ x +:+ ws2) = x.
Proof.
  intros H1 H2 Hl Hr. unfold Py.strip. rewrite lstrip_app_space by exact H1.
  destruct x as [|c x].
  - app_head. rewrite lstrip_all_space by exact H2. reflexivity.
  - rewrite lstrip_fixed_app by (exact Hl || discriminate).
    rewrite rstrip_app_space by exact H2. exact Hr.
Qed.

Lemma startswith_app (p s : string) : Py.startswith (p +:+ s) p = true.
Proof.
  unfold Py.startswith. induction p as [|c p IH]; app_head; simpl.
  - now destruct s.
  - destruct (ascii_dec c c); [exact IH | congruence].
Qed.

Lemma slice_from_app (p s : string) :
  Py.slice_from (String.length p) (p +:+ s) = s.
Proof. induction p as [|c p IH]; app_head; simpl; [reflexivity | exact IH]. Qed.

Lemma slice_to_app (p s : string) :
  Py.slice_to (String.length p) (p +:+ s) = p.
Proof.
  induction p as [|c p IH]; app_head; simpl; [reflexivity | now rewrite IH].
Qed.

Lemma endswith_app (s p : string) : Py.endswith (s +:+ p) p = true.
Proof.
  unfold Py.endswith. rewrite string_length_app.
  replace (String.length s + String.length p - String.length p)
    with (String.length s) by lia.
  rewrite slice_from_app, String.eqb_refl.
  apply andb_true_iff. split; [|reflexivity]. apply Nat.leb_le. lia.
Qed.

Lemma slice_drop_last_app (s p : string) :
  Py.slice_drop_last (String.length p) (s +:+ p) = s.
Proof.
  unfold Py.slice_drop_last. rewrite string_length_app.
  replace (String.length s + String.length p - String.length p)
    with (String.length s) by lia.
  apply slice_to_app.
Qed.

Lemma lstrip_rstrip_fixed (s : string) :
  Py.lstrip s = s -> Py.lstrip (Py.rstrip s) = Py.rstrip s.
Proof.
  destruct s as [|c s]; [reflexivity|]. intros H.
  apply lstrip_fixed_head in H. cbn [Py.rstrip].
  destruct (Py.rstrip s); [rewrite H|]; cbn [Py.lstrip]; now rewrite H.
Qed.

Lemma lstrip_idempotent (s : string) : Py.lstrip (Py.lstrip s) = Py.lstrip s.
Proof.
  induction s as [|c s IH]; [reflexivity|]. cbn [Py.lstrip].
  destruct (Py.isspace c) eqn:Hc; [exact IH|]. cbn [Py.lstrip]. now rewrite Hc.
Qed.

Lemma rstrip_idempotent (s : string) : Py.rstrip (Py.rstrip s) = Py.rstrip s.
Proof.
  induction s as [|c s IH]; [reflexivity|]. cbn [Py.rstrip].
  destruct (Py.rstrip s) as [|d r] eqn:Hr.
  - destruct (Py.isspace c) eqn:Hc; [reflexivity|]. cbn [Py.rstrip].
    now rewrite Hc.
  - change (Py.rstrip (String c (String d r)))
      with (match Py.rstrip (String d r) with
            | "" => if Py.isspace c then "" else String c ""
            | r' => String c r'
            end).
    rewrite IH. reflexivity.
Qed.

Lemma strip_idempotent (s : string) : Py.strip (Py.strip s) = Py.strip s.
Proof.
  unfold Py.strip.
  rewrite (lstrip_rstrip_fixed (Py.lstrip s)) by apply lstrip_idempotent.
  apply rstrip_idempotent.
Qed.

Lemma all_space_app (a b : string) :
  Py.all_space (a +:+ b) = Py.all_space a && Py.all_space b.
Proof.
  induction a as [|c a IH]; app_head; cbn [Py.all_space]; [reflexivity|].
  now rewrite IH, andb_assoc.
Qed.

(** What [lstrip] and [rstrip] remove is white space. *)
Lemma lstrip_decompose (s : string) :
  exists ws, Py.all_space ws = true /\ s = ws +:+ Py.lstrip s.
Proof.
  induction s as [|c s (ws & Hws & IH)]; [now exists ""|].
  cbn [Py.lstrip]. destruct (Py.isspace c) eqn:Hc.
  - exists (String c ws). split; [cbn [Py.all_space]; now rewrite Hc|].
    app_head. now rewrite <- IH.
  - now exists "".
Qed.

Lemma rstrip_decompose (s : string) :
  exists ws, Py.all_space ws = true /\ s = Py.rstrip s +:+ ws.
Proof.
  induction s as [|c s (ws & Hws & IH)]; [now exists ""|].
  cbn [Py.rstrip]. destruct (Py.rstrip s) as [|d r] eqn:Hr.
  - app_head. cbn [String.append] in IH. subst s.
    destruct (Py.isspace c) eqn:Hc.
    + exists (String c ws). split; [cbn [Py.all_space]; now rewrite Hc|].
      reflexivity.
    + exists ws. split; [exact Hws | reflexivity].
  - exists ws. split; [exact Hws|]. app_head. f_equal. exact IH.
Qed.

Lemma strip_decompose (s : string) :
  exists ws1 ws2,
    Py.all_space ws1 = true /\ Py.all_space ws2 = true
    /\ s = ws1 +:+ Py.strip s +:+ ws2.
Proof.
  destruct (lstrip_decompose s) as (ws1 & H1 & E1).
  destruct (rstrip_decompose (Py.lstrip s)) as (ws2 & H2 & E2).
  exists ws1, ws2. split; [exact H1|]. split; [exact H2|].
  unfold Py.strip. now rewrite <- E2.
Qed.

Lemma strip_fixed (s : string) :
  Py.lstrip (Py.strip s) = Py.strip s /\ Py.rstrip (Py.strip s) = Py.strip s.
Proof.
  unfold Py.strip. split.
  - apply lstrip_rstrip_fixed, lstrip_idempotent.
  - apply rstrip_idempotent.
Qed.

(** A text that [rstrip] leaves alone ends with a text it leaves alone. *)
Lemma rstrip_fixed_suffix (a b : string) :
  Py.rstrip (a +:+ b) = a +:+ b -> Py.rstrip b = b.
Proof.
  induction a as [|c a IH]; app_head; [trivial|]. cbn [Py.rstrip].
  destruct (Py.rstrip (a +:+ b)) as [|d r] eqn:Hr.
  - destruct (Py.isspace c); [discriminate|]. intros [= E].
    destruct a; [|discriminate]. change ("" = b) in E. now subst b.
  - intros [= E]. apply IH. exact E.
Qed.

Lemma startswith_split (s p : string) :
  Py.startswith s p = true -> s = p +:+ Py.slice_from (String.length p) s.
Proof.
  unfold Py.startswith. revert s.
  induction p as [|c p IH]; intros s; [reflexivity|].
  destruct s as [|d s]; cbn [String.prefix]; [discriminate|].
  destruct (ascii_dec c d) as [->|]; [|discriminate].
  intros H. app_head. cbn [String.length Py.slice_from]. f_equal.
  now apply IH.
Qed.

Lemma slice_to_from (n : nat) (s : string) :
  s = Py.slice_to n s +:+ Py.slice_from n s.
Proof.
  revert s. induction n as [|n IH]; intros [|c s]; try reflexivity.
  cbn [Py.slice_to Py.slice_from]. app_head. f_equal. apply IH.
Qed.

Lemma endswith_split (s p : string) :
  Py.endswith s p = true ->
  s = Py.slice_drop_last (String.length p) s +:+ p.
Proof.
  unfold Py.endswith, Py.slice_drop_last.
  intros [_ E%String.eqb_eq]%andb_true_iff.
  pose proof (slice_to_from (String.length s - String.length p) s) as H.
  now rewrite E in H.
Qed.

(** White space put before a text does not make it end with a fence. *)
Lemma endswith_fence_cons (c : ascii) (s : string) :
  Py.isspace c = true ->
  Py.endswith (String c s) "```" = Py.endswith s "```".
Proof.
  intros Hc. unfold Py.endswith. cbn [String.length].
  destruct (le_lt_dec 3 (String.length s)) as [Hle|Hlt].
  - replace (S (String.length s) - 3) with (S (String.length s - 3)) by lia.
    cbn [Py.slice_from].
    rewrite (leb_correct 3 (String.length s)) by exact Hle.
    rewrite (leb_correct 3 (S (String.length s))) by lia. reflexivity.
  - rewrite (leb_correct_conv (String.length s) 3) by exact Hlt.
    cbn [andb].
    destruct s as [|x [|y [|z s]]]; cbn [String.length] in *; try lia;
      cbn; try reflexivity;
      (destruct (Ascii.eqb_spec c "`"%char) as [->|]; [discriminate|]);
      reflexivity.
Qed.

Lemma endswith_fence_app_space (ws s : string) :
  Py.all_space ws = true ->
  Py.endswith (ws +:+ s) "```" = Py.endswith s "```".
Proof.
  induction ws as [|c ws IH]; app_head; [reflexivity|].
  cbn [Py.all_space]. intros [Hc Hws]%andb_true_iff.
  rewrite endswith_fence_cons by exact Hc. now apply IH.
Qed.

(** ** Claim on [parse_and_validate_ai_output] *)

Import ResetdataAiAdapter.

(** A text wrapped in a [```json] fence and a closing fence, with white
    space anywhere around the fences, is cleaned to the text between. *)
Lemma clean_text_of_fenced (ws1 ws2 body ws3 ws4 : string) :
  Py.all_space ws1 = true -> Py.all_space ws2 = true ->
  Py.all_space ws3 = true -> Py.all_space ws4 = true ->
  Py.lstrip body = body -> Py.rstrip body = body ->
  clean_text_of
    (ws1 +:+ "```json" +:+ ws2 +:+ body +:+ ws3 +:+ "```" +:+ ws4) = body.
Proof.
  intros H1 H2 H3 H4 Hl Hr. unfold clean_text_of.
  set (m := ws2 +:+ body +:+ ws3).
  assert (E : ws1 +:+ "```json" +:+ ws2 +:+ body +:+ ws3 +:+ "```" +:+ ws4
              = ws1 +:+ ("```json" +:+ m +:+ "```") +:+ ws4).
  { subst m. now rewrite !string_app_assoc. }
  rewrite E. clear E.
  rewrite strip_wrapped; try assumption; try reflexivity.
  2:{ rewrite <- string_app_assoc.
      rewrite rstrip_app_fixed by reflexivity.
      now rewrite string_app_assoc. }
  rewrite startswith_app.
  change (Py.slice_from 7 ("```json" +:+ m +:+ "```")) with (m +:+ "```").
  rewrite endswith_app.
  change 3 with (String.length "```").
  rewrite slice_drop_last_app. subst m.
  now apply strip_wrapped.
Qed.

Example clean_text_of_example :
  clean_text_of
    ("```json" +:+ WorkflowOrchestrator.newline +:+ "{}"
     +:+ WorkflowOrchestrator.newline +:+ "```") = "{}"
  /\ clean_text_of "  not json " = "not json"
  /\ clean_text_of "```json```" = "".
Proof. repeat split; reflexivity. Qed.

(** A text without fences is cleaned to itself, stripped. *)
Lemma clean_text_of_unfenced (ws1 body ws2 : string) :
  Py.all_space ws1 = true -> Py.all_space ws2 = true ->
  Py.lstrip body = body -> Py.rstrip body = body ->
  Py.startswith body "```json" = false ->
  Py.endswith body "```" = false ->
  clean_text_of (ws1 +:+ body +:+ ws2) = body.
Proof.
  intros H1 H2 Hl Hr Hs He. unfold clean_text_of.
  rewrite strip_wrapped by assumption. rewrite Hs, He.
  unfold Py.strip. now rewrite Hl.
Qed.


(** A text that opens with a fence and does not close with one is cleaned
    to what follows the opening fence. *)
Lemma clean_text_of_open_fence (ws1 ws2 body ws4 : string) :
  Py.all_space ws1 = true -> Py.all_space ws2 = true ->
  Py.all_space ws4 = true ->
  Py.lstrip body = body -> Py.rstrip body = body ->
  Py.endswith body "```" = false ->
  clean_text_of (ws1 +:+ "```json" +:+ ws2 +:+ body +:+ ws4) = body.
Proof.
  intros H1 H2 H4 Hl Hr He. unfold clean_text_of.
  destruct body as [|c body].
  - assert (E : ws1 +:+ "```json" +:+ ws2 +:+ "" +:+ ws4
                = ws1 +:+ "```json" +:+ (ws2 +:+ ws4)) by reflexivity.
    rewrite E, strip_wrapped; try reflexivity; try assumption.
    rewrite all_space_app, H2, H4. reflexivity.
  - set (b := String c body) in *.
    assert (E : ws1 +:+ "```json" +:+ ws2 +:+ b +:+ ws4
                = ws1 +:+ ("```json" +:+ ws2 +:+ b) +:+ ws4).
    { now rewrite !string_app_assoc. }
    rewrite E, strip_wrapped; try assumption; try reflexivity.
    2:{ rewrite <- string_app_assoc. rewrite rstrip_app_fixed.
        - now rewrite Hr.
        - rewrite Hr. reflexivity. }
    rewrite startswith_app.
    change (Py.slice_from 7 ("```json" +:+ ws2 +:+ b)) with (ws2 +:+ b).
    rewrite endswith_fence_app_space, He by exact H2.
    unfold Py.strip. rewrite lstrip_app_space by exact H2. now rewrite Hl.
Qed.

(** A text that closes with a fence and does not open with one is cleaned
    to what precedes the closing fence. *)
Lemma clean_text_of_close_fence (ws1 body ws3 ws4 : string) :
  Py.all_space ws1 = true -> Py.all_space ws3 = true ->
  Py.all_space ws4 = true ->
  Py.lstrip body = body -> Py.rstrip body = body ->
  Py.startswith (body +:+ ws3 +:+ "```") "```json" = false ->
  clean_text_of (ws1 +:+ body +:+ ws3 +:+ "```" +:+ ws4) = body.
Proof.
  intros H1 H3 H4 Hl Hr Hs. unfold clean_text_of.
  destruct body as [|c body].
  - assert (E : ws1 +:+ "" +:+ ws3 +:+ "```" +:+ ws4
                = (ws1 +:+ ws3) +:+ "```" +:+ ws4).
    { app_head. now rewrite !string_app_assoc. }
    rewrite E, strip_wrapped; try reflexivity; try assumption.
    rewrite all_space_app, H1, H3. reflexivity.
  - set (b := String c body) in *.
    assert (E : ws1 +:+ b +:+ ws3 +:+ "```" +:+ ws4
                = ws1 +:+ (b +:+ ws3 +:+ "```") +:+ ws4).
    { now rewrite !string_app_assoc. }
    rewrite E, strip_wrapped; try assumption.
    2:{ apply lstrip_fixed_app; [exact Hl | discriminate]. }
    2:{ rewrite <- string_app_assoc. now rewrite rstrip_app_fixed. }
    rewrite Hs. rewrite <- string_app_assoc, endswith_app.
    change 3 with (String.length "```"). rewrite slice_drop_last_app.
    change (b +:+ ws3) with ("" +:+ b +:+ ws3).
    now apply strip_wrapped.
Qed.

(** Every text has one of the four shapes: with both fences, with the
    opening fence only, with the closing fence only, or with none. *)
Lemma clean_text_of_shapes (text : string) :
  exists ws1 ws2 body ws3 ws4 : string,
    Py.all_space ws1 = true /\ Py.all_space ws2 = true
    /\ Py.all_space ws3 = true /\ Py.all_space ws4 = true
    /\ Py.lstrip body = body /\ Py.rstrip body = body
    /\ (text = ws1 +:+ "```json" +:+ ws2 +:+ body +:+ ws3 +:+ "```" +:+ ws4
        \/ (text = ws1 +:+ "```json" +:+ ws2 +:+ body +:+ ws4
            /\ Py.endswith body "```" = false)
        \/ (text = ws1 +:+ body +:+ ws3 +:+ "```" +:+ ws4
            /\ Py.startswith (body +:+ ws3 +:+ "```") "```json" = false)
        \/ (text = ws1 +:+ body +:+ ws4
            /\ Py.startswith body "```json" = false
            /\ Py.endswith body "```" = false)).
Proof.
  destruct (strip_decompose text) as (ws1 & ws4 & H1 & H4 & Etext).
  destruct (strip_fixed text) as [Hl Hr].
  set (core := Py.strip text) in *. clearbody core.
  destruct (Py.startswith core "```json") eqn:Hs.
  - apply startswith_split in Hs.
    set (m := Py.slice_from (String.length "```json") core) in *.
    clearbody m. subst core.
    destruct (Py.endswith m "```") eqn:He.
    + apply endswith_split in He.
      set (m' := Py.slice_drop_last (String.length "```") m) in *.
      clearbody m'. subst m.
      destruct (strip_decompose m') as (ws2 & ws3 & H2 & H3 & Em).
      destruct (strip_fixed m') as [Hbl Hbr].
      exists ws1, ws2, (Py.strip m'), ws3, ws4.
      repeat (split; [assumption|]). left.
      rewrite Etext, Em at 1. now rewrite !string_app_assoc.
    + assert (Hmr : Py.rstrip m = m) by (eapply rstrip_fixed_suffix; exact Hr).
      destruct (lstrip_decompose m) as (ws2 & H2 & Em).
      assert (Hbr : Py.rstrip (Py.lstrip m) = Py.lstrip m).
      { apply (rstrip_fixed_suffix ws2). now rewrite <- Em. }
      exists ws1, ws2, (Py.lstrip m), "", ws4.
      repeat (split; [first [assumption | reflexivity
                            | apply lstrip_idempotent]|]).
      right. left. split.
      * rewrite Etext, Em at 1. now rewrite !string_app_assoc.
      * rewrite <- (endswith_fence_app_space ws2) by exact H2.
        now rewrite <- Em.
  - destruct (Py.endswith core "```") eqn:He.
    + apply endswith_split in He.
      set (m' := Py.slice_drop_last (String.length "```") core) in *.
      clearbody m'. subst core.
      destruct (strip_decompose m') as (ws2 & ws3 & H2 & H3 & Em).
      destruct (strip_fixed m') as [Hbl Hbr].
      set (body := Py.strip m') in *. clearbody body. subst m'.
      assert (E2 : ws2 = "").
      { destruct ws2 as [|c ws2]; [reflexivity|]. exfalso.
        cbn [Py.all_space] in H2. apply andb_true_iff in H2 as [Hc _].
        rewrite !string_app_cons in Hl. apply lstrip_fixed_head in Hl.
        congruence. }
      subst ws2. rewrite !string_app_nil in *.
      exists ws1, "", body, ws3, ws4.
      repeat (split; [first [assumption | reflexivity]|]).
      right. right. left. split.
      * rewrite Etext. now rewrite !string_app_assoc.
      * now rewrite <- string_app_assoc.
    + exists ws1, "", core, "", ws4.
      repeat (split; [first [assumption | reflexivity]|]).
      right. right. right. done.
Qed.


(** C2. With the structured format, [parse_and_validate_ai_output] cleans
    the text (strips it, removes a leading [```json] and a trailing fence,
    strips again), HTML-unescapes the cleaned text and hands it to the JSON
    parser: a parsed value is returned with no status and no error; a
    cleaned text that is empty is a parse error and never a success; every
    failure of the parser returns the original text together with
    [ERROR_PARSING] and a message. With any other format the text is
    returned verbatim with no status and no error, whatever the parser and
    the unescaping would do. The cleaned text is given for every text:
    white space apart, a text has both fences, the opening fence only, the
    closing fence only or none, and in each case the cleaned text is what
    is left once the fences and the white space around it are removed. *)
Theorem parse_and_validate_ai_output_spec
    (w : World) (extracted_text : string) (page_number : Z)
    (requested_format : string) :
  let r :=
    parse_and_validate_ai_output w extracted_text page_number
      requested_format in
  let clean := clean_text_of extracted_text in
  let decoded :=
    match html_unescape w clean with
    | Py.Returned d => d
    | Py.Raised _ _ => clean
    end in
  (requested_format = "application/json" ->
   (clean = "" ->
    exists msg, r = (JStr extracted_text, Some ERROR_PARSING, Some msg))
   /\ (clean <> "" -> forall v,
       json_loads w decoded = Py.Returned v -> r = (v, None, None))
   /\ (clean <> "" -> forall exc e,
       json_loads w decoded = Py.Raised exc e ->
       exists msg, r = (JStr extracted_text, Some ERROR_PARSING, Some msg))
   /\ (r.1.2 = None ->
       clean <> "" /\ json_loads w decoded = Py.Returned r.1.1 /\ r.2 = None))
  /\ (requested_format <> "application/json" ->
      r = (JStr extracted_text, None, None)
      /\ forall w' : World,
           parse_and_validate_ai_output w' extracted_text page_number
             requested_format = r)
  /\ (forall ws1 ws2 body ws3 ws4 : string,
        Py.all_space ws1 = true -> Py.all_space ws2 = true ->
        Py.all_space ws3 = true -> Py.all_space ws4 = true ->
        Py.lstrip body = body -> Py.rstrip body = body ->
        extracted_text
        = ws1 +:+ "```json" +:+ ws2 +:+ body +:+ ws3 +:+ "```" +:+ ws4 ->
        clean = body)
  /\ (forall ws1 ws2 body ws4 : string,
        Py.all_space ws1 = true -> Py.all_space ws2 = true ->
        Py.all_space ws4 = true ->
        Py.lstrip body = body -> Py.rstrip body = body ->
        Py.endswith body "```" = false ->
        extracted_text = ws1 +:+ "```json" +:+ ws2 +:+ body +:+ ws4 ->
        clean = body)
  /\ (forall ws1 body ws3 ws4 : string,
        Py.all_space ws1 = true -> Py.all_space ws3 = true ->
        Py.all_space ws4 = true ->
        Py.lstrip body = body -> Py.rstrip body = body ->
        Py.startswith (body +:+ ws3 +:+ "```") "```json" = false ->
        extracted_text = ws1 +:+ body +:+ ws3 +:+ "```" +:+ ws4 ->
        clean = body)
  /\ (forall ws1 body ws4 : string,
        Py.all_space ws1 = true -> Py.all_space ws4 = true ->
        Py.lstrip body = body -> Py.rstrip body = body ->
        Py.startswith body "```json" = false ->
        Py.endswith body "```" = false ->
        extracted_text = ws1 +:+ body +:+ ws4 ->
        clean = body)
  /\ (exists ws1 ws2 body ws3 ws4 : string,
        Py.all_space ws1 = true /\ Py.all_space ws2 = true
        /\ Py.all_space ws3 = true /\ Py.all_space ws4 = true
        /\ Py.lstrip body = body /\ Py.rstrip body = body
        /\ clean = body
        /\ (extracted_text
            = ws1 +:+ "```json" +:+ ws2 +:+ body +:+ ws3 +:+ "```" +:+ ws4
            \/ (extracted_text = ws1 +:+ "```json" +:+ ws2 +:+ body +:+ ws4
                /\ Py.endswith body "```" = false)
            \/ (extracted_text = ws1 +:+ body +:+ ws3 +:+ "```" +:+ ws4
                /\ Py.startswith (body +:+ ws3 +:+ "```") "```json" = false)
            \/ (extracted_text = ws1 +:+ body +:+ ws4
                /\ Py.startswith body "```json" = false
                /\ Py.endswith body "```" = false))).
Proof.
  cbv zeta. split; [|split].
  - intros ->. unfold parse_and_validate_ai_output.
    rewrite String.eqb_refl.
    destruct (clean_text_of extracted_text) as [|c s] eqn:Hclean;
      cbn [Py.truthy negb].
    + split; [intros _; eexists; reflexivity|].
      split; [intros; congruence|].
      split; [intros; congruence|]. cbn [fst snd]. discriminate.
    + destruct (json_loads w _) as [v|exc e] eqn:Hload; cbn [fst snd].
      * split; [discriminate|].
        split; [intros _ v' [= <-]; reflexivity|].
        split; [intros; discriminate|]. intros _. done.
      * split; [discriminate|].
        split; [intros; discriminate|].
        split; [intros _ exc' e' _; eexists; reflexivity|].
        discriminate.
  - intros Hfmt. unfold parse_and_validate_ai_output.
    destruct (String.eqb_spec requested_format "application/json");
      [contradiction|].
    split; reflexivity.
  - split; [|split; [|split; [|split]]].
    + intros ws1 ws2 body ws3 ws4 H1 H2 H3 H4 Hl Hr ->.
      now apply clean_text_of_fenced.
    + intros ws1 ws2 body ws4 H1 H2 H4 Hl Hr He ->.
      now apply clean_text_of_open_fence.
    + intros ws1 body ws3 ws4 H1 H3 H4 Hl Hr Hs ->.
      now apply clean_text_of_close_fence.
    + intros ws1 body ws4 H1 H4 Hl Hr Hs He ->.
      now apply clean_text_of_unfenced.
    + destruct (clean_text_of_shapes extracted_text)
        as (ws1 & ws2 & body & ws3 & ws4 & H1 & H2 & H3 & H4 & Hl & Hr
            & Hshape).
      exists ws1, ws2, body, ws3, ws4.
      repeat (split; [assumption|]). split; [|exact Hshape].
      destruct Hshape as [->|[[-> He]|[[-> Hs]|(-> & Hs & He)]]].
      * now apply clean_text_of_fenced.
      * now apply clean_text_of_open_fence.
      * now apply clean_text_of_close_fence.
      * now apply clean_text_of_unfenced.
Qed.

(** A bare object, and an object behind an opening fence that was never
    closed. *)
Example parse_and_validate_ai_output_examples :
  let w := Scenario.world 0 0 1 (Scenario.always "{}") in
  parse_and_validate_ai_output w "{}" 1 "application/json"
  = (JObj [], None, None)
  /\ parse_and_validate_ai_output w
       ("```json" +:+ WorkflowOrchestrator.newline +:+ "{}") 1
       "application/json"
     = (JObj [], None, None)
  /\ parse_and_validate_ai_output w ("{}" +:+ "```") 1 "application/json"
     = (JObj [], None, None)
  /\ (parse_and_validate_ai_output w "```" 1 "application/json").1.2
     = Some ERROR_PARSING.
Proof. repeat split; reflexivity. Qed.


(** ** The per-page unit *)

Import WorkflowOrchestrator.

Lemma truthy_app_l (a b : string) :
  Py.truthy a = true -> Py.truthy (a +:+ b) = true.
Proof. destruct a; [discriminate | reflexivity]. Qed.

Lemma truthy_nonempty (s : string) : Py.truthy s = true <-> s <> "".
Proof. destruct s; simpl; split; congruence. Qed.

(** The encoder returns the base64 text of the bytes read, or a non-empty
    error message. *)
Lemma encode_image_to_base64_cases
    (read_bytes : Path -> read_outcome) (image_path : Path) :
  (exists bs, read_bytes image_path = ReadBytes bs
              /\ encode_image_to_base64 read_bytes image_path
                 = (Some (b64encode bs), None))
  \/ (exists msg, Py.truthy msg = true
                  /\ encode_image_to_base64 read_bytes image_path
                     = (None, Some msg)).
Proof.
  unfold encode_image_to_base64.
  destruct (read_bytes image_path) as [bs| |e|e].
  - left. exists bs. done.
  - right. eexists. split; [|reflexivity]. reflexivity.
  - right. eexists. split; [|reflexivity]. reflexivity.
  - right. eexists. split; [|reflexivity]. reflexivity.
Qed.

(** The adapter returns an envelope, or [ERROR_API] with a non-empty
    message. *)
Lemma call_resetdata_openai_api_cases
    (w : World) (image_base64 prompt_text : string) (config : AppSettings)
    (page_number : Z) (llm_api_key output_format : string) :
  (exists resp,
     call_resetdata_openai_api w image_base64 prompt_text config page_number
       llm_api_key output_format = (Some resp, None, None))
  \/ (exists msg,
        Py.truthy msg = true
        /\ call_resetdata_openai_api w image_base64 prompt_text config
             page_number llm_api_key output_format
           = (None, Some ERROR_API, Some msg)).
Proof.
  unfold call_resetdata_openai_api.
  destruct (Py.truthy llm_api_key); cbn [negb].
  - destruct (chat_completions_create w _) as [c|cls e].
    + left. eexists. reflexivity.
    + right. eexists. split; [|reflexivity]. reflexivity.
  - right. eexists. split; [|reflexivity]. reflexivity.
Qed.

(** The parser returns a value without error, or the text itself with
    [ERROR_PARSING] and a non-empty message; the latter only for the
    structured format. *)
Lemma parse_and_validate_ai_output_cases
    (w : World) (text : string) (page_number : Z) (requested_format : string) :
  (exists v,
     parse_and_validate_ai_output w text page_number requested_format
     = (v, None, None)
     /\ (requested_format <> "application/json" -> v = JStr text))
  \/ (exists msg,
        Py.truthy msg = true
        /\ requested_format = "application/json"
        /\ parse_and_validate_ai_output w text page_number requested_format
           = (JStr text, Some ERROR_PARSING, Some msg)).
Proof.
  unfold parse_and_validate_ai_output.
  destruct (String.eqb_spec requested_format "application/json") as [->|Hfmt].
  - match goal with
    | |- context [match ?a with Py.Returned _ => _ | Py.Raised _ _ => _ end] =>
        destruct a as [v|exc e]
    end.
    + left. exists v. split; [reflexivity | congruence].
    + right. eexists. split; [|split; reflexivity].
      destruct (String.eqb exc "JSONDecodeError"); reflexivity.
  - left. eexists. split; reflexivity.
Qed.


(** Closes the conjuncts about an outcome whose fields are known. *)
Ltac outcome_auto :=
  cbn [page_number status data error_message raw_response is_error
       is_success negb];
  repeat split; try (intros; discriminate); try tauto;
  try (intros [?|?]; discriminate);
  try match goal with H : _ \/ _ |- _ => destruct H; discriminate end;
  try (intros _; eexists; split; [reflexivity|];
       first [discriminate | now apply truthy_nonempty]).

(** C7, as amended. Every outcome produced by [_process_single_page]
    carries the page number it was asked for and one of the statuses
    [SUCCESS], [ERROR_IMAGE_ENCODING], [ERROR_API], [ERROR_PARSING]. An
    error outcome always carries a non-empty error message. Image-encoding
    and API errors carry no payload and no raw response. A parse error
    either comes from an empty model text and carries no payload, or comes
    from a non-empty text that failed to parse as JSON and carries that
    unparsed text as payload, with its first 1000 characters as raw
    response. A success carries neither error message nor raw response;
    with the raw-text format its payload is the model's non-empty text,
    and with the JSON format a payload, when present, is the dictionary or
    string that the text parsed to. *)
Theorem process_single_page_outcome
    (w : World) (page_num : Z) (screenshot_path : Path)
    (prompt_to_use output_format : string) (job_dir : Path)
    (config : AppSettings) (llm_api_key : string)
    (r : PageProcessingResult) :
  _process_single_page w page_num screenshot_path prompt_to_use output_format
    job_dir config llm_api_key = Py.Returned r ->
  let model_text text :=
    exists bs,
      os_read_bytes w screenshot_path = ReadBytes bs
      /\ call_resetdata_openai_api w (b64encode bs) prompt_to_use config
           page_num llm_api_key output_format
         = (Some (mkResponseJson text), None, None) in
  page_number r = page_num
  /\ (status r = SUCCESS \/ status r = ERROR_IMAGE_ENCODING
      \/ status r = ERROR_API \/ status r = ERROR_PARSING)
  /\ (is_error (status r) = true ->
      exists msg, error_message r = Some msg /\ msg <> "")
  /\ (status r = ERROR_IMAGE_ENCODING \/ status r = ERROR_API ->
      data r = None /\ raw_response r = None)
  /\ (status r = ERROR_PARSING ->
      (model_text "" /\ data r = None /\ is_Some (raw_response r))
      \/ (exists text,
            model_text text /\ text <> "" /\ output_format = "json"
            /\ data r = Some (DataStr text)
            /\ raw_response r = Some (Py.slice_to 1000 text)))
  /\ (status r = SUCCESS ->
      error_message r = None /\ raw_response r = None
      /\ exists text,
           model_text text /\ text <> ""
           /\ (output_format <> "json" -> data r = Some (DataStr text))
           /\ (output_format = "json" ->
               exists v,
                 parse_and_validate_ai_output w text page_num
                   "application/json" = (v, None, None)
                 /\ validate_data (validation_error_str w) v
                    = Py.Returned (data r))).
Proof.
  intros Hrun model_text. unfold _process_single_page in Hrun.
  destruct (encode_image_to_base64_cases (os_read_bytes w) screenshot_path)
    as [(bs & Hread & ->)|(msg & Hmsg & ->)] in Hrun.
  2:{ cbn [Py.truthy_opt] in Hrun. rewrite Hmsg in Hrun.
      injection Hrun as <-. outcome_auto. }
  cbn [Py.truthy_opt] in Hrun.
  change (Py.format_opt (Some (b64encode bs))) with (b64encode bs) in Hrun.
  destruct (call_resetdata_openai_api_cases w (b64encode bs) prompt_to_use
              config page_num llm_api_key output_format)
    as [([text] & Hcall)|(msg & Hmsg & Hcall)]; rewrite Hcall in Hrun.
  2:{ cbn [Py.truthy_opt] in Hrun. rewrite Hmsg in Hrun.
      injection Hrun as <-. outcome_auto. }
  cbn [Py.truthy_opt fmap option_fmap option_map parts_text default] in Hrun.
  destruct text as [|c text]; cbn [Py.truthy negb] in Hrun.
  { injection Hrun as <-. outcome_auto.
    intros. left. split; [exists bs; done|]. split; [reflexivity|].
    eexists; reflexivity. }
  set (text' := String c text) in *.
  assert (Htext : model_text text') by (exists bs; done).
  assert (Hne : text' <> "") by discriminate.
  clearbody text'. unfold id in Hrun.
  destruct (String.eqb_spec output_format "json") as [->|Hfmt].
  - destruct (parse_and_validate_ai_output_cases w text' page_num
                "application/json")
      as [(v & Hparse & _)|(msg & Hmsg & _ & Hparse)]; rewrite Hparse in Hrun.
    + cbn [Py.truthy_opt] in Hrun. unfold new_PageProcessingResult in Hrun.
      destruct (validate_data _ v) as [d|exc e] eqn:Hval; [|discriminate].
      injection Hrun as <-. outcome_auto.
      intros. exists text'. repeat split; try done.
      intros. exists v. done.
    + cbn [Py.truthy_opt] in Hrun. rewrite Hmsg in Hrun.
      injection Hrun as <-. outcome_auto.
      intros. right. exists text'. done.
  - destruct (parse_and_validate_ai_output_cases w text' page_num "text/plain")
      as [(v & Hparse & Hv)|(msg & _ & [=] & _)].
    rewrite Hparse in Hrun. rewrite Hv in * by discriminate.
    cbn in Hrun. injection Hrun as <-. outcome_auto.
    intros. exists text'. repeat split; try done.
Qed.


(** C7, witness: a page whose model text is not JSON, in JSON mode. *)
Lemma process_single_page_outcome_witness :
  let w := Scenario.world 1 0 4 (Scenario.always "not json") in
  let r :=
    mkPageResult 1 ERROR_PARSING (Some (DataStr "not json"))
      (Some "Failed to parse AI response as JSON for page 1: Expecting value: line 1 column 1 (char 0).")
      (Some "not json") "2023-11-14T22:13:20" in
  Scenario.page w 1 "json" = Py.Returned r
  /\ page_number r = 1%Z
  /\ (status r = SUCCESS \/ status r = ERROR_IMAGE_ENCODING
      \/ status r = ERROR_API \/ status r = ERROR_PARSING).
Proof.
  cbv zeta.
  assert (H : Scenario.page (Scenario.world 1 0 4 (Scenario.always "not json"))
                1 "json"
              = Py.Returned
                  (mkPageResult 1 ERROR_PARSING (Some (DataStr "not json"))
                     (Some "Failed to parse AI response as JSON for page 1: Expecting value: line 1 column 1 (char 0).")
                     (Some "not json") "2023-11-14T22:13:20"))
    by (vm_compute; reflexivity).
  split; [exact H|].
  destruct (process_single_page_outcome _ _ _ _ _ _ _ _ _ H) as (Hp & Hs & _).
  split; [exact Hp | exact Hs].
Defined.

(** C7, counterexamples to the claim as stated. A page whose model text
    is not JSON yields an error status together with a payload; a page
    whose model text is the JSON literal [null] yields [SUCCESS] without a
    payload; a page whose image cannot be read yields an image-encoding
    error that carries neither payload nor raw text. *)
Lemma process_single_page_payload_counterexamples :
  (exists r,
     Scenario.page (Scenario.world 1 0 4 (Scenario.always "not json")) 1 "json"
     = Py.Returned r
     /\ status r = ERROR_PARSING /\ data r = Some (DataStr "not json"))
  /\ (exists r,
        Scenario.page (Scenario.world 1 0 4 (Scenario.always "null")) 1 "json"
        = Py.Returned r
        /\ status r = SUCCESS /\ data r = None)
  /\ (exists r,
        Scenario.page (Scenario.world 1 0 4 (Scenario.always "hello")) 7 "json"
        = Py.Returned r
        /\ status r = ERROR_IMAGE_ENCODING
        /\ data r = None /\ raw_response r = None).
Proof.
  split; [|split]; eexists; (split; [vm_compute; reflexivity|]);
    repeat split.
Qed.


(** ** The passes of [process_document_stateless] *)

(** Reading [l[i]] for [i] in [range(k, k + n)] never fails when the range
    lies within the list, and yields the elements in order. *)
Lemma mapM_lookup_seq {A B : Type} (f : nat -> A -> B) (l : list A) (n k : nat) :
  k + n <= length l ->
  mapM (fun i => f i <$> l !! i) (seq k n)
  = Some (imap (fun i => f (k + i)) (take n (drop k l))).
Proof.
  revert k. induction n as [|n IH]; intros k Hk; [reflexivity|].
  destruct (lookup_lt_is_Some_2 l k) as [x Hx]; [lia|].
  cbn [seq mapM]. rewrite Hx. cbn [fmap option_fmap option_map mbind option_bind].
  rewrite (IH (S k)) by lia. cbn [mbind option_bind mret option_ret].
  rewrite (drop_S l x k Hx). cbn [take imap]. rewrite Nat.add_0_r.
  do 2 f_equal. apply imap_ext. intros i y _. cbn. f_equal. lia.
Qed.

(** The meta pass creates one task for each of the first
    [min(len(screenshot_paths), 3)] screenshots and never fails to. *)
Lemma meta_pass_calls_spec (w : World) (screenshot_paths : list Path)
    (job_dir : Path) :
  meta_pass_calls w screenshot_paths job_dir
  = Some (imap (fun i p =>
                  mkPageCall (Z.of_nat i + 1) p (META_PROMPT_TEMPLATE w) "json"
                    (job_dir ++ ["meta_results"]))
               (take 3 screenshot_paths)).
Proof.
  unfold meta_pass_calls, MAX_META_PAGES.
  rewrite (mapM_lookup_seq
             (fun i p => mkPageCall (Z.of_nat i + 1) p (META_PROMPT_TEMPLATE w)
                           "json" (joinpath job_dir "meta_results")))
    by lia.
  rewrite drop_0. f_equal.
  replace (take (Nat.min (length screenshot_paths) 3) screenshot_paths)
    with (take 3 screenshot_paths); [reflexivity|].
  destruct (Nat.le_gt_cases (length screenshot_paths) 3) as [Hle|Hgt].
  - rewrite Nat.min_l by exact Hle. now rewrite !take_ge by lia.
  - rewrite Nat.min_r by lia. reflexivity.
Qed.

(** Completion order is a rearrangement of the tasks. *)
Lemma as_completed_Permutation {A : Type} (choices : list nat) (tasks : list A) :
  as_completed (length tasks) choices tasks ≡ₚ tasks.
Proof.
  remember (length tasks) as n eqn:Hn. revert choices tasks Hn.
  induction n as [|n IH]; intros choices tasks Hn.
  - destruct tasks; [reflexivity | discriminate].
  - cbn [as_completed].
    assert (Hi : hd 0 choices mod length tasks < length tasks)
      by (apply Nat.mod_upper_bound; lia).
    destruct (lookup_lt_is_Some_2 tasks _ Hi) as [t Ht]. rewrite Ht.
    transitivity (t :: delete (hd 0 choices mod length tasks) tasks).
    + constructor. apply IH. rewrite length_delete by eauto. lia.
    + symmetry. now apply delete_Permutation.
Qed.

(** When every task has returned, the loop collects all results, in
    completion order. *)
Lemma collect_results_all_returned {A : Type}
    (completed : list (Py.result A)) (acc : list A) :
  Forall (fun t => exists r, t = Py.Returned r) completed ->
  exists rs, collect_results completed acc = Py.Returned (acc ++ rs)
             /\ length rs = length completed.
Proof.
  intros H. revert acc. induction H as [|t completed [r ->] _ IH]; intros acc.
  - exists []. now rewrite app_nil_r.
  - destruct (IH (acc ++ [r])) as (rs & E & Hlen). exists (r :: rs).
    cbn [collect_results]. rewrite E, <- app_assoc. split; [reflexivity|].
    cbn. now rewrite Hlen.
Qed.

(** Creating [n] tasks before any completes puts [n] more tasks in
    flight. *)
Lemma peak_in_flight_created (pages : list Z) (rest : list task_event)
    (current peak : nat) :
  current <= peak ->
  Observations.peak_in_flight (map TaskCreated pages ++ rest) current peak
  = Observations.peak_in_flight rest (current + length pages)
      (Nat.max peak (current + length pages)).
Proof.
  revert current peak. induction pages as [|p pages IH]; intros current peak H.
  - cbn. rewrite Nat.add_0_r. now rewrite Nat.max_l by exact H.
  - cbn [map app Observations.peak_in_flight length].
    rewrite IH by lia. f_equal; lia.
Qed.

(** Collecting results never raises the peak. *)
Lemma peak_in_flight_collected (pages : list Z) (current peak : nat) :
  Observations.peak_in_flight (map TaskCollected pages) current peak = peak.
Proof.
  revert current. induction pages as [|p pages IH]; intros current;
    [reflexivity | apply IH].
Qed.


Lemma main_pass_calls_length (screenshot_paths : list Path)
    (prompt output_format : string) (job_dir : Path) :
  length (main_pass_calls screenshot_paths prompt output_format job_dir)
  = length screenshot_paths.
Proof. unfold main_pass_calls. apply length_imap. Qed.


(** The record of a run that has reached the passes: its page tasks and
    task events do not depend on how the page tasks end. *)
Lemma run_after_prepare
    (w : World) (input_file_path : Path) (user_prompt output_format : string)
    (use_meta_intelligence : bool) (config : AppSettings)
    (llm_api_key : string) (job_dir : Path) (fs fs1 : FileSystem)
    (pdf_metadata : gmap string meta_value) (screenshot_paths : list Path) :
  exists_ fs input_file_path = true ->
  is_image_input input_file_path = false ->
  prepare_document w input_file_path job_dir config fs
  = (Py.Returned (pdf_metadata, screenshot_paths), fs1) ->
  let run :=
    process_document_stateless w input_file_path user_prompt output_format
      use_meta_intelligence config llm_api_key job_dir fs in
  let meta_calls :=
    if use_meta_intelligence
    then imap (fun i p =>
                 mkPageCall (Z.of_nat i + 1) p (META_PROMPT_TEMPLATE w) "json"
                   (job_dir ++ ["meta_results"]))
              (take 3 screenshot_paths)
    else [] in
  let kept :=
    omap successful_meta_result
      (map (run_page_call w config llm_api_key) meta_calls) in
  let main_calls :=
    main_pass_calls screenshot_paths
      (final_user_prompt (build_meta_context w kept) user_prompt)
      output_format job_dir in
  let tasks :=
    map (fun c => (call_page_num c, run_page_call w config llm_api_key c))
      main_calls in
  let completed := as_completed (length tasks) (completion_choices w) tasks in
  run_meta_calls run = meta_calls
  /\ run_main_calls run = main_calls
  /\ run_events run
     = map TaskCreated (map call_page_num main_calls)
       ++ map TaskCollected (map fst completed)
  /\ (forall page_results,
        collect_results (map snd completed) [] = Py.Returned page_results ->
        page_results <> [] ->
        run_outcome run
        = Py.Returned
            (aggregate_processing_results (aggregation_clock w)
               (Py.str_of_Z (time_time_int w)) (name input_file_path)
               page_results pdf_metadata user_prompt)).
Proof.
  intros Hin Himg Hprep. cbv zeta. unfold process_document_stateless.
  rewrite Hin, Himg, Hprep. cbn [negb]. rewrite andb_true_r.
  assert (Hmeta :
    (if use_meta_intelligence
     then meta_pass_calls w screenshot_paths job_dir else Some [])
    = Some (if use_meta_intelligence
            then imap (fun i p =>
                         mkPageCall (Z.of_nat i + 1) p (META_PROMPT_TEMPLATE w)
                           "json" (job_dir ++ ["meta_results"]))
                      (take 3 screenshot_paths)
            else [])).
  { destruct use_meta_intelligence; [apply meta_pass_calls_spec | reflexivity]. }
  rewrite Hmeta. clear Hmeta. rewrite !map_map.
  match goal with
  | |- context [collect_results ?c []] => destruct (collect_results c []) as [rs|exc e]
  end.
  - destruct (bool_decide (rs = []) && _) eqn:Hempty; cbn [run_meta_calls
      run_main_calls run_events run_outcome];
      (repeat split; try reflexivity).
    + intros ? [= <-] Hne. apply andb_true_iff in Hempty as [He _].
      apply bool_decide_eq_true in He. contradiction.
    + intros ? [= <-] _. reflexivity.
  - cbn [run_meta_calls run_main_calls run_events run_outcome].
    repeat split; try reflexivity. intros ? [=].
Qed.


(** With the raw-text format a page task always produces an outcome. *)
Lemma process_single_page_text_returns
    (w : World) (page_num : Z) (screenshot_path : Path)
    (prompt_to_use output_format : string) (job_dir : Path)
    (config : AppSettings) (llm_api_key : string) :
  output_format <> "json" ->
  exists r,
    _process_single_page w page_num screenshot_path prompt_to_use
      output_format job_dir config llm_api_key = Py.Returned r.
Proof.
  intros Hfmt. unfold _process_single_page.
  destruct (encode_image_to_base64_cases (os_read_bytes w) screenshot_path)
    as [(bs & Hread & ->)|(msg & Hmsg & ->)].
  2:{ cbn [Py.truthy_opt]. rewrite Hmsg. eexists. reflexivity. }
  cbn [Py.truthy_opt].
  change (Py.format_opt (Some (b64encode bs))) with (b64encode bs).
  destruct (call_resetdata_openai_api_cases w (b64encode bs) prompt_to_use
              config page_num llm_api_key output_format)
    as [([text] & Hcall)|(msg & Hmsg & Hcall)]; rewrite Hcall.
  2:{ cbn [Py.truthy_opt]. rewrite Hmsg. eexists. reflexivity. }
  cbn [Py.truthy_opt fmap option_fmap option_map parts_text].
  destruct text as [|c text]; cbn [Py.truthy negb default from_option id].
  { eexists. reflexivity. }
  apply String.eqb_neq in Hfmt. rewrite Hfmt.
  unfold parse_and_validate_ai_output.
  change (String.eqb "text/plain" "application/json") with false.
  cbn [Py.truthy_opt]. eexists. reflexivity.
Qed.

(** A successful rasterization has produced at least one file. *)
Lemma extract_pages_success_nonempty
    (w : World) (pdf_path output_dir : Path) (config : AppSettings)
    (fs : FileSystem) :
  let r := (extract_pdf_pages_as_png w pdf_path output_dir config fs).1 in
  r.1.1 = true -> r.1.2 <> [].
Proof.
  cbv zeta. unfold extract_pdf_pages_as_png.
  destruct (exists_ fs pdf_path); cbn [negb]; [|discriminate].
  destruct (mkdir w output_dir fs) as [fs1|exc e]; [|discriminate].
  destruct (run_subprocess_async w _ fs1) as [[[rc out] err] fs2].
  destruct (Py.sorted _ _) as [|p ps]; [discriminate|].
  destruct (negb (rc =? 0)%Z); cbn [fst snd]; discriminate.
Qed.

(** A document that has been prepared has at least one page image. *)
Lemma prepare_document_returned_nonempty
    (w : World) (input_file_path job_dir : Path) (config : AppSettings)
    (fs : FileSystem) (pdf_metadata : gmap string meta_value)
    (screenshot_paths : list Path) :
  (prepare_document w input_file_path job_dir config fs).1
  = Py.Returned (pdf_metadata, screenshot_paths) ->
  screenshot_paths <> [].
Proof.
  unfold prepare_document.
  destruct (convert_to_pdf_libreoffice _ _ _ _ _) as [[[cs cp] ce] fs1].
  destruct cs; [|discriminate]. destruct cp as [pdf|]; [|discriminate].
  destruct (extract_pdf_metadata _ _ _ _) as [[[ms mo] me] fs2].
  destruct (extract_pdf_pages_as_png _ _ _ _ _) as [[[ss sp] se] fs3].
  destruct (negb ss || bool_decide (sp = [])) eqn:E; [discriminate|].
  intros [= _ <-]. apply orb_false_iff in E as [_ E].
  now apply bool_decide_eq_false in E.
Qed.

(** The outcome of a run that has reached the passes, whatever the page
    tasks do: the first task found to have raised ends the run with its
    exception. *)
Lemma run_outcome_after_prepare
    (w : World) (input_file_path : Path) (user_prompt output_format : string)
    (use_meta_intelligence : bool) (config : AppSettings)
    (llm_api_key : string) (job_dir : Path) (fs fs1 : FileSystem)
    (pdf_metadata : gmap string meta_value) (screenshot_paths : list Path) :
  exists_ fs input_file_path = true ->
  is_image_input input_file_path = false ->
  prepare_document w input_file_path job_dir config fs
  = (Py.Returned (pdf_metadata, screenshot_paths), fs1) ->
  let run :=
    process_document_stateless w input_file_path user_prompt output_format
      use_meta_intelligence config llm_api_key job_dir fs in
  let tasks :=
    map (fun c => (call_page_num c, run_page_call w config llm_api_key c))
      (run_main_calls run) in
  let completed := as_completed (length tasks) (completion_choices w) tasks in
  forall exc e,
    collect_results (map snd completed) [] = Py.Raised exc e ->
    run_outcome run = Py.Raised exc e.
Proof.
  intros Hin Himg Hprep. cbv zeta.
  destruct (run_after_prepare w input_file_path user_prompt output_format
              use_meta_intelligence config llm_api_key job_dir fs fs1
              pdf_metadata screenshot_paths Hin Himg Hprep)
    as (_ & Hmain & _ & _).
  cbv zeta in Hmain. rewrite Hmain. clear Hmain.
  unfold process_document_stateless.
  rewrite Hin, Himg, Hprep. cbn [negb]. rewrite andb_true_r.
  assert (Hmeta :
    (if use_meta_intelligence
     then meta_pass_calls w screenshot_paths job_dir else Some [])
    = Some (if use_meta_intelligence
            then imap (fun i p =>
                         mkPageCall (Z.of_nat i + 1) p (META_PROMPT_TEMPLATE w)
                           "json" (job_dir ++ ["meta_results"]))
                      (take 3 screenshot_paths)
            else [])).
  { destruct use_meta_intelligence; [apply meta_pass_calls_spec | reflexivity]. }
  rewrite Hmeta. clear Hmeta.
  intros exc e Hraise. rewrite Hraise. reflexivity.
Qed.

(** The loop over the completed tasks stops at the first one that has
    raised. *)
Lemma collect_results_raised {A : Type}
    (completed : list (Py.result A)) (acc : list A) (exc e : string) :
  Py.Raised exc e ∈ completed ->
  exists exc' e',
    collect_results completed acc = Py.Raised exc' e'
    /\ Py.Raised exc' e' ∈ completed.
Proof.
  revert acc. induction completed as [|t completed IH]; intros acc Hin.
  - now apply elem_of_nil in Hin.
  - destruct t as [r|exc' e'].
    + apply elem_of_cons in Hin as [[=]|Hin].
      destruct (IH (acc ++ [r]) Hin) as (exc' & e' & Hc & Hin').
      exists exc', e'. split; [exact Hc | now right].
    + exists exc', e'. split; [reflexivity | left].
Qed.



(** The result of a run on a prepared document whose page tasks of the
    main pass all produce an outcome. *)
Lemma run_of_prepared_document
    (w : World) (input_file_path : Path) (user_prompt output_format : string)
    (use_meta_intelligence : bool) (config : AppSettings)
    (llm_api_key : string) (job_dir : Path) (fs fs1 : FileSystem)
    (pdf_metadata : gmap string meta_value) (screenshot_paths : list Path) :
  exists_ fs input_file_path = true ->
  is_image_input input_file_path = false ->
  prepare_document w input_file_path job_dir config fs
  = (Py.Returned (pdf_metadata, screenshot_paths), fs1) ->
  let run :=
    process_document_stateless w input_file_path user_prompt output_format
      use_meta_intelligence config llm_api_key job_dir fs in
  (forall c : PageCall,
     c ∈ run_main_calls run ->
     exists r, run_page_call w config llm_api_key c = Py.Returned r) ->
  exists rs,
    length rs = length screenshot_paths
    /\ run_outcome run
       = Py.Returned
           (aggregate_processing_results (aggregation_clock w)
              (Py.str_of_Z (time_time_int w)) (name input_file_path) rs
              pdf_metadata user_prompt).
Proof.
  intros Hin Himg Hprep run Hpages.
  pose proof (prepare_document_returned_nonempty w input_file_path job_dir
                config fs pdf_metadata screenshot_paths) as Hne.
  rewrite Hprep in Hne. specialize (Hne eq_refl).
  destruct (run_after_prepare w input_file_path user_prompt output_format
              use_meta_intelligence config llm_api_key job_dir fs fs1
              _ _ Hin Himg Hprep) as (_ & Hmain & _ & Hout).
  cbv zeta in Hout, Hmain. fold run in Hout, Hmain. rewrite Hmain in Hpages.
  match type of Hout with
  | forall page_results, collect_results (map snd ?c) [] = _ -> _ =>
      set (completed := c) in *
  end.
  assert (Hall : Forall (fun t => exists r, t = Py.Returned r)
                   (map snd completed)).
  { apply Forall_forall. intros t Ht.
    apply list_elem_of_fmap in Ht as ([n res] & -> & Hin').
    subst completed. rewrite as_completed_Permutation in Hin'.
    apply list_elem_of_fmap in Hin' as (c & [= -> ->] & Hc).
    apply Hpages. exact Hc. }
  destruct (collect_results_all_returned _ [] Hall) as (rs & Hrs & Hlen).
  cbn [app] in Hrs.
  assert (Hlen' : length rs = length screenshot_paths).
  { rewrite Hlen, length_map. subst completed.
    rewrite as_completed_Permutation, length_map.
    apply main_pass_calls_length. }
  assert (Hrs_ne : rs <> []).
  { intros ->. destruct screenshot_paths; [congruence | discriminate]. }
  exists rs. split; [exact Hlen' | exact (Hout rs Hrs Hrs_ne)].
Qed.


(** ** Claims on [process_document_stateless] *)

(** Discharges the condition that every page task of the main pass of a
    concrete run produces an outcome, by running each of them. *)
Ltac main_pass_returns :=
  let c := fresh "c" in
  let Hc := fresh "Hc" in
  intros c Hc; vm_compute in Hc;
  repeat (apply elem_of_cons in Hc as [->|Hc]);
  [eexists; vm_compute; reflexivity .. | now apply elem_of_nil in Hc].





(** C8, as amended. The main pass creates the tasks of all pages before
    it awaits any of them: the number of page tasks in flight at one time
    reaches the number of pages. The worker limit of the settings is not
    consulted: a run is the same whatever [max_workers] is. *)
Theorem main_pass_puts_every_page_in_flight
    (w : World) (input_file_path : Path) (user_prompt output_format : string)
    (use_meta_intelligence : bool) (config : AppSettings)
    (llm_api_key : string) (job_dir : Path) (fs : FileSystem)
    (pdf_metadata : gmap string meta_value) (screenshot_paths : list Path) :
  exists_ fs input_file_path = true ->
  is_image_input input_file_path = false ->
  (prepare_document w input_file_path job_dir config fs).1
  = Py.Returned (pdf_metadata, screenshot_paths) ->
  let run :=
    process_document_stateless w input_file_path user_prompt output_format
      use_meta_intelligence config llm_api_key job_dir fs in
  Observations.peak_in_flight (run_events run) 0 0 = length screenshot_paths
  /\ (forall k : Z,
        process_document_stateless w input_file_path user_prompt
          output_format use_meta_intelligence (with_max_workers k config)
          llm_api_key job_dir fs = run).
Proof.
  intros Hin Himg Hprep.
  destruct (prepare_document w input_file_path job_dir config fs)
    as [res fs1] eqn:Hprep'. cbn [fst] in Hprep. subst res.
  destruct (run_after_prepare w input_file_path user_prompt output_format
              use_meta_intelligence config llm_api_key job_dir fs fs1
              pdf_metadata screenshot_paths Hin Himg Hprep')
    as (_ & _ & Hev & _).
  cbv zeta. split.
  - rewrite Hev, peak_in_flight_created by lia.
    rewrite peak_in_flight_collected, length_map, main_pass_calls_length.
    lia.
  - intros k. destruct config. reflexivity.
Qed.

(** C8, witness: a six-page document with the default settings. *)
Lemma main_pass_puts_every_page_in_flight_witness :
  Observations.peak_in_flight
    (run_events
       (Scenario.run (Scenario.world 0 0 6 (Scenario.always "hello")) "text"
          false default_settings)) 0 0
  = 6.
Proof.
  apply (main_pass_puts_every_page_in_flight
           (Scenario.world 0 0 6 (Scenario.always "hello"))
           Scenario.input_file_path "Describe the page" "text" false
           default_settings "key" Scenario.job_dir Scenario.initial_fs
           (<["source_type" := MStr "document"]> {[ "pages" := MInt 6 ]})
           (map Scenario.screenshot (seq 1 6))
           ltac:(vm_compute; reflexivity)
           ltac:(vm_compute; reflexivity)
           ltac:(vm_compute; reflexivity)).
Defined.

(** C8, counterexample to the claim as stated: with the default worker
    limit of 5 and a document of six pages, six page tasks are in flight
    at one time. *)
Lemma main_pass_exceeds_max_workers :
  ~ (Z.of_nat
       (Observations.peak_in_flight
          (run_events
             (Scenario.run (Scenario.world 0 0 6 (Scenario.always "hello"))
                "text" false default_settings)) 0 0)
     <= max_workers default_settings)%Z.
Proof. vm_compute. intros H. apply H. reflexivity. Qed.


(** C5, as amended. For a document input whose metadata extraction fails
    and whose rasterization succeeds, [process_document_stateless] returns
    an aggregated result whenever every page task of the main pass
    produces an outcome. The embedded metadata then holds the source-type
    tag only, with no page-count entry, and the reported page count of the
    summary is the number of rendered pages, which is also the number of
    page outcomes. *)
Theorem metadata_failure_falls_back_to_rendered_pages
    (w : World) (input_file_path : Path) (user_prompt output_format : string)
    (use_meta_intelligence : bool) (config : AppSettings)
    (llm_api_key : string) (job_dir : Path) (fs : FileSystem)
    (pdf_path : Path) :
  exists_ fs input_file_path = true ->
  is_image_input input_file_path = false ->
  let conv :=
    convert_to_pdf_libreoffice w input_file_path (job_dir ++ ["converted"])
      config fs in
  conv.1.1.1 = true ->
  conv.1.1.2 = Some pdf_path ->
  let meta := extract_pdf_metadata w pdf_path config conv.2 in
  meta.1.1.1 = false ->
  let shots :=
    extract_pdf_pages_as_png w pdf_path (job_dir ++ ["screenshots"]) config
      meta.2 in
  shots.1.1.1 = true ->
  let run :=
    process_document_stateless w input_file_path user_prompt output_format
      use_meta_intelligence config llm_api_key job_dir fs in
  (forall c : PageCall,
     c ∈ run_main_calls run ->
     exists r, run_page_call w config llm_api_key c = Py.Returned r) ->
  exists r : AggregatedResult,
    run_outcome run = Py.Returned r
    /\ pdf_metadata (processing_summary r)
       = {[ "source_type" := MStr "document" ]}
    /\ pdf_metadata (processing_summary r) !! "pages" = None
    /\ source_total_pages (processing_summary r)
       = MInt (Z.of_nat (length shots.1.1.2))
    /\ length (pages r) = length shots.1.1.2
    /\ processed_pages_count (processing_summary r) = length shots.1.1.2
    /\ shots.1.1.2 <> [].
Proof.
  intros Hin Himg conv Hconv Hpdf meta Hmeta shots Hshots run Hpages.
  pose proof (extract_pages_success_nonempty w pdf_path
                (job_dir ++ ["screenshots"]) config meta.2 Hshots) as Hne.
  fold shots in Hne.
  assert (Hprep :
    prepare_document w input_file_path job_dir config fs
    = (Py.Returned (<["source_type" := MStr "document"]> ∅, shots.1.1.2),
       shots.2)).
  { unfold prepare_document.
    change (joinpath job_dir "converted") with (job_dir ++ ["converted"]).
    change (joinpath job_dir "screenshots") with (job_dir ++ ["screenshots"]).
    fold conv. destruct conv as [[[cs cp] ce] fs1] eqn:Econv.
    cbn [fst snd] in *. subst cs cp.
    fold meta. destruct meta as [[[ms mo] me] fs2] eqn:Emeta.
    cbn [fst snd] in *. subst ms.
    fold shots. destruct shots as [[[ss sp] se] fs3] eqn:Eshots.
    cbn [fst snd] in *. subst ss. cbn [negb orb].
    rewrite bool_decide_eq_false_2 by exact Hne. reflexivity. }
  destruct (run_after_prepare w input_file_path user_prompt output_format
              use_meta_intelligence config llm_api_key job_dir fs shots.2
              _ _ Hin Himg Hprep) as (_ & Hmain & _ & Hout).
  cbv zeta in Hout, Hmain. fold run in Hout, Hmain. rewrite Hmain in Hpages.
  match type of Hout with
  | forall page_results, collect_results (map snd ?c) [] = _ -> _ =>
      set (completed := c) in *
  end.
  assert (Hall : Forall (fun t => exists r, t = Py.Returned r)
                   (map snd completed)).
  { apply Forall_forall. intros t Ht.
    apply list_elem_of_fmap in Ht as ([n res] & -> & Hin').
    subst completed. rewrite as_completed_Permutation in Hin'.
    apply list_elem_of_fmap in Hin' as (c & [= -> ->] & Hc).
    apply Hpages. exact Hc. }
  destruct (collect_results_all_returned _ [] Hall) as (rs & Hrs & Hlen).
  cbn [app] in Hrs.
  assert (Hlen' : length rs = length shots.1.1.2).
  { rewrite Hlen, length_map. subst completed.
    rewrite as_completed_Permutation, length_map.
    apply main_pass_calls_length. }
  assert (Hrs_ne : rs <> []).
  { intros ->. cbn in Hlen'. destruct (shots.1.1.2); [congruence|discriminate]. }
  eexists. split; [apply (Hout rs Hrs Hrs_ne)|].
  pose proof (sorted_Permutation page_number rs) as Hperm.
  pose proof (count_results_spec rs) as (Hcount & _ & _).
  assert (Hproc :
    length (pages (aggregate_processing_results (aggregation_clock w)
                     (Py.str_of_Z (time_time_int w)) (name input_file_path) rs
                     (<["source_type" := MStr "document"]> ∅) user_prompt))
    = processed_pages_count
        (processing_summary
           (aggregate_processing_results (aggregation_clock w)
              (Py.str_of_Z (time_time_int w)) (name input_file_path) rs
              (<["source_type" := MStr "document"]> ∅) user_prompt))).
  { cbn [pages processing_summary processed_pages_count
         aggregate_processing_results].
    rewrite sorted_length. symmetry. exact Hcount. }
  change (pages (aggregate_processing_results (aggregation_clock w)
                   (Py.str_of_Z (time_time_int w)) (name input_file_path) rs
                   (<["source_type" := MStr "document"]> ∅) user_prompt))
    with (Py.sorted page_number rs) in *.
  split; [reflexivity|]. split; [reflexivity|].
  split.
  { cbn [processing_summary source_total_pages aggregate_processing_results].
    unfold reported_total_pages.
    change ((<["source_type" := MStr "document"]> ∅ : gmap string meta_value)
              !! "pages") with (@None meta_value).
    cbn [default from_option]. now rewrite Hlen'. }
  split; [now rewrite (Permutation_length Hperm)|].
  split; [|exact Hne].
  rewrite <- Hproc, (Permutation_length Hperm). exact Hlen'.
Qed.


(** C5, witness: a four-page document whose metadata tool exits with 1,
    processed in the JSON format; every page answers with an object. *)
Lemma metadata_failure_falls_back_witness :
  exists r : AggregatedResult,
    run_outcome
      (Scenario.run (Scenario.world 1 0 4 (Scenario.always "{}")) "json"
         false default_settings)
    = Py.Returned r
    /\ pdf_metadata (processing_summary r) !! "pages" = None
    /\ source_total_pages (processing_summary r) = MInt 4
    /\ length (pages r) = 4.
Proof.
  destruct (metadata_failure_falls_back_to_rendered_pages
              (Scenario.world 1 0 4 (Scenario.always "{}"))
              Scenario.input_file_path "Describe the page" "json" false
              default_settings "key" Scenario.job_dir Scenario.initial_fs
              Scenario.pdf_path
              ltac:(vm_compute; reflexivity)
              ltac:(vm_compute; reflexivity)
              ltac:(vm_compute; reflexivity)
              ltac:(vm_compute; reflexivity)
              ltac:(vm_compute; reflexivity)
              ltac:(vm_compute; reflexivity)
              ltac:(main_pass_returns))
    as (r & Hrun & _ & Hpages & Htotal & Hlen & _).
  exists r. split; [exact Hrun|]. split; [exact Hpages|].
  split; [exact Htotal | exact Hlen].
Defined.

(** C5, counterexample to the claim as stated: when the metadata tool
    fails, the metadata embedded in the result has no page-count entry;
    its only key is the source-type tag. *)
Lemma metadata_failure_leaves_no_page_count :
  let w := Scenario.world 1 0 4 (Scenario.always "hello") in
  let conv :=
    convert_to_pdf_libreoffice w Scenario.input_file_path
      (Scenario.job_dir ++ ["converted"]) default_settings
      Scenario.initial_fs in
  conv.1.1 = (true, Some Scenario.pdf_path)
  /\ (extract_pdf_metadata w Scenario.pdf_path default_settings conv.2).1.1.1
     = false
  /\ exists r : AggregatedResult,
       run_outcome (Scenario.run w "text" false default_settings)
       = Py.Returned r
       /\ pdf_metadata (processing_summary r) !! "pages" = None
       /\ dom (pdf_metadata (processing_summary r)) = {[ "source_type" ]}.
Proof.
  cbv zeta. split; [vm_compute; reflexivity|].
  split; [vm_compute; reflexivity|].
  eexists. split; [vm_compute; reflexivity|].
  split; [vm_compute; reflexivity|]. vm_compute. reflexivity.
Qed.

(** C4, witness: the rasterizer exits with 1 after writing two pages. *)
Lemma extract_pages_outcome_witness :
  let w := Scenario.world 0 1 2 (Scenario.always "hello") in
  let r :=
    (extract_pdf_pages_as_png w Scenario.pdf_path Scenario.screenshot_dir
       default_settings (Scenario.initial_fs ∪ {[ Scenario.pdf_path ]})).1 in
  r.1.1 = true
  /\ r.1.2 = [Scenario.screenshot 1; Scenario.screenshot 2]
  /\ Py.truthy r.2 = true.
Proof.
  cbv zeta.
  pose (w := Scenario.world 0 1 2 (Scenario.always "hello")).
  pose (fs := Scenario.initial_fs ∪ {[ Scenario.pdf_path ]}).
  pose (fs1 := fs ∪ list_to_set
                      (map (fun n => take n Scenario.screenshot_dir)
                         (seq 1 (length Scenario.screenshot_dir)))).
  pose (fs2 := fs1 ∪ list_to_set (map Scenario.screenshot (seq 1 2))).
  assert (Hin : exists_ fs Scenario.pdf_path = true)
    by (vm_compute; reflexivity).
  assert (Hmk : mkdir w Scenario.screenshot_dir fs = Py.Returned fs1)
    by reflexivity.
  assert (Hrun :
    run_subprocess_async w
      (screenshot_command default_settings Scenario.pdf_path
         Scenario.screenshot_dir) fs1
    = ((1%Z, "", "Syntax Warning: Could not find a font file"), fs2))
    by reflexivity.
  assert (Hfound :
    os_glob w Scenario.screenshot_dir
      (screenshot_pattern Scenario.pdf_path Scenario.screenshot_dir) fs2
    <> []) by (vm_compute; discriminate).
  destruct (extract_pages_outcome_by_files_found w Scenario.pdf_path
              Scenario.screenshot_dir default_settings fs fs1 fs2 1 ""
              "Syntax Warning: Could not find a font file" Hin Hmk Hrun)
    as [_ Hyes].
  destruct (Hyes Hfound) as (Hs & Hp & _ & _ & Hw).
  split; [exact Hs|]. split.
  - etrans; [exact Hp|]. vm_compute. reflexivity.
  - apply Hw. discriminate.
Defined.

(* ===================================================================== *)
(** * Further properties of the code                                      *)
(* ===================================================================== *)

(** ** The order of the pages of a result *)

(** Two arrangements of the same elements, one increasing and one
    non-decreasing in the key, are the same list. *)
Lemma StronglySorted_Permutation_eq {A : Type} (key : A -> Z) (l1 l2 : list A) :
  StronglySorted (key_lt key) l1 -> StronglySorted (key_le key) l2 ->
  l1 ≡ₚ l2 -> l1 = l2.
Proof.
  intros H1. revert l2. induction H1 as [|x l1 Hl1 IH Hx]; intros l2 H2 Hp.
  - now apply Permutation_nil_l in Hp.
  - destruct H2 as [|y l2 Hl2 Hy].
    { symmetry in Hp. now apply Permutation_nil_cons in Hp. }
    rewrite Forall_forall in Hx, Hy.
    assert (Hyin : y ∈ x :: l1) by (rewrite Hp; left).
    assert (Hxin : x ∈ y :: l2) by (rewrite <- Hp; left).
    assert (E : y = x).
    { apply elem_of_cons in Hyin as [E|Hyin]; [exact E|].
      apply elem_of_cons in Hxin as [E|Hxin]; [now symmetry|].
      specialize (Hx y Hyin). specialize (Hy x Hxin).
      unfold key_lt, key_le in *. lia. }
    subst y. f_equal. apply IH; [exact Hl2|].
    now apply Permutation_cons_inv in Hp.
Qed.

(** Sorting any arrangement of an increasing list gives that list back. *)
Lemma sorted_of_Permutation {A : Type} (key : A -> Z) (l l' : list A) :
  StronglySorted (key_lt key) l -> l' ≡ₚ l -> Py.sorted key l' = l.
Proof.
  intros Hl Hp. symmetry.
  apply (StronglySorted_Permutation_eq key); [exact Hl|apply sorted_StronglySorted|].
  now rewrite sorted_Permutation.
Qed.

Lemma new_PageProcessingResult_page_number
    (now : string) (n : Z) (s : PageProcessingStatus) (d : json)
    (e raw : option string) (r : PageProcessingResult)
    (error_str : json -> string) :
  new_PageProcessingResult error_str now n s d e raw = Py.Returned r ->
  page_number r = n.
Proof.
  unfold new_PageProcessingResult.
  destruct (validate_data _ d); [|discriminate].
  now intros [= <-].
Qed.

(** An outcome carries the page number its task was created with. *)
Lemma process_single_page_page_number
    (w : World) (page_num : Z) (screenshot_path : Path)
    (prompt_to_use output_format : string) (job_dir : Path)
    (config : AppSettings) (llm_api_key : string) (r : PageProcessingResult) :
  _process_single_page w page_num screenshot_path prompt_to_use output_format
    job_dir config llm_api_key = Py.Returned r ->
  page_number r = page_num.
Proof.
  unfold _process_single_page. intros H.
  repeat case_match; eapply new_PageProcessingResult_page_number; exact H.
Qed.

(** The outcomes of the tasks of the main pass, taken in task order, are
    numbered from [k + 1] upwards. *)
Lemma main_pass_outcomes_numbered
    (w : World) (config : AppSettings) (llm_api_key : string)
    (prompt output_format : string) (job_dir : Path)
    (screenshot_paths : list Path) (k : nat) (rs : list PageProcessingResult) :
  map (run_page_call w config llm_api_key)
    (imap (fun i p =>
             mkPageCall (Z.of_nat (k + i) + 1) p prompt output_format job_dir)
          screenshot_paths)
  = map Py.Returned rs ->
  page_number <$> rs
  = (fun i => (Z.of_nat i + 1)%Z) <$> seq k (length screenshot_paths).
Proof.
  revert k rs. induction screenshot_paths as [|p ps IH]; intros k rs H.
  - destruct rs; [reflexivity | discriminate].
  - destruct rs as [|r rs]; [discriminate|].
    cbn [imap map] in H. injection H as Hr Hrest.
    cbn [length seq fmap list_fmap]. f_equal.
    + unfold run_page_call in Hr. cbn in Hr.
      apply process_single_page_page_number in Hr. rewrite Hr.
      f_equal. lia.
    + apply IH. rewrite <- Hrest. f_equal. apply imap_ext.
      intros i q _. cbn. do 2 f_equal. lia.
Qed.

Lemma numbered_StronglySorted (rs : list PageProcessingResult) (k n : nat) :
  page_number <$> rs = (fun i => (Z.of_nat i + 1)%Z) <$> seq k n ->
  StronglySorted (key_lt page_number) rs.
Proof.
  revert k n. induction rs as [|r rs IH]; intros k n H; [constructor|].
  destruct n as [|n]; [discriminate|].
  cbn [seq fmap list_fmap] in H. injection H as Hr Hrest.
  constructor; [eapply IH; exact Hrest|].
  apply Forall_forall. intros r' Hr'.
  apply (list_elem_of_fmap_2 page_number) in Hr'. rewrite Hrest in Hr'.
  apply list_elem_of_fmap in Hr' as (i & Hi & Hin).
  apply elem_of_seq in Hin. unfold key_lt. lia.
Qed.


(** X1. The pages of a result are in page order whatever the order in which
    the page tasks complete. For a prepared document whose page tasks all
    produce an outcome, [process_document_stateless] returns a result whose
    pages are these outcomes in the order of the pages of the document,
    numbered 1, 2, ... without gap, for every completion order the event
    loop may choose. *)
Theorem pages_in_document_order_for_every_completion_order
    (w : World) (input_file_path : Path) (user_prompt output_format : string)
    (use_meta_intelligence : bool) (config : AppSettings)
    (llm_api_key : string) (job_dir : Path) (fs : FileSystem)
    (pdf_metadata : gmap string meta_value) (screenshot_paths : list Path)
    (rs : list PageProcessingResult) (choices : list nat) :
  exists_ fs input_file_path = true ->
  is_image_input input_file_path = false ->
  (prepare_document w input_file_path job_dir config fs).1
  = Py.Returned (pdf_metadata, screenshot_paths) ->
  map (run_page_call w config llm_api_key)
    (run_main_calls
       (process_document_stateless w input_file_path user_prompt
          output_format use_meta_intelligence config llm_api_key job_dir fs))
  = map Py.Returned rs ->
  exists result : AggregatedResult,
    run_outcome
      (process_document_stateless
         (EnvUpdate.with_completion_choices choices w) input_file_path
         user_prompt output_format use_meta_intelligence config llm_api_key
         job_dir fs)
    = Py.Returned result
    /\ pages result = rs
    /\ page_number <$> rs
       = (fun i => (Z.of_nat i + 1)%Z) <$> seq 0 (length screenshot_paths).
Proof.
  intros Hin Himg Hprep Hrs.
  destruct (prepare_document w input_file_path job_dir config fs)
    as [res fs1] eqn:Hprep'. cbn [fst] in Hprep. subst res.
  pose proof (prepare_document_returned_nonempty w input_file_path job_dir
                config fs pdf_metadata screenshot_paths) as Hne.
  rewrite Hprep' in Hne. specialize (Hne eq_refl).
  destruct (run_after_prepare w input_file_path user_prompt output_format
              use_meta_intelligence config llm_api_key job_dir fs fs1
              pdf_metadata screenshot_paths Hin Himg Hprep')
    as (_ & Hmain & _ & _).
  cbv zeta in Hmain. rewrite Hmain in Hrs. clear Hmain.
  set (w' := EnvUpdate.with_completion_choices choices w).
  assert (Hprep'' : prepare_document w' input_file_path job_dir config fs
                    = (Py.Returned (pdf_metadata, screenshot_paths), fs1))
    by exact Hprep'.
  destruct (run_after_prepare w' input_file_path user_prompt output_format
              use_meta_intelligence config llm_api_key job_dir fs fs1
              pdf_metadata screenshot_paths Hin Himg Hprep'')
    as (_ & _ & _ & Hout).
  cbv zeta in Hout.
  change (run_page_call w') with (run_page_call w) in Hout.
  change (META_PROMPT_TEMPLATE w') with (META_PROMPT_TEMPLATE w) in Hout.
  change (build_meta_context w') with (build_meta_context w) in Hout.
  match type of Hout with
  | forall page_results, collect_results (map snd ?c) [] = _ -> _ =>
      set (completed := c) in *
  end.
  match type of Hrs with
  | map _ ?c = _ => set (main_calls := c) in *
  end.
  assert (Hnum : page_number <$> rs
                 = (fun i => (Z.of_nat i + 1)%Z)
                   <$> seq 0 (length screenshot_paths)).
  { eapply (main_pass_outcomes_numbered w config llm_api_key _ _ _ _ 0).
    exact Hrs. }
  assert (Hperm : map snd completed ≡ₚ map Py.Returned rs).
  { subst completed. rewrite as_completed_Permutation, map_map. cbn [snd].
    now rewrite <- Hrs. }
  apply Permutation_map_inv in Hperm as (rs' & Hrs' & Hperm).
  assert (Hcollect : collect_results (map snd completed) [] = Py.Returned rs').
  { rewrite Hrs'. clear.
    change rs' with ([] ++ rs') at 2. generalize (@nil PageProcessingResult).
    induction rs' as [|r rs' IH]; intros acc; cbn [map collect_results].
    - now rewrite app_nil_r.
    - rewrite IH, <- app_assoc. reflexivity. }
  assert (Hne' : rs' <> []).
  { intros ->. apply Permutation_nil_r in Hperm. subst rs.
    destruct screenshot_paths; [congruence | discriminate]. }
  eexists. split; [apply (Hout rs' Hcollect Hne')|]. split; [|exact Hnum].
  cbn [pages aggregate_processing_results].
  apply sorted_of_Permutation; [|now symmetry].
  eapply numbered_StronglySorted. exact Hnum.
Qed.

(** X1, witness: three pages that complete in the order 3, 1, 2. *)
Lemma pages_in_document_order_witness :
  exists result : AggregatedResult,
    run_outcome
      (process_document_stateless
         (EnvUpdate.with_completion_choices [2; 0; 0]
            (Scenario.world 0 0 3 (Scenario.always "hello")))
         Scenario.input_file_path "Describe the page" "text" false
         default_settings "key" Scenario.job_dir Scenario.initial_fs)
    = Py.Returned result
    /\ page_number <$> pages result = [1; 2; 3]%Z.
Proof.
  pose (page := fun n : Z =>
          mkPageResult n SUCCESS (Some (DataStr "hello")) None None
            "2023-11-14T22:13:20").
  destruct (pages_in_document_order_for_every_completion_order
              (Scenario.world 0 0 3 (Scenario.always "hello"))
              Scenario.input_file_path "Describe the page" "text" false
              default_settings "key" Scenario.job_dir Scenario.initial_fs
              (<["source_type" := MStr "document"]> {[ "pages" := MInt 3 ]})
              (map Scenario.screenshot (seq 1 3))
              [page 1%Z; page 2%Z; page 3%Z] [2; 0; 0]
              ltac:(vm_compute; reflexivity)
              ltac:(vm_compute; reflexivity)
              ltac:(vm_compute; reflexivity)
              ltac:(vm_compute; reflexivity))
    as (result & Hrun & Hpages & _).
  exists result. split; [exact Hrun|]. rewrite Hpages. reflexivity.
Defined.

(** ** What a run leaves on disk *)






(** ** The stages before the page tasks *)



(** X3. A missing input file ends the run with a [ValueError] before any tool
    is started and before any page task is created; the file system is
    only touched by the [finally] block. *)
Theorem missing_input_raises_value_error
    (w : World) (input_file_path : Path) (user_prompt output_format : string)
    (use_meta_intelligence : bool) (config : AppSettings)
    (llm_api_key : string) (job_dir : Path) (fs : FileSystem) :
  exists_ fs input_file_path = false ->
  let run :=
    process_document_stateless w input_file_path user_prompt output_format
      use_meta_intelligence config llm_api_key job_dir fs in
  run_outcome run
  = Py.Raised "ValueError" ("Input file not found: " +:+ str input_file_path)
  /\ run_meta_calls run = [] /\ run_main_calls run = []
  /\ run_events run = []
  /\ run_fs run = cleanup w input_file_path job_dir fs
  /\ (exists_ fs job_dir = false -> run_fs run = fs).
Proof.
  intros Hin. cbv zeta. unfold process_document_stateless. rewrite Hin.
  cbn [negb run_outcome run_meta_calls run_main_calls run_events run_fs].
  repeat split. intros Hjob. unfold cleanup. now rewrite Hin, Hjob.
Qed.

(** X3, witness: the upload has disappeared and there is no job directory. *)
Lemma missing_input_raises_value_error_witness :
  let run :=
    process_document_stateless (Scenario.world 0 0 2 (Scenario.always "hello"))
      Scenario.input_file_path "Describe the page" "text" true
      default_settings "key" Scenario.job_dir MoreScenarios.uploads_only_fs in
  run_outcome run
  = Py.Raised "ValueError" "Input file not found: /uploads/report.docx"
  /\ run_fs run = MoreScenarios.uploads_only_fs.
Proof.
  cbv zeta.
  destruct (missing_input_raises_value_error
              (Scenario.world 0 0 2 (Scenario.always "hello"))
              Scenario.input_file_path "Describe the page" "text" true
              default_settings "key" Scenario.job_dir
              MoreScenarios.uploads_only_fs
              ltac:(vm_compute; reflexivity))
    as (Hout & _ & _ & _ & _ & Hfs).
  split; [exact Hout|]. apply Hfs. vm_compute. reflexivity.
Defined.

(** X4. A failed conversion ends the run with a [RuntimeError] that carries
    the converter's message; no page task is created, and the file system
    the [finally] block starts from is the one the converter left. *)
Theorem conversion_failure_raises_runtime_error
    (w : World) (input_file_path : Path) (user_prompt output_format : string)
    (use_meta_intelligence : bool) (config : AppSettings)
    (llm_api_key : string) (job_dir : Path) (fs : FileSystem) :
  exists_ fs input_file_path = true ->
  is_image_input input_file_path = false ->
  let conv :=
    convert_to_pdf_libreoffice w input_file_path (job_dir ++ ["converted"])
      config fs in
  conv.1.1.1 = false ->
  let run :=
    process_document_stateless w input_file_path user_prompt output_format
      use_meta_intelligence config llm_api_key job_dir fs in
  run_outcome run
  = Py.Raised "RuntimeError" ("Document conversion failed: " +:+ conv.1.2)
  /\ run_meta_calls run = [] /\ run_main_calls run = []
  /\ run_events run = []
  /\ run_fs run = cleanup w input_file_path job_dir conv.2.
Proof.
  intros Hin Himg conv Hconv. cbv zeta.
  unfold process_document_stateless, prepare_document.
  rewrite Hin, Himg. cbn [negb].
  change (joinpath job_dir "converted") with (job_dir ++ ["converted"]).
  fold conv. destruct conv as [[[cs cp] ce] fs1]. cbn [fst snd] in *.
  subst cs. repeat split.
Qed.

(** X4, witness: the converter exits with 77 and writes no file. *)
Lemma conversion_failure_raises_runtime_error_witness :
  run_outcome
    (Scenario.run MoreScenarios.failing_converter_world "text" true
       default_settings)
  = Py.Raised "RuntimeError"
      "Document conversion failed: Conversion failed: LibreOffice could not load the source file 'report.docx'. It might be corrupted or an unsupported format. Stderr: Error: source file could not be loaded".
Proof.
  destruct (conversion_failure_raises_runtime_error
              MoreScenarios.failing_converter_world
              Scenario.input_file_path "Describe the page" "text" true
              default_settings "key" Scenario.job_dir Scenario.initial_fs
              ltac:(vm_compute; reflexivity)
              ltac:(vm_compute; reflexivity)
              ltac:(vm_compute; reflexivity))
    as (Hout & _).
  etrans; [exact Hout|]. vm_compute. reflexivity.
Defined.

(** X5. A rasterization that fails, or finds no page image, ends the run with
    a [RuntimeError] that carries the rasterizer's message, whatever the
    metadata tool did; no page task is created. *)
Theorem rasterization_failure_raises_runtime_error
    (w : World) (input_file_path : Path) (user_prompt output_format : string)
    (use_meta_intelligence : bool) (config : AppSettings)
    (llm_api_key : string) (job_dir : Path) (fs : FileSystem)
    (pdf_path : Path) :
  exists_ fs input_file_path = true ->
  is_image_input input_file_path = false ->
  let conv :=
    convert_to_pdf_libreoffice w input_file_path (job_dir ++ ["converted"])
      config fs in
  conv.1.1 = (true, Some pdf_path) ->
  let meta := extract_pdf_metadata w pdf_path config conv.2 in
  let shots :=
    extract_pdf_pages_as_png w pdf_path (job_dir ++ ["screenshots"]) config
      meta.2 in
  shots.1.1.1 = false ->
  let run :=
    process_document_stateless w input_file_path user_prompt output_format
      use_meta_intelligence config llm_api_key job_dir fs in
  run_outcome run
  = Py.Raised "RuntimeError" ("Screenshot generation failed: " +:+ shots.1.2)
  /\ run_meta_calls run = [] /\ run_main_calls run = []
  /\ run_events run = []
  /\ run_fs run = cleanup w input_file_path job_dir shots.2.
Proof.
  intros Hin Himg conv Hconv meta shots Hshots. cbv zeta.
  unfold process_document_stateless, prepare_document.
  rewrite Hin, Himg. cbn [negb].
  change (joinpath job_dir "converted") with (job_dir ++ ["converted"]).
  change (joinpath job_dir "screenshots") with (job_dir ++ ["screenshots"]).
  fold conv. destruct conv as [[[cs cp] ce] fs1] eqn:Econv.
  cbn [fst snd] in *. injection Hconv as -> ->.
  fold meta. destruct meta as [[[ms mo] me] fs2] eqn:Emeta.
  cbn [fst snd] in *.
  fold shots. destruct shots as [[[ss sp] se] fs3] eqn:Eshots.
  cbn [fst snd] in *. subst ss. cbn [negb orb]. repeat split.
Qed.

(** X5, witness: the rasterizer exits with 1 and writes no image. *)
Lemma rasterization_failure_raises_runtime_error_witness :
  run_outcome
    (Scenario.run (Scenario.world 0 1 0 (Scenario.always "hello")) "text" true
       default_settings)
  = Py.Raised "RuntimeError"
      "Screenshot generation failed: Screenshot generation failed: No PNG files were found for prefix '/jobs/j1/screenshots/report'. pdftoppm exited with code 1. Stderr: Syntax Warning: Could not find a font file".
Proof.
  destruct (rasterization_failure_raises_runtime_error
              (Scenario.world 0 1 0 (Scenario.always "hello"))
              Scenario.input_file_path "Describe the page" "text" true
              default_settings "key" Scenario.job_dir Scenario.initial_fs
              Scenario.pdf_path
              ltac:(vm_compute; reflexivity)
              ltac:(vm_compute; reflexivity)
              ltac:(vm_compute; reflexivity)
              ltac:(vm_compute; reflexivity))
    as (Hout & _).
  etrans; [exact Hout|]. vm_compute. reflexivity.
Defined.

(** ** Image inputs *)

(** X6. An image input is processed as a single page, the uploaded file
    itself, without conversion, metadata extraction or rasterization: the
    context pre-pass is skipped even when it is requested, one page task
    numbered 1 is created with the user prompt unmodified, and the run ends
    as that task ends. Its result holds the one outcome and the metadata
    [{"pages": 1, "source_type": "image"}]. *)
Theorem image_input_is_one_page
    (w : World) (input_file_path : Path) (user_prompt output_format : string)
    (use_meta_intelligence : bool) (config : AppSettings)
    (llm_api_key : string) (job_dir : Path) (fs : FileSystem) :
  exists_ fs input_file_path = true ->
  is_image_input input_file_path = true ->
  let run :=
    process_document_stateless w input_file_path user_prompt output_format
      use_meta_intelligence config llm_api_key job_dir fs in
  let call :=
    mkPageCall 1 input_file_path user_prompt output_format
      (job_dir ++ ["page_results"]) in
  run_meta_calls run = []
  /\ run_main_calls run = [call]
  /\ run_fs run = cleanup w input_file_path job_dir fs
  /\ (forall exc e,
        run_page_call w config llm_api_key call = Py.Raised exc e ->
        run_outcome run = Py.Raised exc e)
  /\ (forall r,
        run_page_call w config llm_api_key call = Py.Returned r ->
        exists result,
          run_outcome run = Py.Returned result
          /\ pages result = [r]
          /\ pdf_metadata (processing_summary result)
             = <["source_type" := MStr "image"]> {[ "pages" := MInt 1 ]}
          /\ source_total_pages (processing_summary result) = MInt 1
          /\ processed_pages_count (processing_summary result) = 1).
Proof.
  intros Hin Himg. cbv zeta. unfold process_document_stateless.
  rewrite Hin, Himg. cbn [negb]. rewrite andb_false_r.
  cbn [map omap main_pass_calls imap length as_completed].
  rewrite Nat.mod_1_r.
  cbn [lookup list_lookup delete list_delete map snd fst collect_results app].
  change (joinpath job_dir "page_results") with (job_dir ++ ["page_results"]).
  change (Z.of_nat 0 + 1)%Z with 1%Z.
  change (build_meta_context w []) with "".
  change (final_user_prompt "" user_prompt) with user_prompt.
  destruct (run_page_call w config llm_api_key _) as [r|exc e].
  - cbn [collect_results app run_meta_calls run_main_calls run_fs run_outcome].
    split; [reflexivity|]. split; [reflexivity|]. split; [reflexivity|].
    split; [intros ? ? [=]|]. intros ? [= <-]. eexists.
    split; [reflexivity|]. repeat split.
    cbn [processed_pages_count processing_summary aggregate_processing_results].
    unfold count_results, count_result. cbn [fold_left].
    destruct (status r); reflexivity.
  - cbn [run_meta_calls run_main_calls run_fs run_outcome].
    split; [reflexivity|]. split; [reflexivity|]. split; [reflexivity|].
    split; [now intros ? ? [= <- <-] | intros ? [=]].
Qed.

(** X6, witness: an uploaded [scan.PNG], with the context pre-pass requested. *)
Lemma image_input_is_one_page_witness :
  let run :=
    process_document_stateless
      (MoreScenarios.image_world (Scenario.always "hello"))
      MoreScenarios.image_path "Describe the page" "text" true
      default_settings "key" Scenario.job_dir MoreScenarios.image_fs in
  run_meta_calls run = [] /\ length (run_main_calls run) = 1
  /\ exists result,
       run_outcome run = Py.Returned result
       /\ (status <$> pages result) = [SUCCESS]
       /\ source_total_pages (processing_summary result) = MInt 1.
Proof.
  cbv zeta.
  destruct (image_input_is_one_page
              (MoreScenarios.image_world (Scenario.always "hello"))
              MoreScenarios.image_path "Describe the page" "text" true
              default_settings "key" Scenario.job_dir MoreScenarios.image_fs
              ltac:(vm_compute; reflexivity)
              ltac:(vm_compute; reflexivity))
    as (Hmeta & Hmain & _ & _ & Hret).
  split; [exact Hmeta|]. split; [now rewrite Hmain|].
  destruct (Hret (mkPageResult 1 SUCCESS (Some (DataStr "hello")) None None
                    "2023-11-14T22:13:20") ltac:(vm_compute; reflexivity))
    as (result & Hout & Hpages & _ & Htotal & _).
  exists result. split; [exact Hout|]. split; [now rewrite Hpages|exact Htotal].
Defined.

(** ** Page tasks *)

(** X7. The only exception a page task raises is the validation error of the
    [data] field, and it raises it exactly when the structured format was
    requested, the image was read, the model answered with a non-empty
    text, and the text parsed to a JSON value that is neither an object,
    a string nor [null] (a number, a boolean or an array). The text of the
    exception is the report of the validation library on that value. *)
Theorem process_single_page_raises_iff_parsed_value_is_no_payload
    (w : World) (page_num : Z) (screenshot_path : Path)
    (prompt_to_use output_format : string) (job_dir : Path)
    (config : AppSettings) (llm_api_key : string) (exc e : string) :
  _process_single_page w page_num screenshot_path prompt_to_use output_format
    job_dir config llm_api_key = Py.Raised exc e
  <-> output_format = "json"
      /\ exists bs text v,
           os_read_bytes w screenshot_path = ReadBytes bs
           /\ call_resetdata_openai_api w (b64encode bs) prompt_to_use config
                page_num llm_api_key output_format
              = (Some (mkResponseJson text), None, None)
           /\ text <> ""
           /\ parse_and_validate_ai_output w text page_num "application/json"
              = (v, None, None)
           /\ match v with
              | JBool _ | JInt _ | JFloat _ | JArr _ => True
              | JNull | JStr _ | JObj _ => False
              end
           /\ exc = "ValidationError"
           /\ e = validation_error_str w v.
Proof.
  unfold _process_single_page.
  destruct (encode_image_to_base64_cases (os_read_bytes w) screenshot_path)
    as [(bs & Hread & ->)|(msg & Hmsg & Henc)].
  2:{ rewrite Henc. cbn [Py.truthy_opt]. rewrite Hmsg. split; [discriminate|].
      intros (_ & bs & text & v & Hread & _). exfalso.
      unfold encode_image_to_base64 in Henc. rewrite Hread in Henc.
      discriminate. }
  cbn [Py.truthy_opt].
  change (Py.format_opt (Some (b64encode bs))) with (b64encode bs).
  destruct (call_resetdata_openai_api_cases w (b64encode bs) prompt_to_use
              config page_num llm_api_key output_format)
    as [([text] & Hcall)|(msg & Hmsg & Hcall)]; rewrite Hcall.
  2:{ cbn [Py.truthy_opt]. rewrite Hmsg. split; [discriminate|].
      intros (_ & bs' & text & v & Hread' & Hcall' & _). exfalso.
      rewrite Hread in Hread'. injection Hread' as <-. congruence. }
  cbn [Py.truthy_opt fmap option_fmap option_map parts_text default].
  destruct text as [|c text]; cbn [Py.truthy negb].
  { split; [discriminate|].
    intros (_ & bs' & text & v & Hread' & Hcall' & Hne & _). exfalso.
    rewrite Hread in Hread'. injection Hread' as <-.
    rewrite Hcall in Hcall'. injection Hcall' as <-. congruence. }
  set (text' := String c text) in *. unfold id.
  assert (Hne : text' <> "") by discriminate. clearbody text'.
  destruct (String.eqb_spec output_format "json") as [->|Hfmt].
  - destruct (parse_and_validate_ai_output_cases w text' page_num
                "application/json")
      as [(v & Hparse & _)|(msg & Hmsg & _ & Hparse)]; rewrite Hparse.
    + cbn [Py.truthy_opt]. unfold new_PageProcessingResult. split.
      * intros Hraise. split; [reflexivity|]. exists bs, text', v.
        split; [exact Hread|]. split; [exact Hcall|]. split; [exact Hne|].
        split; [exact Hparse|].
        destruct v; cbn in Hraise; try discriminate;
          injection Hraise as <- <-; done.
      * intros (_ & bs' & t & v' & Hread' & Hcall' & _ & Hparse' & Hv & -> & ->).
        rewrite Hread in Hread'. injection Hread' as <-.
        rewrite Hcall in Hcall'. injection Hcall' as <-.
        rewrite Hparse in Hparse'. injection Hparse' as <-.
        destruct v; try contradiction; reflexivity.
    + cbn [Py.truthy_opt]. rewrite Hmsg. split; [discriminate|].
      intros (_ & bs' & t & v' & Hread' & Hcall' & _ & Hparse' & _). exfalso.
      rewrite Hread in Hread'. injection Hread' as <-.
      rewrite Hcall in Hcall'. injection Hcall' as <-.
      rewrite Hparse in Hparse'. discriminate.
  - split; [|intros [? _]; contradiction].
    destruct (parse_and_validate_ai_output_cases w text' page_num "text/plain")
      as [(v & Hparse & Hv)|(msg & _ & [=] & _)].
    rewrite Hparse. rewrite Hv by discriminate. discriminate.
Qed.

(** A model text that is a JSON array makes the page task raise. *)
Example process_single_page_raises_on_array :
  Scenario.page MoreScenarios.array_world 1 "json"
  = Py.Raised "ValidationError"
      (validation_error_str MoreScenarios.array_world
         (JArr [JInt 1; JInt 2])).
Proof. vm_compute. reflexivity. Qed.

(** X8. One page task that raises loses the whole document: when a task of
    the main pass raises, the run raises the exception of one of the tasks
    that raised (the first the loop over the completed tasks comes to),
    whatever the other pages produced. *)
Theorem raising_page_task_fails_the_run
    (w : World) (input_file_path : Path) (user_prompt output_format : string)
    (use_meta_intelligence : bool) (config : AppSettings)
    (llm_api_key : string) (job_dir : Path) (fs : FileSystem)
    (pdf_metadata : gmap string meta_value) (screenshot_paths : list Path)
    (c : PageCall) (exc e : string) :
  exists_ fs input_file_path = true ->
  is_image_input input_file_path = false ->
  (prepare_document w input_file_path job_dir config fs).1
  = Py.Returned (pdf_metadata, screenshot_paths) ->
  let run :=
    process_document_stateless w input_file_path user_prompt output_format
      use_meta_intelligence config llm_api_key job_dir fs in
  c ∈ run_main_calls run ->
  run_page_call w config llm_api_key c = Py.Raised exc e ->
  exists c' exc' e',
    c' ∈ run_main_calls run
    /\ run_page_call w config llm_api_key c' = Py.Raised exc' e'
    /\ run_outcome run = Py.Raised exc' e'.
Proof.
  intros Hin Himg Hprep run Hc Hraise.
  destruct (prepare_document w input_file_path job_dir config fs)
    as [res fs1] eqn:Hprep'. cbn [fst] in Hprep. subst res.
  pose proof (run_outcome_after_prepare w input_file_path user_prompt
                output_format use_meta_intelligence config llm_api_key job_dir
                fs fs1 pdf_metadata screenshot_paths Hin Himg Hprep') as Hout.
  cbv zeta in Hout. fold run in Hout.
  match type of Hout with
  | forall exc e, collect_results (map snd ?cs) [] = _ -> _ =>
      set (completed := cs) in *
  end.
  assert (Hperm : map snd completed
                  ≡ₚ map (run_page_call w config llm_api_key)
                       (run_main_calls run)).
  { subst completed. rewrite as_completed_Permutation, map_map. reflexivity. }
  assert (Hin' : Py.Raised exc e ∈ map snd completed).
  { rewrite Hperm, <- Hraise. now apply list_elem_of_fmap_2. }
  destruct (collect_results_raised _ [] _ _ Hin') as (exc' & e' & Hcol & Hin'').
  rewrite Hperm in Hin''.
  apply list_elem_of_fmap in Hin'' as (c' & Hc' & Hcin).
  exists c', exc', e'. split; [exact Hcin|]. split; [now symmetry|].
  now apply Hout.
Qed.

(** X8, witness: every page of a two-page document answers with an array. *)
Lemma raising_page_task_fails_the_run_witness :
  exists exc e,
    run_outcome
      (Scenario.run MoreScenarios.array_world "json" false default_settings)
    = Py.Raised exc e.
Proof.
  destruct (raising_page_task_fails_the_run MoreScenarios.array_world
              Scenario.input_file_path "Describe the page" "json" false
              default_settings "key" Scenario.job_dir Scenario.initial_fs
              (<["source_type" := MStr "document"]> {[ "pages" := MInt 2 ]})
              (map Scenario.screenshot (seq 1 2))
              (mkPageCall 1 (Scenario.screenshot 1) "Describe the page" "json"
                 (Scenario.job_dir ++ ["page_results"]))
              "ValidationError"
              (validation_error_str MoreScenarios.array_world
                 (JArr [JInt 1; JInt 2]))
              ltac:(vm_compute; reflexivity)
              ltac:(vm_compute; reflexivity)
              ltac:(vm_compute; reflexivity)
              ltac:(vm_compute; left)
              ltac:(vm_compute; reflexivity))
    as (c' & exc' & e' & _ & _ & Hout).
  exists exc', e'. exact Hout.
Defined.


(** ** The request a page task sends *)

(** X9. A page task whose image can be read and whose key is present consults
    the remote model at one request only: the one that carries the key,
    the configured endpoint and model, the prompt, and the image as a
    [data:image/png;base64,] URL. Replacing the model by any other that
    answers this request in the same way leaves the outcome unchanged, and
    decoding what follows the URL prefix gives back the bytes of the
    image file. *)
Theorem page_task_consults_model_at_one_request
    (w : World) (page_num : Z) (screenshot_path : Path)
    (prompt_to_use output_format : string) (job_dir : Path)
    (config : AppSettings) (llm_api_key : string) (bs : list byte)
    (f : ChatRequest -> Py.result completion) :
  os_read_bytes w screenshot_path = ReadBytes bs ->
  llm_api_key <> "" ->
  let request :=
    {| req_api_key := llm_api_key;
       req_base_url := resetdata_base_url config;
       req_model := resetdata_model config;
       req_image_url := "data:image/png;base64," +:+ b64encode bs;
       req_text := prompt_to_use |} in
  f request = chat_completions_create w request ->
  _process_single_page (EnvUpdate.with_chat f w) page_num screenshot_path
    prompt_to_use output_format job_dir config llm_api_key
  = _process_single_page w page_num screenshot_path prompt_to_use
      output_format job_dir config llm_api_key
  /\ b64decode (Py.slice_from 22 (req_image_url request)) = Py.Returned bs.
Proof.
  intros Hread Hkey request Hf. split.
  - unfold _process_single_page.
    change (os_read_bytes (EnvUpdate.with_chat f w)) with (os_read_bytes w).
    change (datetime_now (EnvUpdate.with_chat f w)) with (datetime_now w).
    unfold encode_image_to_base64. rewrite Hread.
    cbn [Py.truthy_opt].
    change (Py.format_opt (Some (b64encode bs))) with (b64encode bs).
    assert (Hcall :
      call_resetdata_openai_api (EnvUpdate.with_chat f w) (b64encode bs)
        prompt_to_use config page_num llm_api_key output_format
      = call_resetdata_openai_api w (b64encode bs) prompt_to_use config
          page_num llm_api_key output_format).
    { unfold call_resetdata_openai_api.
      apply truthy_nonempty in Hkey. rewrite Hkey. cbn [negb].
      unfold build_resetdata_messages. cbn [fst snd].
      change (chat_completions_create (EnvUpdate.with_chat f w)) with f.
      fold request. rewrite Hf. reflexivity. }
    rewrite Hcall. reflexivity.
  - subst request. cbn [req_image_url].
    change 22 with (String.length "data:image/png;base64,").
    rewrite slice_from_app. apply b64decode_b64encode.
Qed.

(** X9, witness: a model that answers the request of page 1 only, and fails
    on every other request. *)
Lemma page_task_consults_model_at_one_request_witness :
  let w := Scenario.world 0 0 2 (Scenario.always "hello") in
  let only_page_1 (req : ChatRequest) : Py.result completion :=
    if String.eqb (req_image_url req) "data:image/png;base64,iVBORw=="
    then Py.Returned (FirstChoice (Some "hello"))
    else Py.Raised "APIConnectionError" "Connection error." in
  Scenario.page (EnvUpdate.with_chat only_page_1 w) 1 "text"
  = Scenario.page w 1 "text".
Proof.
  cbv zeta.
  apply (page_task_consults_model_at_one_request
           (Scenario.world 0 0 2 (Scenario.always "hello")) 1
           (Scenario.screenshot 1) "Describe the page" "text"
           (Scenario.job_dir ++ ["page_results"]) default_settings "key"
           [x89; x50; x4e; x47]
           (fun req =>
              if String.eqb (req_image_url req) "data:image/png;base64,iVBORw=="
              then Py.Returned (FirstChoice (Some "hello"))
              else Py.Raised "APIConnectionError" "Connection error.")
           ltac:(vm_compute; reflexivity)
           ltac:(discriminate)
           ltac:(vm_compute; reflexivity)).
Defined.

(** X10. A page task sends no request at all when the key is empty or the image
    cannot be read: its outcome is the same for every remote model, an
    [ERROR_IMAGE_ENCODING] outcome when the image cannot be read (checked
    first) and otherwise an [ERROR_API] outcome saying that the key is
    missing; neither carries a payload. *)
Theorem page_task_without_key_or_image_sends_no_request
    (w : World) (page_num : Z) (screenshot_path : Path)
    (prompt_to_use output_format : string) (job_dir : Path)
    (config : AppSettings) (llm_api_key : string)
    (f : ChatRequest -> Py.result completion) :
  llm_api_key = ""
  \/ (forall bs, os_read_bytes w screenshot_path <> ReadBytes bs) ->
  exists r,
    _process_single_page w page_num screenshot_path prompt_to_use
      output_format job_dir config llm_api_key = Py.Returned r
    /\ _process_single_page (EnvUpdate.with_chat f w) page_num screenshot_path
         prompt_to_use output_format job_dir config llm_api_key
       = Py.Returned r
    /\ data r = None /\ raw_response r = None
    /\ ((forall bs, os_read_bytes w screenshot_path <> ReadBytes bs) ->
        status r = ERROR_IMAGE_ENCODING)
    /\ ((exists bs, os_read_bytes w screenshot_path = ReadBytes bs) ->
        status r = ERROR_API
        /\ error_message r = Some "Missing required ResetData LLM API key.").
Proof.
  intros Hcase. unfold _process_single_page.
  change (os_read_bytes (EnvUpdate.with_chat f w)) with (os_read_bytes w).
  change (datetime_now (EnvUpdate.with_chat f w)) with (datetime_now w).
  destruct (encode_image_to_base64_cases (os_read_bytes w) screenshot_path)
    as [(bs & Hread & ->)|(msg & Hmsg & Henc)].
  - destruct Hcase as [->|Hno]; [|now destruct (Hno bs)].
    cbn [Py.truthy_opt]. unfold call_resetdata_openai_api.
    cbn [Py.truthy negb Py.truthy_opt]. eexists.
    split; [reflexivity|]. split; [reflexivity|].
    cbn [data raw_response status error_message].
    split; [reflexivity|]. split; [reflexivity|].
    split; [intros Hno; now destruct (Hno bs)|]. intros _. split; reflexivity.
  - rewrite Henc. cbn [Py.truthy_opt]. rewrite Hmsg. eexists.
    split; [reflexivity|]. split; [reflexivity|].
    cbn [data raw_response status error_message].
    split; [reflexivity|]. split; [reflexivity|].
    split; [reflexivity|]. intros [bs Hread]. exfalso.
    unfold encode_image_to_base64 in Henc. rewrite Hread in Henc. discriminate.
Qed.

(** X10, witness: a page task without key. *)
Lemma page_task_without_key_sends_no_request_witness :
  let w := Scenario.world 0 0 2 (Scenario.always "hello") in
  exists r,
    _process_single_page w 1 (Scenario.screenshot 1) "Describe the page"
      "text" (Scenario.job_dir ++ ["page_results"]) default_settings ""
    = Py.Returned r
    /\ status r = ERROR_API.
Proof.
  cbv zeta.
  destruct (page_task_without_key_or_image_sends_no_request
              (Scenario.world 0 0 2 (Scenario.always "hello")) 1
              (Scenario.screenshot 1) "Describe the page" "text"
              (Scenario.job_dir ++ ["page_results"]) default_settings ""
              (Scenario.always "hello") ltac:(left; reflexivity))
    as (r & Hr & _ & _ & _ & _ & Hapi).
  exists r. split; [exact Hr|].
  apply Hapi. exists [x89; x50; x4e; x47]. vm_compute. reflexivity.
Defined.

(** X11. A completion without choices, without content, or with empty content
    gives an [ERROR_PARSING] outcome whose message is
    [Empty content returned from LLM], without payload, and whose raw
    response is the text of the envelope around the empty string; the
    requested format plays no part. *)
Theorem empty_completion_is_a_parse_error
    (w : World) (page_num : Z) (screenshot_path : Path)
    (prompt_to_use output_format : string) (job_dir : Path)
    (config : AppSettings) (llm_api_key : string) (bs : list byte)
    (c : completion) :
  os_read_bytes w screenshot_path = ReadBytes bs ->
  llm_api_key <> "" ->
  chat_completions_create w
    {| req_api_key := llm_api_key;
       req_base_url := resetdata_base_url config;
       req_model := resetdata_model config;
       req_image_url := "data:image/png;base64," +:+ b64encode bs;
       req_text := prompt_to_use |}
  = Py.Returned c ->
  c = NoChoices \/ c = FirstChoice None \/ c = FirstChoice (Some "") ->
  _process_single_page w page_num screenshot_path prompt_to_use output_format
    job_dir config llm_api_key
  = Py.Returned
      (mkPageResult page_num ERROR_PARSING None
         (Some "Empty content returned from LLM")
         (Some "{'candidates': [{'content': {'parts': [{'text': ''}]}}]}")
         (datetime_now w page_num)).
Proof.
  intros Hread Hkey Hchat Hc. unfold _process_single_page.
  unfold encode_image_to_base64. rewrite Hread. cbn [Py.truthy_opt].
  change (Py.format_opt (Some (b64encode bs))) with (b64encode bs).
  unfold call_resetdata_openai_api.
  apply truthy_nonempty in Hkey. rewrite Hkey. cbn [negb].
  unfold build_resetdata_messages. cbn [fst snd]. rewrite Hchat.
  destruct Hc as [->|[->| ->]]; reflexivity.
Qed.

(** X11, witness: the model answers without content. *)
Lemma empty_completion_is_a_parse_error_witness :
  let w :=
    Scenario.world 0 0 2 (fun _ => Py.Returned (FirstChoice None)) in
  exists r,
    Scenario.page w 2 "json" = Py.Returned r
    /\ status r = ERROR_PARSING
    /\ raw_response r
       = Some "{'candidates': [{'content': {'parts': [{'text': ''}]}}]}".
Proof.
  cbv zeta. eexists. split.
  - apply (empty_completion_is_a_parse_error
             (Scenario.world 0 0 2 (fun _ => Py.Returned (FirstChoice None)))
             2 (Scenario.screenshot 2) "Describe the page" "json"
             (Scenario.job_dir ++ ["page_results"]) default_settings "key"
             [x89; x50; x4e; x47] (FirstChoice None)
             ltac:(vm_compute; reflexivity)
             ltac:(discriminate)
             ltac:(reflexivity)
             ltac:(right; left; reflexivity)).
  - split; reflexivity.
Defined.

(** ** The page number in the name of a page image *)

Import PageFiles.

Lemma list_ascii_of_string_app (s t : string) :
  list_ascii_of_string (s +:+ t)
  = list_ascii_of_string s ++ list_ascii_of_string t.
Proof.
  induction s as [|c s IH]; app_head; cbn [list_ascii_of_string app];
    [reflexivity | now rewrite IH].
Qed.

Lemma span_digits_app (l r : list ascii) (c : ascii) :
  Forall (fun d => is_digit d = true) l -> is_digit c = false ->
  span_digits (l ++ c :: r) = (l, c :: r).
Proof.
  intros Hl Hc. induction Hl as [|d l Hd _ IH]; cbn [app span_digits].
  - now rewrite Hc.
  - now rewrite Hd, IH.
Qed.

(** [re.search(r'-(\d+)\.png$', s)] on a text that ends with a dash, a
    non-empty run of digits and [.png]: group 1 is that run. *)
Lemma page_suffix_number_digits (pre : string) (digits : list ascii) :
  digits <> [] -> Forall (fun d => is_digit d = true) digits ->
  page_suffix_number (pre +:+ "-" +:+ string_of_list_ascii digits +:+ ".png")
  = Some (int_of_digits digits).
Proof.
  intros Hne Hd. unfold page_suffix_number.
  rewrite <- !string_app_assoc, endswith_app.
  change 4 with (String.length ".png"). rewrite slice_drop_last_app.
  rewrite !list_ascii_of_string_app, list_ascii_of_string_of_list_ascii.
  rewrite !rev_app_distr. cbn [list_ascii_of_string rev app].
  rewrite span_digits_app; [|now apply Forall_rev|reflexivity].
  destruct (rev digits) as [|d ds] eqn:Hrev.
  { apply (f_equal (@rev ascii)) in Hrev. rewrite rev_involutive in Hrev.
    contradiction. }
  cbn [Ascii.eqb Bool.eqb]. rewrite <- Hrev, rev_involutive. reflexivity.
Qed.

Lemma int_of_digits_acc (d : Decimal.uint) (acc : positive) :
  fold_left (fun acc c => acc * 10 + (Z.of_nat (nat_of_ascii c) - 48))%Z
    (list_ascii_of_string (NilEmpty.string_of_uint d)) (Z.pos acc)
  = Z.pos (Pos.of_uint_acc d acc).
Proof.
  revert acc. induction d as [|d IH|d IH|d IH|d IH|d IH|d IH|d IH|d IH|d IH|d IH];
    intros acc; cbn [NilEmpty.string_of_uint list_ascii_of_string fold_left
                     Pos.of_uint_acc]; [reflexivity|..];
    rewrite <- IH; f_equal;
    match goal with
    | |- context [Z.of_nat (nat_of_ascii ?c)] =>
        let v := eval vm_compute in (Z.of_nat (nat_of_ascii c)) in
        change (Z.of_nat (nat_of_ascii c)) with v
    end; lia.
Qed.

Lemma int_of_digits_uint (d : Decimal.uint) :
  int_of_digits (list_ascii_of_string (NilEmpty.string_of_uint d))
  = Z.of_N (Pos.of_uint d).
Proof.
  unfold int_of_digits.
  induction d as [|d IH|d IH|d IH|d IH|d IH|d IH|d IH|d IH|d IH|d IH];
    cbn [NilEmpty.string_of_uint list_ascii_of_string fold_left Pos.of_uint];
    [reflexivity | exact IH | ..]; apply (int_of_digits_acc d).
Qed.

Lemma string_of_uint_digits (d : Decimal.uint) :
  Forall (fun c => is_digit c = true)
    (list_ascii_of_string (NilEmpty.string_of_uint d)).
Proof.
  induction d; cbn [NilEmpty.string_of_uint list_ascii_of_string];
    constructor; (reflexivity || assumption).
Qed.

(** [str(n)] is a non-empty run of digits, and [int] reads [n] back from
    it. *)
Lemma str_of_nat_digits (n : nat) :
  let ds := list_ascii_of_string (Py.str_of_nat n) in
  ds <> [] /\ Forall (fun c => is_digit c = true) ds
  /\ int_of_digits ds = Z.of_nat n.
Proof.
  cbv zeta. unfold Py.str_of_nat, Py.str_of_Z.
  destruct (Z.of_nat n) as [|p|p] eqn:Hn; [| |lia].
  - split; [discriminate|]. split; [repeat constructor | reflexivity].
  - cbn [Z.to_int NilZero.string_of_int]. unfold NilZero.string_of_uint.
    pose proof (DecimalPos.Unsigned.to_uint_nonnil p) as Hnil.
    pose proof (int_of_digits_uint (Pos.to_uint p)) as Hval.
    pose proof (string_of_uint_digits (Pos.to_uint p)) as Hdig.
    rewrite DecimalPos.Unsigned.of_to in Hval.
    destruct (Pos.to_uint p) eqn:Hu; try contradiction;
      (split; [discriminate|]); (split; [exact Hdig|exact Hval]).
Qed.

Lemma zeros_digits (k : nat) :
  Forall (fun c => is_digit c = true) (list_ascii_of_string (zeros k)).
Proof. induction k; cbn; constructor; (reflexivity || assumption). Qed.

Lemma int_of_digits_zeros (k : nat) (ds : list ascii) :
  int_of_digits (list_ascii_of_string (zeros k) ++ ds) = int_of_digits ds.
Proof. induction k as [|k IH]; [reflexivity | exact IH]. Qed.

Lemma concat_snoc (l : list string) (x : string) :
  String.concat "" (l ++ [x]) = String.concat "" l +:+ x.
Proof.
  induction l as [|y l IH]; [reflexivity|].
  cbn [app]. destruct l as [|z l].
  - cbn. app_head. reflexivity.
  - change (String.concat "" (y :: (z :: l) ++ [x]))
      with (y +:+ "" +:+ String.concat "" ((z :: l) ++ [x])).
    rewrite IH.
    change (String.concat "" (y :: z :: l))
      with (y +:+ "" +:+ String.concat "" (z :: l)).
    app_head. now rewrite string_app_assoc.
Qed.

(** The text of a path ends with a slash and the last component. *)
Lemma str_snoc (dir : Path) (nm : string) :
  exists parent, str (dir ++ [nm]) = parent +:+ nm.
Proof.
  unfold str. destruct (dir ++ [nm]) eqn:E.
  { now destruct dir. }
  rewrite <- E, map_app. cbn [map]. rewrite concat_snoc.
  eexists. rewrite <- string_app_assoc. reflexivity.
Qed.

(** The sort key of a page image is the page number written in its name,
    whatever the zero padding: [report-007.png] and [report-7.png] both
    have key 7. *)
Lemma screenshot_sort_key_page_file
    (output_dir : Path) (pre : string) (width n : nat) :
  screenshot_sort_key (page_file output_dir pre width n) = Z.of_nat n.
Proof.
  unfold screenshot_sort_key, page_file, page_file_name.
  destruct (str_snoc output_dir
              (pre +:+ "-"
               +:+ zeros (width - String.length (Py.str_of_nat n))
               +:+ Py.str_of_nat n +:+ ".png")) as [parent ->].
  set (k := width - String.length (Py.str_of_nat n)).
  destruct (str_of_nat_digits n) as (Hne & Hdig & Hval).
  pose (digits := list_ascii_of_string (zeros k)
                  ++ list_ascii_of_string (Py.str_of_nat n)).
  assert (E : parent +:+ pre +:+ "-" +:+ zeros k +:+ Py.str_of_nat n +:+ ".png"
              = (parent +:+ pre) +:+ "-" +:+ string_of_list_ascii digits
                +:+ ".png").
  { subst digits. rewrite <- list_ascii_of_string_app.
    rewrite string_of_list_ascii_of_string.
    rewrite !string_app_assoc. reflexivity. }
  rewrite E, page_suffix_number_digits.
  - cbn [default from_option id]. subst digits.
    now rewrite int_of_digits_zeros.
  - subst digits. intros H. apply app_eq_nil in H as [_ H]. contradiction.
  - subst digits. apply Forall_app. split; [apply zeros_digits | exact Hdig].
Qed.

(** X12. Page images named as the rasterizer names them, found in any order,
    are returned in page order: once the tool has run and the files found
    are the images of pages 1 to [n_pages], zero-padded or not,
    [extract_pdf_pages_as_png] succeeds with these files by ascending page
    number (their sort keys are 1, 2, ..., [n_pages]), although the order
    of the names as texts puts [report-10.png] before [report-2.png]. *)
Theorem extracted_pages_come_in_page_order
    (w : World) (pdf_path output_dir : Path) (config : AppSettings)
    (fs fs1 fs2 : FileSystem) (returncode : Z) (stdout stderr : string)
    (width n_pages : nat) :
  exists_ fs pdf_path = true ->
  mkdir w output_dir fs = Py.Returned fs1 ->
  run_subprocess_async w (screenshot_command config pdf_path output_dir) fs1
  = ((returncode, stdout, stderr), fs2) ->
  0 < n_pages ->
  os_glob w output_dir (screenshot_pattern pdf_path output_dir) fs2
  ≡ₚ map (page_file output_dir (stem pdf_path) width) (seq 1 n_pages) ->
  let r := (extract_pdf_pages_as_png w pdf_path output_dir config fs).1 in
  r.1.1 = true
  /\ r.1.2 = map (page_file output_dir (stem pdf_path) width) (seq 1 n_pages)
  /\ map screenshot_sort_key r.1.2 = map Z.of_nat (seq 1 n_pages).
Proof.
  intros Hin Hmk Hrun Hpos Hglob. cbv zeta.
  unfold extract_pdf_pages_as_png. rewrite Hin, Hmk, Hrun. cbn [negb].
  assert (Hsorted :
    Py.sorted screenshot_sort_key
      (os_glob w output_dir (screenshot_pattern pdf_path output_dir) fs2)
    = map (page_file output_dir (stem pdf_path) width) (seq 1 n_pages)).
  { apply sorted_of_Permutation; [|exact Hglob].
    generalize 1 as k. clear. induction n_pages as [|n IH]; intros k;
      cbn [seq map]; constructor; [apply IH|].
    apply Forall_forall. intros p Hp.
    apply list_elem_of_fmap in Hp as (i & -> & Hi). apply elem_of_seq in Hi.
    unfold key_lt. rewrite !screenshot_sort_key_page_file. lia. }
  rewrite Hsorted.
  assert (Hkeys :
    map screenshot_sort_key
      (map (page_file output_dir (stem pdf_path) width) (seq 1 n_pages))
    = map Z.of_nat (seq 1 n_pages)).
  { rewrite map_map. apply map_ext. intros i.
    apply screenshot_sort_key_page_file. }
  destruct n_pages as [|n]; [lia|]. cbn [seq map] in *.
  destruct (negb (returncode =? 0)%Z); cbn [fst snd];
    (split; [reflexivity|]); (split; [reflexivity|exact Hkeys]).
Qed.

(** X12, witness: the images of three pages, found in the order 3, 2, 1. *)
Lemma extracted_pages_come_in_page_order_witness :
  let w := Scenario.world 0 0 3 (Scenario.always "hello") in
  let r :=
    (extract_pdf_pages_as_png w Scenario.pdf_path Scenario.screenshot_dir
       default_settings (Scenario.initial_fs ∪ {[ Scenario.pdf_path ]})).1 in
  r.1.1 = true /\ map screenshot_sort_key r.1.2 = [1; 2; 3]%Z.
Proof.
  cbv zeta.
  pose (w := Scenario.world 0 0 3 (Scenario.always "hello")).
  pose (fs := Scenario.initial_fs ∪ {[ Scenario.pdf_path ]}).
  pose (fs1 := fs ∪ list_to_set
                      (map (fun n => take n Scenario.screenshot_dir)
                         (seq 1 (length Scenario.screenshot_dir)))).
  pose (fs2 := fs1 ∪ list_to_set (map Scenario.screenshot (seq 1 3))).
  assert (Hin : exists_ fs Scenario.pdf_path = true)
    by (vm_compute; reflexivity).
  assert (Hmk : mkdir w Scenario.screenshot_dir fs = Py.Returned fs1)
    by reflexivity.
  assert (Hrun :
    run_subprocess_async w
      (screenshot_command default_settings Scenario.pdf_path
         Scenario.screenshot_dir) fs1
    = ((0%Z, "", ""), fs2))
    by reflexivity.
  assert (Hfound :
    os_glob w Scenario.screenshot_dir
      (screenshot_pattern Scenario.pdf_path Scenario.screenshot_dir) fs2
    ≡ₚ map (page_file Scenario.screenshot_dir (stem Scenario.pdf_path) 0)
         (seq 1 3)).
  { transitivity (rev (map (page_file Scenario.screenshot_dir
                              (stem Scenario.pdf_path) 0) (seq 1 3))).
    - assert (E : os_glob w Scenario.screenshot_dir
                    (screenshot_pattern Scenario.pdf_path
                       Scenario.screenshot_dir) fs2
                  = rev (map (page_file Scenario.screenshot_dir
                                (stem Scenario.pdf_path) 0) (seq 1 3)))
        by (vm_compute; reflexivity).
      now rewrite E.
    - symmetry. apply Permutation_rev. }
  destruct (extracted_pages_come_in_page_order w Scenario.pdf_path
              Scenario.screenshot_dir default_settings fs fs1 fs2 0 "" "" 0 3
              Hin Hmk Hrun ltac:(lia) Hfound)
    as (Hs & _ & Hkeys).
  split; [exact Hs | exact Hkeys].
Defined.

(** ** Failures of the rasterizer and of the metadata tool *)

(** A text that starts with a character other than white space keeps
    doing so when more text is appended, and [strip] leaves it non-empty. *)
Lemma nonspace_head_app (a b : string) :
  Py.lstrip a = a /\ a <> "" ->
  Py.lstrip (a +:+ b) = a +:+ b /\ a +:+ b <> "".
Proof.
  intros [Ha Hne]. split; [now apply lstrip_fixed_app|].
  destruct a; [congruence | discriminate].
Qed.

Lemma strip_nonspace_head (s : string) :
  Py.lstrip s = s /\ s <> "" -> Py.truthy (Py.strip s) = true.
Proof.
  intros [Hs Hne]. destruct s as [|c s]; [congruence|].
  apply strip_cons_nonspace. now apply lstrip_fixed_head in Hs.
Qed.

(** Closes the goal that a message built by appending to a fixed opening
    is not blank. *)
Ltac message_not_blank :=
  apply strip_nonspace_head;
  repeat first
    [ match goal with
      | |- context [if ?b then _ else _] => destruct b
      end
    | apply nonspace_head_app ];
  (split; [reflexivity | discriminate]).

(** X13. [extract_pdf_pages_as_png] reports a failure with an empty list and a
    non-empty message, and a success with at least one file; the files are
    always in non-decreasing order of their sort key. *)
Theorem extract_pages_failure_has_message
    (w : World) (pdf_path output_dir : Path) (config : AppSettings)
    (fs : FileSystem) :
  let r := (extract_pdf_pages_as_png w pdf_path output_dir config fs).1 in
  (r.1.1 = false -> r.1.2 = [] /\ Py.truthy r.2 = true)
  /\ (r.1.1 = true -> r.1.2 <> [])
  /\ StronglySorted (key_le screenshot_sort_key) r.1.2
  /\ (exists_ fs pdf_path = false ->
      (extract_pdf_pages_as_png w pdf_path output_dir config fs).2 = fs).
Proof.
  cbv zeta. unfold extract_pdf_pages_as_png.
  destruct (exists_ fs pdf_path) eqn:Hin; cbn [negb fst snd].
  2:{ repeat split; try done. constructor. }
  destruct (mkdir w output_dir fs) as [fs1|exc e]; cbn [fst snd].
  2:{ repeat split; try done. constructor. }
  destruct (run_subprocess_async w _ fs1) as [[[rc out] err] fs2].
  pose proof (sorted_StronglySorted screenshot_sort_key
                (os_glob w output_dir (screenshot_pattern pdf_path output_dir)
                   fs2)) as Hsorted.
  destruct (Py.sorted _ _) as [|p ps].
  - cbn [fst snd]. repeat split; try done.
    unfold screenshot_error. message_not_blank.
  - destruct (negb (rc =? 0)%Z); cbn [fst snd]; repeat split; try done.
Qed.

(** X14. [extract_pdf_metadata] succeeds exactly when the file exists and the
    tool exits with 0. Once the tool has run its standard output is handed
    back in both cases; the third component is the tool's standard error
    on success and a non-empty message on failure. A missing file is
    reported without starting the tool. A tool that cannot be started
    (exit code -1 or -2 of [run_subprocess_async]) is a failure. *)
Theorem extract_pdf_metadata_success_iff_exit_zero
    (w : World) (pdf_path : Path) (config : AppSettings) (fs : FileSystem) :
  let r := extract_pdf_metadata w pdf_path config fs in
  let ran := run_subprocess_async w [pdfinfo_command config; str pdf_path] fs in
  (r.1.1.1 = true <-> exists_ fs pdf_path = true /\ ran.1.1.1 = 0%Z)
  /\ (r.1.1.1 = false -> Py.truthy r.1.2 = true)
  /\ (exists_ fs pdf_path = true ->
      r.1.1.2 = ran.1.1.2 /\ r.2 = ran.2
      /\ (r.1.1.1 = true -> r.1.2 = ran.1.2))
  /\ (exists_ fs pdf_path = false -> r.1.1.2 = "" /\ r.2 = fs)
  /\ (forall fs', os_spawn w [pdfinfo_command config; str pdf_path] fs
                  = (CommandNotFound, fs') ->
      r.1.1.1 = false).
Proof.
  cbv zeta. unfold extract_pdf_metadata.
  destruct (exists_ fs pdf_path) eqn:Hin; cbn [negb fst snd].
  2:{ repeat split; try done. intros [? _]. discriminate. }
  destruct (run_subprocess_async w _ fs) as [[[rc out] err] fs1] eqn:Hrun.
  destruct (Z.eqb_spec rc 0) as [->|Hrc]; cbn [fst snd].
  - repeat split; try done.
    intros fs' Hsp. unfold run_subprocess_async in Hrun. rewrite Hsp in Hrun.
    discriminate.
  - repeat split; try done; try (intros [? ?]; done).
    intros _. message_not_blank.
Qed.

(** ** [convert_to_pdf_libreoffice]: what a failure leaves *)




(** ** [run_subprocess_async] *)

(** X16. The exit code and the two output streams [run_subprocess_async]
    returns. For a process that ran, the code is the process's and the
    streams are stripped: stripping them again changes nothing and they
    neither start nor end with white space. A command that is not found
    gives -1 and a command that fails to start gives -2, both with an
    empty standard output and a non-empty message; the file system is what
    the process left. *)
Theorem run_subprocess_async_outputs
    (w : World) (command : list string) (fs : FileSystem) :
  let r := run_subprocess_async w command fs in
  let returncode := r.1.1.1 in
  let stdout := r.1.1.2 in
  let stderr := r.1.2 in
  r.2 = (os_spawn w command fs).2
  /\ (forall rc out err fs',
        os_spawn w command fs = (Exited rc out err, fs') ->
        returncode = rc /\ stdout = Py.strip out /\ stderr = Py.strip err
        /\ Py.strip stdout = stdout /\ Py.strip stderr = stderr)
  /\ (forall fs',
        os_spawn w command fs = (CommandNotFound, fs') ->
        returncode = (-1)%Z /\ stdout = "" /\ Py.truthy stderr = true)
  /\ (forall e fs',
        os_spawn w command fs = (SpawnError e, fs') ->
        returncode = (-2)%Z /\ stdout = "" /\ Py.truthy stderr = true).
Proof.
  cbv zeta. unfold run_subprocess_async.
  destruct (os_spawn w command fs) as [[rc out err| |e] fs']; cbn [fst snd];
    (split; [reflexivity|]); (split; [|split]); intros; try discriminate.
  - match goal with H : (_, _) = (_, _) |- _ => injection H as <- <- <- <- end.
    now rewrite !strip_idempotent.
  - done.
  - done.
Qed.


(** ** [validate_api_key] *)

Import ApiSecurity ResetdataKey MainApi.

(** X17. [validate_api_key] accepts exactly the non-empty keys that are among
    the configured keys, and every non-empty key when no key is
    configured. A missing or empty key is refused even when the empty
    string is among the configured keys. *)
Theorem validate_api_key_accepts
    (provided_key : option string) (valid_keys : list string) :
  (validate_api_key provided_key valid_keys = true
   <-> exists key, provided_key = Some key /\ key <> ""
                   /\ (valid_keys = [] \/ key ∈ valid_keys))
  /\ validate_api_key None valid_keys = false
  /\ validate_api_key (Some "") ("" :: valid_keys) = false.
Proof.
  split; [|split; reflexivity].
  unfold validate_api_key. destruct provided_key as [[|c key]|]; cbn.
  - split; [discriminate|]. intros (key & [= <-] & Hne & _). congruence.
  - destruct valid_keys as [|k ks].
    + split; [|reflexivity]. intros _. eexists. split; [reflexivity|].
      split; [discriminate | now left].
    + rewrite bool_decide_eq_true. split.
      * intros Hin. eexists. split; [reflexivity|].
        split; [discriminate | now right].
      * intros (key' & [= <-] & _ & [[=]|Hin]). exact Hin.
  - split; [discriminate|]. intros (key & [=] & _).
Qed.

(** ** The key check of the endpoints *)

(** X18. [require_resetdata_key] takes the header value when it is non-empty
    and the query value otherwise, and returns that key exactly when it is
    non-empty and the listing of the models with it succeeds; every other
    request is refused with status 401 and a non-empty detail. A non-empty
    header decides alone: the query value is then not looked at, even if
    the header key is refused. *)
Theorem require_resetdata_key_spec
    (models_list : string -> string -> Py.result unit) (config : AppSettings)
    (header query : option string) :
  let chosen := if Py.truthy_opt header then header else query in
  let r := require_resetdata_key models_list config header query in
  (forall key,
     r = HttpOk key
     <-> chosen = Some key /\ key <> ""
         /\ models_list key (resetdata_base_url config) = Py.Returned tt)
  /\ (forall code detail,
        r = HttpError code detail -> code = 401%Z /\ detail <> "")
  /\ (Py.truthy_opt header = true ->
      forall query',
        require_resetdata_key models_list config header query' = r).
Proof.
  cbv zeta. unfold require_resetdata_key, or_opt.
  split; [|split].
  - intros key.
    destruct (if Py.truthy_opt header then header else query) as [k|] eqn:Hk;
      cbn [Py.truthy_opt negb].
    2:{ split; [discriminate | intros [[=] _]]. }
    destruct k as [|c k]; cbn [Py.truthy negb].
    { split; [discriminate|]. intros ([= <-] & Hne & _). congruence. }
    cbn [default from_option id]. unfold validate_resetdata_api_key.
    cbn [Py.truthy negb].
    destruct (models_list (String c k) (resetdata_base_url config))
      as [[]|cls e] eqn:Hlist; cbn [negb].
    + split.
      * intros [= <-]. split; [reflexivity|]. split; [discriminate|exact Hlist].
      * intros ([= <-] & _). reflexivity.
    + split; [discriminate|]. intros ([= <-] & _ & Hret). congruence.
  - intros code detail.
    destruct (if Py.truthy_opt header then header else query) as [k|];
      cbn [Py.truthy_opt negb].
    2:{ intros [= <- <-]. split; [reflexivity | discriminate]. }
    destruct k as [|c k]; cbn [Py.truthy negb].
    { intros [= <- <-]. split; [reflexivity | discriminate]. }
    cbn [default from_option id]. unfold validate_resetdata_api_key.
    cbn [Py.truthy negb].
    destruct (models_list (String c k) (resetdata_base_url config))
      as [[]|cls e]; cbn [negb]; [discriminate|].
    intros [= <- <-]. split; [reflexivity | discriminate].
  - intros Hh query'. rewrite Hh. reflexivity.
Qed.

(** ** The health report *)

(** X19. [health_check] reports [healthy] exactly when [shutil.which] finds
    the three configured tools and [degraded] otherwise; the dependencies
    are listed as [libreoffice], [pdftoppm] and [pdfinfo], each
    [available] or [missing] as its command is found or not, and the
    number of active jobs is always 0. *)
Theorem health_check_degraded_iff_tool_missing
    (which : string -> option string) (now : string) (config : AppSettings) :
  let r := health_check which now config in
  let found cmd := check_command_availability which cmd in
  (health_status r = "healthy"
   <-> found (libreoffice_command config) = true
       /\ found (pdftoppm_command config) = true
       /\ found (pdfinfo_command config) = true)
  /\ (health_status r = "healthy" \/ health_status r = "degraded")
  /\ map fst (dependencies r) = ["libreoffice"; "pdftoppm"; "pdfinfo"]
  /\ map snd (dependencies r)
     = map (fun cmd => if found cmd then "available" else "missing")
         [libreoffice_command config; pdftoppm_command config;
          pdfinfo_command config]
  /\ active_jobs_count r = 0%Z.
Proof.
  cbv zeta. unfold health_check. cbn [map].
  destruct (check_command_availability which (libreoffice_command config));
    destruct (check_command_availability which (pdftoppm_command config));
    destruct (check_command_availability which (pdfinfo_command config));
    cbn [health_status dependencies active_jobs_count map fst snd];
    (split; [|split; [|split; [|split]]]); try reflexivity;
    try (right; reflexivity); try (left; reflexivity);
    split; try discriminate; try (intros (? & ? & ?); discriminate);
    intros _; repeat split.
Qed.

(** ** The name under which an upload is stored *)

Lemma is_safe_char_facts (c : ascii) :
  is_safe_char c = true ->
  c <> "/"%char /\ c <> "\"%char /\ c <> "000"%char /\ Py.isspace c = false.
Proof.
  destruct c as [[] [] [] [] [] [] [] []]; vm_compute; intros H;
    try discriminate H; repeat split; discriminate.
Qed.

Lemma replace_unsafe_length (filename : string) :
  String.length (replace_unsafe filename) = String.length filename.
Proof. induction filename as [|c s IH]; cbn; [reflexivity | now rewrite IH]. Qed.

Lemma replace_unsafe_safe (filename : string) (c : ascii) :
  c ∈ list_ascii_of_string (replace_unsafe filename) -> is_safe_char c = true.
Proof.
  induction filename as [|d s IH]; cbn [replace_unsafe list_ascii_of_string].
  - intros H. now apply elem_of_nil in H.
  - intros [->|H]%elem_of_cons; [|now apply IH].
    destruct (is_safe_char d) eqn:Hd; [exact Hd | reflexivity].
Qed.

Lemma replace_unsafe_fixed (s : string) :
  (forall c, c ∈ list_ascii_of_string s -> is_safe_char c = true) ->
  replace_unsafe s = s.
Proof.
  induction s as [|c s IH]; intros H; [reflexivity|].
  cbn [replace_unsafe]. rewrite (H c) by (cbn; left).
  f_equal. apply IH. intros d Hd. apply H. cbn. now right.
Qed.

Lemma replace_unsafe_get (filename : string) (i : nat) :
  String.get i (replace_unsafe filename)
  = (fun c => if is_safe_char c then c else "_"%char)
    <$> String.get i filename.
Proof.
  revert i. induction filename as [|c s IH]; intros [|i]; cbn; try reflexivity.
  apply IH.
Qed.

(** X20. The name [scan_document] stores an upload under. It is never empty; it
    holds only alphanumeric characters, dots, dashes and underscores, so
    neither a slash, a backslash, a NUL nor white space; for a non-empty
    upload name it has the length of that name, keeps every character that
    is allowed where it was and has an underscore in place of every other;
    an empty upload name gives [uploaded_file]. Sanitizing is idempotent,
    and a non-empty name made of allowed characters is kept as it is (a
    name of dots only, such as [..], among them). *)
Theorem safe_filename_spec (filename : string) :
  let name := safe_filename filename in
  name <> ""
  /\ (forall c, c ∈ list_ascii_of_string name ->
        is_safe_char c = true
        /\ c <> "/"%char /\ c <> "\"%char /\ c <> "000"%char
        /\ Py.isspace c = false)
  /\ (filename <> "" ->
      String.length name = String.length filename
      /\ forall i c,
           String.get i filename = Some c ->
           String.get i name = Some (if is_safe_char c then c else "_"%char))
  /\ (filename = "" -> name = "uploaded_file")
  /\ safe_filename name = name
  /\ (filename <> "" ->
      (forall c, c ∈ list_ascii_of_string filename -> is_safe_char c = true) ->
      name = filename)
  /\ safe_filename ".." = "..".
Proof.
  cbv zeta. unfold safe_filename.
  destruct filename as [|c0 s0].
  { cbn [replace_unsafe Py.truthy negb].
    split; [discriminate|]. split.
    { intros c Hc. assert (Hs : is_safe_char c = true).
      { cbn in Hc. set_unfold. destruct_or!; subst; reflexivity. }
      split; [exact Hs | now apply is_safe_char_facts]. }
    split; [congruence|]. split; [reflexivity|]. split; [reflexivity|].
    split; [congruence | reflexivity]. }
  set (filename := String c0 s0).
  assert (Hne : replace_unsafe filename <> "") by discriminate.
  apply truthy_nonempty in Hne as Ht. rewrite Ht. cbn [negb].
  split; [exact Hne|]. split.
  { intros c Hc. apply replace_unsafe_safe in Hc.
    split; [exact Hc | now apply is_safe_char_facts]. }
  split.
  { intros _. split; [apply replace_unsafe_length|].
    intros i c Hget. now rewrite replace_unsafe_get, Hget. }
  split; [discriminate|]. split.
  { rewrite (replace_unsafe_fixed (replace_unsafe filename))
      by apply replace_unsafe_safe.
    now rewrite Ht. }
  split; [|reflexivity]. intros _ Hsafe. now apply replace_unsafe_fixed.
Qed.

Example safe_filename_examples :
  safe_filename "my report (v2).docx" = "my_report__v2_.docx"
  /\ safe_filename "../../etc/passwd" = ".._.._etc_passwd"
  /\ safe_filename "" = "uploaded_file".
Proof. repeat split; reflexivity. Qed.

(** ** [scan_document] *)



(** A picture uploaded as [scan 1.PNG] is stored as [scan_1.PNG] and gives
    a result of one page; the base directory is left behind, the request
    directory is not. *)
Example scan_document_example :
  exists result,
    (RequestScenario.scan "TRUE").1 = HttpOk result
    /\ document_name (processing_summary result) = "scan_1.PNG"
    /\ map status (pages result) = [SUCCESS]
    /\ job_id result = "1700000000"
    /\ exists_ (RequestScenario.scan "TRUE").2 ["tmp"; "everypage_pure"] = true
    /\ exists_ (RequestScenario.scan "TRUE").2
         ["tmp"; "everypage_pure"; "req_1700000000000_9f3a1c07"] = false.
Proof.
  eexists. split; [vm_compute; reflexivity|].
  split; [reflexivity|]. split; [reflexivity|]. split; [reflexivity|].
  split; vm_compute; reflexivity.
Qed.

(** ** Jobs *)

Import Jobs JobStore.

(** Whatever number is given, the clamped progress is a finite number
    from 0 to 100, and a number within these bounds is kept. A NaN becomes
    100 (no comparison with a NaN holds, so [min] keeps its first
    argument), as does positive infinity; negative infinity becomes 0. *)
Lemma clamp_progress_in_range (p : pyfloat) :
  progress_in_range (clamp_progress p) = true
  /\ (progress_in_range p = true ->
      exists q q', p = Finite q /\ clamp_progress p = Finite q'
                   /\ QArith_base.Qeq q q').
Proof.
  unfold clamp_progress, py_max, py_min, float_lt, float_0, float_100,
    progress_in_range.
  destruct p as [[n d]|[]|]; cbn [negb]; try (split; [reflexivity|discriminate]).
  unfold QArith_base.Qle_bool, QArith_base.Qeq. cbn [QArith_base.Qnum QArith_base.Qden].
  destruct (Z.leb_spec (100 * Z.pos d) (n * 1)) as [H1|H1]; cbn [negb].
  - cbn. split; [reflexivity|]. intros [_ H2%Z.leb_le]%andb_true_iff.
    exists (QArith_base.Qmake n d), (QArith_base.Qmake 100 1).
    split; [reflexivity|]. split; [reflexivity|].
    unfold QArith_base.Qeq. cbn [QArith_base.Qnum QArith_base.Qden]. lia.
  - unfold QArith_base.Qle_bool. cbn [QArith_base.Qnum QArith_base.Qden].
    destruct (Z.leb_spec (n * 1) (0 * Z.pos d)) as [H2|H2]; cbn [negb].
    + split; [reflexivity|]. intros [H3%Z.leb_le _]%andb_true_iff.
      exists (QArith_base.Qmake n d), (QArith_base.Qmake 0 1).
      split; [reflexivity|]. split; [reflexivity|].
      unfold QArith_base.Qeq. cbn [QArith_base.Qnum QArith_base.Qden]. lia.
    + split.
      * apply andb_true_iff.
        split; apply Z.leb_le; cbn [QArith_base.Qnum QArith_base.Qden]; lia.
      * intros _. exists (QArith_base.Qmake n d), (QArith_base.Qmake n d).
        split; [reflexivity|]. split; reflexivity.
Qed.

(** X22. [Job.update_status] keeps the progress of a job a number from 0 to
    100: the new progress is the clamped value given (a NaN included), the
    old progress when none is given, and 100 for [COMPLETED] whatever is
    given. [COMPLETED] and [ERROR] set the completion time to the time of
    the update, every other status leaves it as it was. Nothing but the
    status, the progress and the two times is changed. *)
Theorem update_status_keeps_progress_in_range
    (now : string) (job : Job) (status : JobStatus)
    (new_progress : option pyfloat) :
  let job' := update_status now job status new_progress in
  job_status job' = status
  /\ updated_at job' = Some now
  /\ (progress_in_range (progress job) = true ->
      progress_in_range (progress job') = true)
  /\ (is_Some new_progress -> progress_in_range (progress job') = true)
  /\ (status = COMPLETED ->
      progress job' = float_100 /\ completed_at job' = Some now)
  /\ (status <> COMPLETED ->
      progress job'
      = match new_progress with
        | Some p => clamp_progress p
        | None => progress job
        end)
  /\ (status = ERROR -> completed_at job' = Some now)
  /\ (status <> COMPLETED -> status <> ERROR ->
      completed_at job' = completed_at job)
  /\ clamp_progress NaN = float_100
  /\ job' = set_status_fields job status (progress job') (updated_at job')
              (completed_at job').
Proof.
  cbv zeta.
  assert (Hp : progress_in_range
                 match new_progress with
                 | Some p => clamp_progress p
                 | None => progress job
                 end = true
               \/ (new_progress = None
                   /\ progress_in_range (progress job) = false)).
  { destruct new_progress as [p|].
    - left. apply clamp_progress_in_range.
    - destruct (progress_in_range (progress job)); [now left | now right]. }
  unfold update_status.
  split; [destruct status; reflexivity|].
  split; [destruct status; reflexivity|].
  split.
  { intros Hold. destruct Hp as [Hp|[-> Hp]]; [|congruence].
    destruct status; cbn [set_status_fields progress]; (exact Hp || reflexivity). }
  split.
  { intros [p ->]. pose proof (proj1 (clamp_progress_in_range p)) as Hc.
    destruct status; cbn [set_status_fields progress]; (exact Hc || reflexivity). }
  split; [intros ->; split; reflexivity|].
  split; [intros Hne; destruct status; (reflexivity || congruence)|].
  split; [intros ->; reflexivity|].
  split; [intros Hc He; destruct status; (reflexivity || congruence)|].
  split; [reflexivity|].
  destruct status; reflexivity.
Qed.


(** [Job.set_results] stores the results and completes the job. *)
Lemma set_results_spec (now : string) (job : Job) (r : AggregatedResult) :
  let job' := set_results now job r in
  results job' = Some r /\ job_status job' = COMPLETED
  /\ progress job' = float_100 /\ completed_at job' = Some now
  /\ errors job' = errors job.
Proof. cbv zeta. repeat split. Qed.

(** ** The in-memory job store *)

Lemma dict_get_set_eq (d : InMemoryJobStore) (k : string) (v : Job) :
  dict_get (dict_set d k v) k = Some v.
Proof.
  induction d as [|[k' v'] d IH]; cbn [dict_set dict_get].
  - now rewrite String.eqb_refl.
  - destruct (String.eqb_spec k' k) as [->|Hne]; cbn [dict_get].
    + now rewrite String.eqb_refl.
    + apply String.eqb_neq in Hne. rewrite Hne. exact IH.
Qed.

Lemma dict_get_set_ne (d : InMemoryJobStore) (k k' : string) (v : Job) :
  k' <> k -> dict_get (dict_set d k v) k' = dict_get d k'.
Proof.
  intros Hne. induction d as [|[k0 v0] d IH]; cbn [dict_set dict_get].
  - destruct (String.eqb_spec k k'); [congruence | reflexivity].
  - destruct (String.eqb_spec k0 k) as [->|Hk]; cbn [dict_get].
    + destruct (String.eqb_spec k k'); [congruence | reflexivity].
    + destruct (String.eqb_spec k0 k'); [reflexivity | exact IH].
Qed.

Lemma dict_get_None (d : InMemoryJobStore) (k : string) :
  dict_get d k = None <-> k ∉ map fst d.
Proof.
  induction d as [|[k' v'] d IH]; cbn [dict_get map fst].
  - split; [intros _ H; now apply elem_of_nil in H | reflexivity].
  - rewrite not_elem_of_cons.
    destruct (String.eqb_spec k' k) as [->|Hne].
    + split; [discriminate | intros [H _]; congruence].
    + rewrite IH. split; [intros H; split; [congruence | exact H] | tauto].
Qed.

(** Assigning to a key that is present keeps the keys and their order;
    assigning to a new key adds it at the end. *)
Lemma dict_set_keys (d : InMemoryJobStore) (k : string) (v : Job) :
  map fst (dict_set d k v)
  = if bool_decide (is_Some (dict_get d k)) then map fst d
    else map fst d ++ [k].
Proof.
  induction d as [|[k' v'] d IH]; cbn [dict_set dict_get map fst].
  - rewrite bool_decide_eq_false_2; [reflexivity|]. now intros [? [=]].
  - destruct (String.eqb_spec k' k) as [->|Hne]; cbn [map fst].
    + rewrite bool_decide_eq_true_2 by eauto. reflexivity.
    + rewrite IH. case_bool_decide; reflexivity.
Qed.

Lemma dict_set_fresh (d : InMemoryJobStore) (k : string) (v : Job) :
  dict_get d k = None -> dict_set d k v = d ++ [(k, v)].
Proof.
  induction d as [|[k' v'] d IH]; cbn [dict_set dict_get app]; [reflexivity|].
  destruct (String.eqb_spec k' k); [discriminate|].
  intros H. now rewrite IH.
Qed.

Lemma dict_set_NoDup (d : InMemoryJobStore) (k : string) (v : Job) :
  NoDup (map fst d) -> NoDup (map fst (dict_set d k v)).
Proof.
  intros Hnd. rewrite dict_set_keys. case_bool_decide as Hk; [exact Hnd|].
  apply NoDup_app. split; [exact Hnd|]. split; [|apply NoDup_singleton].
  intros x Hx [->|H]%elem_of_cons; [|now apply elem_of_nil in H].
  apply Hk. destruct (dict_get d k) eqn:E; [eauto|].
  now apply dict_get_None in E.
Qed.

Lemma dict_get_del_ne (d : InMemoryJobStore) (k k' : string) :
  k' <> k -> dict_get (dict_del d k) k' = dict_get d k'.
Proof.
  intros Hne. induction d as [|[k0 v0] d IH]; cbn [dict_del dict_get];
    [reflexivity|].
  destruct (String.eqb_spec k0 k) as [->|Hk]; cbn [dict_get].
  - destruct (String.eqb_spec k k'); [congruence | reflexivity].
  - destruct (String.eqb_spec k0 k'); [reflexivity | exact IH].
Qed.

Lemma dict_del_missing (d : InMemoryJobStore) (k : string) :
  dict_get d k = None -> dict_del d k = d.
Proof.
  induction d as [|[k0 v0] d IH]; cbn [dict_del dict_get]; [reflexivity|].
  destruct (String.eqb_spec k0 k); [discriminate|].
  intros H. now rewrite IH.
Qed.

Lemma dict_get_del_eq (d : InMemoryJobStore) (k : string) :
  NoDup (map fst d) -> dict_get (dict_del d k) k = None.
Proof.
  induction d as [|[k0 v0] d IH]; cbn [dict_del dict_get map fst];
    [reflexivity|].
  intros [Hnin Hnd]%NoDup_cons.
  destruct (String.eqb_spec k0 k) as [->|Hk]; cbn [dict_get].
  - now apply dict_get_None.
  - apply String.eqb_neq in Hk. rewrite Hk. now apply IH.
Qed.

Lemma dict_del_sublist (d : InMemoryJobStore) (k : string) :
  dict_del d k `sublist_of` d.
Proof.
  induction d as [|[k0 v0] d IH]; cbn [dict_del]; [reflexivity|].
  destruct (String.eqb k0 k); [now apply sublist_cons | now apply sublist_skip].
Qed.

Lemma dict_del_NoDup (d : InMemoryJobStore) (k : string) :
  NoDup (map fst d) -> NoDup (map fst (dict_del d k)).
Proof.
  intros Hnd. eapply sublist_NoDup; [exact Hnd|].
  apply (fmap_sublist fst), dict_del_sublist.
Qed.

Lemma dict_del_length (d : InMemoryJobStore) (k : string) (v : Job) :
  dict_get d k = Some v -> S (length (dict_del d k)) = length d.
Proof.
  induction d as [|[k0 v0] d IH]; cbn [dict_del dict_get length];
    [discriminate|].
  destruct (String.eqb k0 k); [reflexivity|].
  intros H. cbn [length]. now rewrite IH.
Qed.

(** The three methods that change one job have the same shape. *)
Lemma modify_job_spec
    (f : Job -> Job) (store : InMemoryJobStore) (job_id : string) :
  let r :=
    match dict_get store job_id with
    | Some job => (true, dict_set store job_id (f job))
    | None => (false, store)
    end in
  (r.1 = true <-> is_Some (in_memory_get_job store job_id))
  /\ (r.1 = false -> r.2 = store)
  /\ map fst r.2 = map fst store
  /\ (forall other, other <> job_id ->
        in_memory_get_job r.2 other = in_memory_get_job store other)
  /\ in_memory_get_job r.2 job_id = f <$> in_memory_get_job store job_id.
Proof.
  cbv zeta. unfold in_memory_get_job.
  destruct (dict_get store job_id) as [job|] eqn:Hget; cbn [fst snd].
  - split; [split; eauto|]. split; [discriminate|].
    split.
    { rewrite dict_set_keys, bool_decide_eq_true_2 by eauto. reflexivity. }
    split; [intros other Hne; now apply dict_get_set_ne|].
    apply dict_get_set_eq.
  - split; [split; [discriminate | intros [? [=]]]|].
    split; [reflexivity|]. split; [reflexivity|].
    split; [reflexivity | exact Hget].
Qed.

(** X24. [update_job_status], [add_job_error] and [set_job_results] change the
    job they are given the identifier of, as the [Job] method of the same
    name does, and nothing else: they return [True] exactly when the job
    is in the store; for an unknown identifier they return [False] and
    leave the store as it is; the identifiers in the store and their order
    are kept, and every other job reads as before. *)
Theorem job_store_methods_change_one_job
    (now now2 : string) (store : InMemoryJobStore) (job_id : string)
    (status : JobStatus) (new_progress : option pyfloat)
    (code message : string) (context : option (list (string * json)))
    (recoverable : bool) (r : AggregatedResult) :
  let check (res : bool * InMemoryJobStore) (f : Job -> Job) :=
    (res.1 = true <-> is_Some (get_job store job_id))
    /\ (res.1 = false -> res.2 = store)
    /\ map fst res.2 = map fst store
    /\ (forall other, other <> job_id ->
          get_job res.2 other = get_job store other)
    /\ get_job res.2 job_id = f <$> get_job store job_id in
  check (update_job_status now store job_id status new_progress)
    (fun job => update_status now job status new_progress)
  /\ check (add_job_error now now2 store job_id code message context
              recoverable)
       (fun job => add_error now now2 job code message context recoverable)
  /\ check (set_job_results now store job_id r)
       (fun job => set_results now job r).
Proof.
  cbv zeta. split; [|split].
  - apply (modify_job_spec
             (fun job => update_status now job status new_progress)).
  - apply (modify_job_spec
             (fun job => add_error now now2 job code message context
                           recoverable)).
  - apply (modify_job_spec (fun job => set_results now job r)).
Qed.

(** X25. A job that has been created can be read back under its identifier, in
    status [CREATED] with progress 0, no error and no result; the jobs
    stored before read as before, and a new identifier is added after
    them. Removing a job makes its identifier unknown, leaves every other
    job as it is, and is a no-op for an unknown identifier; removing a
    job just created with a new identifier gives the store back. Both
    methods keep the identifiers distinct. *)
Theorem job_store_create_get_cleanup
    (store : InMemoryJobStore) (job_id now document_name : string)
    (input_file_path job_dir : Path) (user_prompt output_format : string)
    (use_meta_intelligence : bool) (llm_api_key : string) :
  NoDup (map fst store) ->
  let created :=
    create_job store job_id now document_name input_file_path job_dir
      user_prompt output_format use_meta_intelligence llm_api_key in
  let job := created.1 in
  get_job created.2 job_id = Some job
  /\ job_job_id job = job_id /\ job_status job = CREATED
  /\ progress job = float_0 /\ errors job = [] /\ results job = None
  /\ created_at job = now /\ completed_at job = None
  /\ (forall other, other <> job_id ->
        get_job created.2 other = get_job store other)
  /\ (get_job store job_id = None -> created.2 = store ++ [(job_id, job)])
  /\ NoDup (map fst created.2)
  /\ (forall k,
        let removed := cleanup_job_data store k in
        get_job removed k = None
        /\ (forall other, other <> k ->
              get_job removed other = get_job store other)
        /\ (get_job store k = None -> removed = store)
        /\ (is_Some (get_job store k) ->
            S (length removed) = length store)
        /\ NoDup (map fst removed))
  /\ (get_job store job_id = None ->
      cleanup_job_data created.2 job_id = store).
Proof.
  intros Hnd. cbv zeta.
  cbn [create_job get_job cleanup_job_data in_memory_job_store].
  unfold in_memory_create_job, in_memory_get_job, in_memory_cleanup_job_data.
  cbn [fst snd job_job_id job_status progress errors results created_at
       completed_at].
  split; [apply dict_get_set_eq|].
  do 7 (split; [reflexivity|]).
  split; [intros other Hne; now apply dict_get_set_ne|].
  split; [apply dict_set_fresh|].
  split; [now apply dict_set_NoDup|].
  split.
  - intros k. destruct (dict_get store k) as [j|] eqn:Hk.
    + rewrite bool_decide_eq_true_2 by eauto.
      split; [now apply dict_get_del_eq|].
      split; [intros other Hne; now apply dict_get_del_ne|].
      split; [discriminate|].
      split; [intros _; now apply (dict_del_length store k j)|].
      now apply dict_del_NoDup.
    + rewrite bool_decide_eq_false_2 by (intros [? [=]]).
      split; [exact Hk|]. split; [reflexivity|]. split; [reflexivity|].
      split; [intros [? [=]] | exact Hnd].
  - intros Hfresh. rewrite dict_get_set_eq.
    rewrite bool_decide_eq_true_2 by eauto.
    rewrite dict_set_fresh by exact Hfresh.
    clear Hnd. induction store as [|[k0 v0] d IH]; cbn [app dict_del].
    + now rewrite String.eqb_refl.
    + cbn [dict_get] in Hfresh.
      destruct (String.eqb k0 job_id); [discriminate|].
      now rewrite IH.
Qed.

(** X25, witness: a job created in the empty store. *)
Lemma job_store_create_get_cleanup_witness :
  let created :=
    create_job ([] : InMemoryJobStore) "7c9e6679" "2024-05-01T10:00:00"
      "report.docx" ["uploads"; "report.docx"] ["jobs"; "j1"]
      "Describe the page" "json" false "key" in
  get_job created.2 "7c9e6679" = Some created.1
  /\ cleanup_job_data created.2 "7c9e6679" = [].
Proof.
  cbv zeta.
  destruct (job_store_create_get_cleanup [] "7c9e6679" "2024-05-01T10:00:00"
              "report.docx" ["uploads"; "report.docx"] ["jobs"; "j1"]
              "Describe the page" "json" false "key" ltac:(constructor))
    as (Hget & _ & _ & _ & _ & _ & _ & _ & _ & _ & _ & _ & Hback).
  split; [exact Hget | now apply Hback].
Defined.

(** *** The order of texts *)

Lemma ascii_compare_lt_trans (a b c : ascii) :
  Ascii.compare a b = Lt -> Ascii.compare b c = Lt -> Ascii.compare a c = Lt.
Proof.
  unfold Ascii.compare. rewrite !N.compare_lt_iff. lia.
Qed.

Lemma string_compare_lt_trans (a b c : string) :
  String.compare a b = Lt -> String.compare b c = Lt ->
  String.compare a c = Lt.
Proof.
  revert b c. induction a as [|x a IH]; intros [|y b] [|z c];
    cbn [String.compare]; try discriminate; try reflexivity.
  destruct (Ascii.compare x y) eqn:Hxy; try discriminate;
    destruct (Ascii.compare y z) eqn:Hyz; try discriminate.
  - apply Ascii.compare_eq_iff in Hxy, Hyz. subst.
    rewrite (proj2 (N.compare_eq_iff _ _) eq_refl : Ascii.compare z z = Eq).
    apply IH.
  - apply Ascii.compare_eq_iff in Hxy. subst. now rewrite Hyz.
  - apply Ascii.compare_eq_iff in Hyz. subst. now rewrite Hxy.
  - now rewrite (ascii_compare_lt_trans x y z Hxy Hyz).
Qed.

Lemma string_compare_refl (a : string) : String.compare a a = Eq.
Proof.
  induction a as [|x a IH]; [reflexivity|]. cbn [String.compare].
  now rewrite (proj2 (N.compare_eq_iff _ _) eq_refl : Ascii.compare x x = Eq).
Qed.

(** [a >= b] on texts, as the negation of [a < b]. *)
Lemma string_ge_trans (a b c : string) :
  String.ltb a b = false -> String.ltb b c = false -> String.ltb a c = false.
Proof.
  unfold String.ltb. intros Hab Hbc.
  rewrite (String.compare_antisym a b) in Hab.
  rewrite (String.compare_antisym b c) in Hbc.
  rewrite (String.compare_antisym a c).
  destruct (String.compare b a) eqn:Hba; try discriminate;
    destruct (String.compare c b) eqn:Hcb; try discriminate.
  - apply String.compare_eq_iff in Hba, Hcb. subst.
    now rewrite string_compare_refl.
  - apply String.compare_eq_iff in Hba. subst. now rewrite Hcb.
  - apply String.compare_eq_iff in Hcb. subst. now rewrite Hba.
  - now rewrite (string_compare_lt_trans c b a Hcb Hba).
Qed.

Lemma string_lt_not_gt (a b : string) :
  String.ltb a b = true -> String.ltb b a = false.
Proof.
  unfold String.ltb. rewrite (String.compare_antisym a b).
  destruct (String.compare b a); cbn; congruence.
Qed.

(** *** [sorted(..., reverse=True)] *)

Section SortedDesc.
Context (key : Job -> string).

Definition key_ge (a b : Job) : Prop := String.ltb (key a) (key b) = false.

Lemma insort_desc_Permutation (x : Job) (l : list Job) :
  insort_desc key x l ≡ₚ x :: l.
Proof.
  induction l as [|y l IH]; cbn [insort_desc]; [reflexivity|].
  destruct (String.ltb (key x) (key y)); [|reflexivity].
  rewrite IH. apply perm_swap.
Qed.

Lemma sorted_desc_Permutation (l : list Job) : sorted_desc key l ≡ₚ l.
Proof.
  induction l as [|x l IH]; [reflexivity|].
  change (sorted_desc key (x :: l))
    with (insort_desc key x (sorted_desc key l)).
  now rewrite insort_desc_Permutation, IH.
Qed.

Lemma insort_desc_StronglySorted (x : Job) (l : list Job) :
  StronglySorted key_ge l -> StronglySorted key_ge (insort_desc key x l).
Proof.
  induction 1 as [|y l Hl IH Hy]; cbn [insort_desc].
  - repeat constructor.
  - destruct (String.ltb (key x) (key y)) eqn:Hxy.
    + constructor; [exact IH|].
      rewrite insort_desc_Permutation. constructor; [|exact Hy].
      now apply string_lt_not_gt.
    + constructor; [now constructor|].
      constructor; [exact Hxy|].
      eapply Forall_impl; [exact Hy|]. intros z Hz.
      now apply (string_ge_trans _ (key y)).
Qed.

Lemma sorted_desc_StronglySorted (l : list Job) :
  StronglySorted key_ge (sorted_desc key l).
Proof.
  induction l as [|x l IH]; [constructor|].
  now apply insort_desc_StronglySorted.
Qed.

(** Stability: jobs with the same key keep their input order. *)
Lemma insort_desc_filter (k : string) (x : Job) (l : list Job) :
  StronglySorted key_ge l ->
  filter (fun a => key a = k) (insort_desc key x l)
  = filter (fun a => key a = k) (x :: l).
Proof.
  induction 1 as [|y l Hl IH Hy]; cbn [insort_desc]; [reflexivity|].
  destruct (String.ltb (key x) (key y)) eqn:Hxy; [|reflexivity].
  assert (Hne : key x <> key y).
  { intros E. rewrite E in Hxy. unfold String.ltb in Hxy.
    now rewrite string_compare_refl in Hxy. }
  rewrite !filter_cons in *.
  destruct (decide (key y = k)) as [Hyk|Hyk];
    destruct (decide (key x = k)) as [Hxk|Hxk];
    rewrite IH; try reflexivity; congruence.
Qed.

Lemma sorted_desc_stable (k : string) (l : list Job) :
  filter (fun a => key a = k) (sorted_desc key l)
  = filter (fun a => key a = k) l.
Proof.
  induction l as [|x l IH]; [reflexivity|].
  change (sorted_desc key (x :: l))
    with (insort_desc key x (sorted_desc key l)).
  rewrite insort_desc_filter by apply sorted_desc_StronglySorted.
  now rewrite !filter_cons, IH.
Qed.

End SortedDesc.

(** X26. [get_active_jobs] returns the summaries of the [min(limit, n)] most
    recently created of the [n] jobs in the store (none for a limit of 0
    or less), latest first by the text of [created_at], jobs created at the
    same time in the order in which they were stored: for every limit, the
    summaries returned are the first [min(limit, n)] of the arrangement of
    all summaries that is descending in [created_at] and keeps the stored
    order among equal times. It does not look at the status: with a limit
    of at least [n] every job is listed, finished or not. *)
Theorem get_active_jobs_lists_latest_jobs
    (store : InMemoryJobStore) (limit : Z) :
  let summaries := get_active_jobs store limit in
  let jobs := map snd store in
  length summaries = Nat.min (Z.to_nat limit) (length store)
  /\ ((limit <= 0)%Z -> summaries = [])
  /\ StronglySorted
       (fun a b =>
          String.ltb (summary_created_at a) (summary_created_at b) = false)
       summaries
  /\ (exists rest,
        map summary_of jobs ≡ₚ summaries ++ rest
        /\ (forall a b, a ∈ summaries -> b ∈ rest ->
              String.ltb (summary_created_at a) (summary_created_at b) = false)
        /\ StronglySorted
             (fun a b =>
                String.ltb (summary_created_at a) (summary_created_at b)
                = false)
             (summaries ++ rest)
        /\ forall t,
             filter (fun s => summary_created_at s = t) (summaries ++ rest)
             = filter (fun s => summary_created_at s = t)
                 (map summary_of jobs))
  /\ ((Z.of_nat (length store) <= limit)%Z ->
      summaries ≡ₚ map summary_of jobs
      /\ forall t,
           filter (fun s => summary_created_at s = t) summaries
           = filter (fun s => summary_created_at s = t) (map summary_of jobs)).
Proof.
  cbv zeta. cbn [get_active_jobs in_memory_job_store].
  unfold in_memory_get_active_jobs.
  set (jobs := map snd store). set (n := Z.to_nat limit).
  pose proof (sorted_desc_Permutation created_at jobs) as Hperm.
  pose proof (sorted_desc_StronglySorted created_at jobs) as Hsorted.
  assert (Hlen : length (sorted_desc created_at jobs) = length store).
  { rewrite (Permutation_length Hperm). subst jobs. apply length_map. }
  assert (Hf : forall (t : string) (l : list Job),
             filter (fun s => summary_created_at s = t) (map summary_of l)
             = map summary_of (filter (fun j => created_at j = t) l)).
  { intros t. induction l as [|j l IH]; [reflexivity|].
    cbn [map]. rewrite !filter_cons. cbn [summary_of summary_created_at].
    destruct (decide (created_at j = t)); cbn [map]; now rewrite IH. }
  assert (Hmapped :
    StronglySorted
      (fun a b =>
         String.ltb (summary_created_at a) (summary_created_at b) = false)
      (map summary_of (sorted_desc created_at jobs))).
  { apply (StronglySorted_fmap summary_of (key_ge created_at));
      [|exact Hsorted].
    intros x y Hxy. exact Hxy. }
  split; [now rewrite length_map, length_take, Hlen|].
  split.
  { intros Hle. subst n. replace (Z.to_nat limit) with 0 by lia. reflexivity. }
  rewrite <- (take_drop n (sorted_desc created_at jobs)) in Hsorted.
  apply StronglySorted_app in Hsorted as (Hcross & Htake & _).
  split.
  { apply (StronglySorted_fmap summary_of (key_ge created_at)); [|exact Htake].
    intros x y Hxy. exact Hxy. }
  split.
  { exists (map summary_of (drop n (sorted_desc created_at jobs))).
    rewrite <- map_app, take_drop. split; [now rewrite Hperm|].
    split.
    - intros a b Ha Hb.
      apply list_elem_of_fmap in Ha as (x & -> & Hx).
      apply list_elem_of_fmap in Hb as (y & -> & Hy).
      exact (Hcross x y Hx Hy).
    - split; [exact Hmapped|].
      intros t. now rewrite !Hf, sorted_desc_stable. }
  intros Hall. rewrite take_ge by lia. split; [now rewrite Hperm|].
  intros t. now rewrite !Hf, sorted_desc_stable.
Qed.

(** The three latest of four jobs, two of them created at the same time. *)
Example get_active_jobs_example :
  let job id t :=
    (in_memory_create_job [] id t "d" ["u"] ["j"] "p" "json" false "k").1 in
  let store :=
    [ ("a", job "a" "2024-05-01T10:00:00");
      ("b", job "b" "2024-05-01T12:00:00");
      ("c", job "c" "2024-05-01T10:00:00");
      ("d", job "d" "2024-05-01T12:00:00.500000") ] in
  map summary_job_id (get_active_jobs store 3) = ["d"; "b"; "a"]
  /\ map summary_job_id (get_active_jobs store 4) = ["d"; "b"; "a"; "c"].
Proof. split; reflexivity. Qed.

(** *** Counting *)

Lemma count_active_from (jobs : list Job) (c : Z) :
  fold_left
    (fun count job =>
       if bool_decide (job_status job ∈ final_states) then count
       else (count + 1)%Z) jobs c
  = (c + Z.of_nat
           (length (filter (fun j => job_status j ∉ final_states) jobs)))%Z.
Proof.
  revert c. induction jobs as [|j jobs IH]; intros c; cbn [fold_left].
  - cbn. lia.
  - rewrite IH, filter_cons. case_bool_decide as Hf.
    + rewrite decide_False by tauto. reflexivity.
    + rewrite decide_True by exact Hf. cbn [length]. lia.
Qed.

Lemma filter_dict_set (P : Job -> Prop) `{!forall j, Decision (P j)}
    (store : InMemoryJobStore) (k : string) (old new : Job) :
  NoDup (map fst store) -> dict_get store k = Some old ->
  length (filter P (map snd (dict_set store k new)))
  + (if decide (P old) then 1 else 0)
  = length (filter P (map snd store)) + (if decide (P new) then 1 else 0).
Proof.
  induction store as [|[k0 v0] d IH]; cbn [dict_get dict_set map fst snd];
    [discriminate|].
  intros [Hnin Hnd]%NoDup_cons.
  destruct (String.eqb_spec k0 k) as [->|Hne].
  - intros [= ->]. cbn [map snd]. rewrite !filter_cons.
    destruct (decide (P old)), (decide (P new)); cbn [length]; lia.
  - intros Hget. cbn [map snd]. rewrite !filter_cons.
    specialize (IH Hnd Hget).
    destruct (decide (P v0)); cbn [length]; lia.
Qed.

(** X27. [count_active_jobs] is the number of jobs whose status is none of
    [COMPLETED], [ERROR] and [CANCELLED]; it lies between 0 and the number
    of jobs. Setting the results of a job that was counted, or recording an
    error that is not recoverable for it, lowers the count by exactly one;
    doing so for a job that was not counted leaves the count as it is, as
    does a recoverable error. *)
Theorem count_active_jobs_counts_unfinished
    (now now2 : string) (store : InMemoryJobStore) (job_id : string)
    (job : Job) (r : AggregatedResult) (code message : string)
    (context : option (list (string * json))) (recoverable : bool) :
  NoDup (map fst store) ->
  get_job store job_id = Some job ->
  let active (j : Job) : Z :=
    if bool_decide (job_status j ∈ final_states) then 0%Z else 1%Z in
  count_active_jobs store
  = Z.of_nat (length (filter (fun j => job_status j ∉ final_states)
                        (map snd store)))
  /\ (0 <= count_active_jobs store <= Z.of_nat (length store))%Z
  /\ count_active_jobs (set_job_results now store job_id r).2
     = (count_active_jobs store - active job)%Z
  /\ count_active_jobs
       (add_job_error now now2 store job_id code message context recoverable).2
     = (count_active_jobs store
        - if recoverable then 0 else active job)%Z.
Proof.
  intros Hnd Hget. cbv zeta.
  cbn [count_active_jobs set_job_results add_job_error get_job
       in_memory_job_store] in *.
  unfold in_memory_count_active_jobs, in_memory_set_job_results,
    in_memory_add_job_error, in_memory_get_job in *.
  rewrite Hget. cbn [snd]. rewrite !count_active_from.
  split; [lia|]. split.
  { pose proof (length_filter (fun j => job_status j ∉ final_states)
                  (map snd store)) as Hle.
    rewrite length_map in Hle. lia. }
  pose proof (fun new =>
                filter_dict_set (fun j => job_status j ∉ final_states)
                  store job_id job new Hnd Hget) as Hset.
  assert (Hdone : forall s, s = COMPLETED \/ s = ERROR -> ~ (s ∉ final_states)).
  { intros s [-> | ->] H; apply H; unfold final_states; set_solver. }
  split.
  - specialize (Hset (set_results now job r)). cbv beta in Hset.
    pose proof (Hdone (job_status (set_results now job r))
                  (or_introl eq_refl)) as Hc.
    case_bool_decide as Hf; repeat case_decide; try lia; tauto.
  - specialize (Hset (add_error now now2 job code message context
                        recoverable)). cbv beta in Hset.
    destruct recoverable.
    + assert (Hs : job_status (add_error now now2 job code message context
                                 true) = job_status job) by reflexivity.
      rewrite Hs in Hset. repeat case_decide; lia.
    + pose proof (Hdone (job_status (add_error now now2 job code message
                                       context false))
                    (or_intror eq_refl)) as Hc.
      case_bool_decide as Hf; repeat case_decide; try lia; tauto.
Qed.

(** X27, witness: one running job, completed by its results. *)
Lemma count_active_jobs_counts_unfinished_witness :
  let store :=
    (in_memory_create_job [] "a" "2024-05-01T10:00:00" "d" ["u"] ["j"] "p"
       "json" false "k").2 in
  let r :=
    aggregate_processing_results
      (mkAggregationClock "2024-05-01T10:00:09" "9.0" "0.001") "a" "d" [] ∅ "p" in
  count_active_jobs store = 1%Z
  /\ count_active_jobs (set_job_results "2024-05-01T10:00:09" store "a" r).2
     = 0%Z.
Proof.
  cbv zeta.
  destruct (count_active_jobs_counts_unfinished "2024-05-01T10:00:09" ""
              (in_memory_create_job [] "a" "2024-05-01T10:00:00" "d" ["u"]
                 ["j"] "p" "json" false "k").2
              "a"
              (in_memory_create_job [] "a" "2024-05-01T10:00:00" "d" ["u"]
                 ["j"] "p" "json" false "k").1
              (aggregate_processing_results
                 (mkAggregationClock "2024-05-01T10:00:09" "9.0" "0.001")
                 "a" "d" [] ∅ "p")
              "" "" None true
              ltac:(repeat constructor; set_solver)
              ltac:(reflexivity))
    as (Hcount & _ & Hset & _).
  split; [exact Hcount | exact Hset].
Defined.


(** ** [parse_pdfinfo_output] *)

Import PdfInfo.

Example parse_pdfinfo_output_example :
  let m :=
    parse_pdfinfo_output PdfInfoScenario.int_of_str
      PdfInfoScenario.pdfinfo_stdout in
  (fun k => m !! k)
  <$> ["title"; "keywords"; "tagged"; "pages"; "encrypted"; "page_size";
       "page_rot"; "pdf_version"; "page_width_pts"; "page_height_pts";
       "Pages"]
  = [ Some (MStr "Quarterly report");
      Some (MStr ("alpha," +:+ PdfInfoScenario.nl +:+ "beta"));
      Some (MBool false);
      Some (MInt 12);
      Some (MBool false);
      Some (MStr "595.276 x 841.89 pts (A4)");
      Some (MInt 0);
      Some (MStr "1.7");
      Some (MFloat "595.276");
      Some (MFloat "841.89");
      None ]
  /\ size m = 10.
Proof. cbv zeta. split; vm_compute; reflexivity. Qed.

Example splitlines_examples :
  splitlines ("a" +:+ String "013" (String "010" "b")) = ["a"; "b"]
  /\ splitlines ("a" +:+ String "010" (String "013" "b")) = ["a"; ""; "b"]
  /\ splitlines (String "010" "") = [""]
  /\ splitlines ("a" +:+ String "133" "") = ["a"]
  /\ splitlines ("a" +:+ String "031" "b") = ["a" +:+ String "031" "b"]
  /\ splitlines "" = [].
Proof. repeat split; reflexivity. Qed.

Example match_page_size_examples :
  match_page_size "612 x 792 pts (letter)" = Some ("612", "792")
  /\ match_page_size "612 x 792pts" = None
  /\ match_page_size "1.2.3 x . pts" = Some ("1.2.3", ".")
  /\ float_accepts "1.2.3" = false /\ float_accepts "." = false
  /\ float_accepts "1." = true /\ float_accepts ".5" = true.
Proof. repeat split; reflexivity. Qed.

(** *** The characters of a key *)









(** *** The loop over the lines *)




(** *** The conversions *)






(** ** The page count a result reports *)


(** X29. When the metadata tool succeeds, the metadata of the result is what
    [parse_pdfinfo_output] reads from the tool's output, with the
    [source_type] entry set to [document], and the reported page count is
    the [pages] entry of that dictionary whenever there is one: it can
    differ from the number of pages processed, and is a text when the
    entry could not be read as an integer. Only without such an entry is
    it the number of page outcomes. The number of pages processed is
    always the number of page images. *)
Theorem metadata_success_reports_pdfinfo_pages
    (w : World) (input_file_path : Path) (user_prompt output_format : string)
    (use_meta_intelligence : bool) (config : AppSettings)
    (llm_api_key : string) (job_dir : Path) (fs : FileSystem)
    (pdf_path : Path) :
  exists_ fs input_file_path = true ->
  is_image_input input_file_path = false ->
  let conv :=
    convert_to_pdf_libreoffice w input_file_path (job_dir ++ ["converted"])
      config fs in
  conv.1.1 = (true, Some pdf_path) ->
  let meta := extract_pdf_metadata w pdf_path config conv.2 in
  meta.1.1.1 = true ->
  let shots :=
    extract_pdf_pages_as_png w pdf_path (job_dir ++ ["screenshots"]) config
      meta.2 in
  shots.1.1.1 = true ->
  let run :=
    process_document_stateless w input_file_path user_prompt output_format
      use_meta_intelligence config llm_api_key job_dir fs in
  (forall c : PageCall,
     c ∈ run_main_calls run ->
     exists r, run_page_call w config llm_api_key c = Py.Returned r) ->
  let parsed := Env.parse_pdfinfo_output w meta.1.1.2 in
  exists r : AggregatedResult,
    run_outcome run = Py.Returned r
    /\ pdf_metadata (processing_summary r)
       = <["source_type" := MStr "document"]> parsed
    /\ source_total_pages (processing_summary r)
       = default (MInt (Z.of_nat (length shots.1.1.2))) (parsed !! "pages")
    /\ processed_pages_count (processing_summary r) = length shots.1.1.2
    /\ length (pages r) = length shots.1.1.2.
Proof.
  intros Hin Himg conv Hconv meta Hmeta shots Hshots run Hpages parsed.
  pose proof (extract_pages_success_nonempty w pdf_path
                (job_dir ++ ["screenshots"]) config meta.2 Hshots) as Hne.
  fold shots in Hne.
  assert (Hprep :
    prepare_document w input_file_path job_dir config fs
    = (Py.Returned (<["source_type" := MStr "document"]> parsed, shots.1.1.2),
       shots.2)).
  { unfold prepare_document.
    change (joinpath job_dir "converted") with (job_dir ++ ["converted"]).
    change (joinpath job_dir "screenshots") with (job_dir ++ ["screenshots"]).
    fold conv. destruct conv as [[[cs cp] ce] fs1] eqn:Econv.
    cbn [fst snd] in *. injection Hconv as -> ->.
    subst parsed. fold meta. destruct meta as [[[ms mo] me] fs2] eqn:Emeta.
    cbn [fst snd] in *. subst ms.
    fold shots. destruct shots as [[[ss sp] se] fs3] eqn:Eshots.
    cbn [fst snd] in *. subst ss. cbn [negb orb].
    rewrite bool_decide_eq_false_2 by exact Hne. reflexivity. }
  destruct (run_of_prepared_document w input_file_path user_prompt
              output_format use_meta_intelligence config llm_api_key job_dir
              fs shots.2 _ _ Hin Himg Hprep Hpages) as (rs & Hlen & Hout).
  eexists. split; [exact Hout|].
  cbn [pdf_metadata processing_summary source_total_pages
       processed_pages_count pages aggregate_processing_results].
  split; [reflexivity|]. split.
  { unfold reported_total_pages.
    rewrite lookup_insert_ne by discriminate. now rewrite Hlen. }
  split.
  - destruct (count_results_spec rs) as (Hc & _). now rewrite Hc.
  - now rewrite sorted_length.
Qed.

(** X29, witness: the metadata tool announces twelve pages and two page images
    are rendered; the result reports twelve pages and holds two. The run
    is in the JSON format and both pages come back as parse errors. *)
Lemma metadata_success_reports_pdfinfo_pages_witness :
  exists r : AggregatedResult,
    run_outcome (Scenario.run PdfInfoWorld.world "json" false default_settings)
    = Py.Returned r
    /\ source_total_pages (processing_summary r) = MInt 12
    /\ processed_pages_count (processing_summary r) = 2.
Proof.
  destruct (metadata_success_reports_pdfinfo_pages PdfInfoWorld.world
              Scenario.input_file_path "Describe the page" "json" false
              default_settings "key" Scenario.job_dir Scenario.initial_fs
              Scenario.pdf_path
              ltac:(vm_compute; reflexivity)
              ltac:(vm_compute; reflexivity)
              ltac:(vm_compute; reflexivity)
              ltac:(vm_compute; reflexivity)
              ltac:(vm_compute; reflexivity)
              ltac:(main_pass_returns))
    as (r & Hrun & _ & Htotal & Hcount & _).
  exists r. split; [exact Hrun|]. split.
  - etrans; [exact Htotal|]. vm_compute. reflexivity.
  - etrans; [exact Hcount|]. vm_compute. reflexivity.
Defined.

(** ** The prompt of the main pass *)

Lemma string_app_nil_r (s : string) : s +:+ "" = s.
Proof. induction s as [|c s IH]; app_head; [reflexivity | now rewrite IH]. Qed.

Lemma concat_cons (x : string) (l : list string) :
  String.concat "" (x :: l) = x +:+ String.concat "" l.
Proof.
  destruct l as [|y l]; cbn [String.concat]; [now rewrite string_app_nil_r|].
  now app_head.
Qed.

(** The loop that writes one line per kept result. *)
Lemma meta_context_lines
    (line : nat -> list (string * json) -> string)
    (kept : list (list (string * json))) (k : nat) (acc : string) :
  fold_left (fun meta_context '(i, d) => meta_context +:+ line i d)
    (imap (fun i d => (k + i, d)) kept) acc
  = acc +:+ String.concat "" (imap (fun i d => line (k + i) d) kept).
Proof.
  revert k acc. induction kept as [|d kept IH]; intros k acc.
  - cbn. now rewrite string_app_nil_r.
  - cbn [imap fold_left]. rewrite concat_cons, <- string_app_assoc.
    rewrite Nat.add_0_r.
    rewrite (imap_ext _ (fun i d => (S k + i, d)) kept)
      by (intros; cbn; f_equal; lia).
    rewrite IH. f_equal. f_equal. apply imap_ext. intros i x _. cbn.
    f_equal. lia.
Qed.

(** X30. The context the pre-pass hands to the main pass. When at least one
    pre-pass result is kept, the context is not empty and every page task
    of the main pass receives the prompt made of [DOCUMENT CONTEXT:], the
    context, a rule, [USER TASK:] and the user's prompt. The context is
    the stripped text of a heading that gives the number of kept results
    and one line [- Page i: ...] per kept result, where [i] is the
    position of the result among the kept ones, counted from 1, not the
    number of the page it came from. *)
Theorem meta_context_numbers_kept_results_by_position
    (w : World) (kept : list (list (string * json))) (user_prompt : string) :
  kept <> [] ->
  let meta_context := build_meta_context w kept in
  meta_context
  = Py.strip
      ("Document Context Summary (from first "
       +:+ Py.str_of_nat (length kept) +:+ " page(s)):" +:+ newline
       +:+ String.concat ""
             (imap (fun i d =>
                      "- Page " +:+ Py.str_of_nat (i + 1) +:+ ": "
                      +:+ json_dumps w d +:+ newline)
                kept))
  /\ meta_context <> ""
  /\ final_user_prompt meta_context user_prompt
     = "DOCUMENT CONTEXT:" +:+ newline +:+ meta_context +:+ newline
       +:+ newline +:+ "---" +:+ newline +:+ newline +:+ "USER TASK:"
       +:+ newline +:+ user_prompt
  /\ forall screenshot_paths output_format job_dir c,
       c ∈ main_pass_calls screenshot_paths
             (final_user_prompt meta_context user_prompt) output_format
             job_dir ->
       call_prompt c = final_user_prompt meta_context user_prompt.
Proof.
  intros Hne. cbv zeta.
  assert (Hctx :
    build_meta_context w kept
    = Py.strip
        ("Document Context Summary (from first "
         +:+ Py.str_of_nat (length kept) +:+ " page(s)):" +:+ newline
         +:+ String.concat ""
               (imap (fun i d =>
                        "- Page " +:+ Py.str_of_nat (i + 1) +:+ ": "
                        +:+ json_dumps w d +:+ newline)
                  kept))).
  { unfold build_meta_context. destruct kept as [|d kept]; [congruence|].
    f_equal.
    pose proof (meta_context_lines
                  (fun i d => "- Page " +:+ Py.str_of_nat (i + 1) +:+ ": "
                              +:+ json_dumps w d +:+ newline)
                  (d :: kept) 0) as Hlines.
    cbn [Nat.add] in Hlines.
    rewrite (imap_ext _ pair (d :: kept)) in Hlines by reflexivity.
    etrans; [|etrans; [apply Hlines|]].
    - reflexivity.
    - rewrite !string_app_assoc. reflexivity. }
  assert (Hnonempty : Py.truthy (build_meta_context w kept) = true).
  { rewrite Hctx. apply strip_nonspace_head.
    apply (nonspace_head_app "Document Context Summary (from first ").
    split; [reflexivity | discriminate]. }
  split; [exact Hctx|].
  split; [now apply truthy_nonempty|].
  unfold final_user_prompt. rewrite Hnonempty.
  split; [reflexivity|].
  intros paths fmt dir c Hc. unfold main_pass_calls in Hc.
  apply list_elem_of_lookup in Hc as [i Hi].
  rewrite list_lookup_imap in Hi.
  apply fmap_Some in Hi as (p & _ & ->). reflexivity.
Qed.

(** X30, witness: one kept result, whatever page it came from, is given as
    that of page 1. *)
Lemma meta_context_numbers_kept_results_by_position_witness :
  let w := Scenario.world 0 0 2 (Scenario.always "{}") in
  build_meta_context w [[]]
  = "Document Context Summary (from first 1 page(s)):" +:+ newline
    +:+ "- Page 1: {}".
Proof.
  cbv zeta.
  destruct (meta_context_numbers_kept_results_by_position
              (Scenario.world 0 0 2 (Scenario.always "{}")) [[]] ""
              ltac:(discriminate))
    as (Hctx & _).
  etrans; [exact Hctx|]. vm_compute. reflexivity.
Defined.
